(** * Availability slot engine and booking guard of the calendar application

    A shallow embedding of [src/utils/dateHelpers.ts], [src/actions/slots.ts]
    (slot listing and calendar settings) and of the booking action
    ([createBooking]), with the properties stated about them.

    Conventions.
    - A JavaScript [Date] is the integer number of milliseconds since the
      epoch ([Z]).  The invalid date that a time string gives when [Number]
      turns it into [NaN] is modelled where it arises.  JavaScript also makes
      a date invalid beyond 8.64e15 milliseconds from the epoch; [Z] has no
      such bound, and statements that depend on it carry the range as a
      hypothesis.
    - The strings a caller passes in are ASCII, one character for each
      UTF-16 code unit, so that [String.length] is the length JavaScript and
      zod measure.
    - Local time is a zone with a fixed offset [tz] (milliseconds east of
      UTC); zones with daylight-saving transitions are outside the model.
    - Timestamps stored in the database and ISO strings exchanged with it are
      identified with the instant they denote.
    - [while] loops run on fuel and return [None] when it runs out. *)

From Stdlib Require Import ZArith Lia Bool Ascii.
From stdpp Require Import base option list strings gmap sorting.

Local Open Scope Z_scope.

(** ** date-fns *)

Module DateFns.

Definition Date : Type := Z.

Definition MS_PER_MINUTE : Z := 60000.
Definition MS_PER_HOUR : Z := 3600000.
Definition MS_PER_DAY : Z := 86400000.

Definition isBefore (a b : Date) : bool := a <? b.
Definition isAfter (a b : Date) : bool := b <? a.

Definition addMinutes (d : Date) (amount : Z) : Date := d + amount * MS_PER_MINUTE.
Definition addDays (d : Date) (amount : Z) : Date := d + amount * MS_PER_DAY.

(** [differenceInMinutes] truncates towards zero. *)
Definition differenceInMinutes (later earlier : Date) : Z :=
  Z.quot (later - earlier) MS_PER_MINUTE.

Section Zone.
Variable tz : Z.

Definition localTime (d : Date) : Z := d + tz.

Definition getHours (d : Date) : Z := (localTime d mod MS_PER_DAY) / MS_PER_HOUR.
Definition getMinutes (d : Date) : Z := (localTime d mod MS_PER_HOUR) / MS_PER_MINUTE.

(** [setHours] and [setMinutes] replace one field of the local time and
    keep the others (seconds and milliseconds included); a value outside
    the field's range carries over, as [Date.prototype.setHours] does. *)
Definition setHours (d : Date) (hours : Z) : Date := d + (hours - getHours d) * MS_PER_HOUR.
Definition setMinutes (d : Date) (minutes : Z) : Date := d + (minutes - getMinutes d) * MS_PER_MINUTE.

(** Number of the local calendar day; two dates have the same
    [toDateString] exactly when they have the same day number. *)
Definition dayNumber (d : Date) : Z := localTime d / MS_PER_DAY.

(** Day of the week, 0 = Sunday; the epoch was a Thursday. *)
Definition getDay (d : Date) : Z := (dayNumber d + 4) mod 7.

Definition isSameDay (a b : Date) : bool := dayNumber a =? dayNumber b.
End Zone.

End DateFns.

Import DateFns.

(** ** JavaScript string helpers used on [HH:MM] times *)

Module Js.

Definition digitValue (c : Ascii.ascii) : option Z :=
  let n := Ascii.nat_of_ascii c in
  if ((48 <=? n) && (n <=? 57))%nat then Some (Z.of_nat (n - 48)) else None.

Fixpoint digitsValue (acc : Z) (s : string) : option Z :=
  match s with
  | EmptyString => Some acc
  | String c s' => v ← digitValue c; digitsValue (10 * acc + v) s'
  end.

(** [Number] on a string of decimal digits (the empty string is 0).  Every
    other string gives [None], which stands for [NaN]: the times the engine
    receives are [HH:MM] or [HH:MM:SS] digit groups.  The strings that
    JavaScript reads as a number although they are not digit groups (white
    space around the digits, a sign, decimals, an exponent, a hexadecimal
    literal) are outside the model; statements that depend on the value of a
    time string take it from [parseHM] as a hypothesis. *)
Definition Number (s : string) : option Z := digitsValue 0 s.

(** [s.split(sep)] for a one-character separator. *)
Fixpoint split (sep : Ascii.ascii) (s : string) : list string :=
  match s with
  | EmptyString => [EmptyString]
  | String c s' =>
      if Ascii.eqb c sep then EmptyString :: split sep s'
      else match split sep s' with
           | h :: t => String c h :: t
           | [] => [String c EmptyString]
           end
  end.

(** [const [h, m] = t.split(':').map(Number)]; [None] when a component is
    missing or is [NaN]. *)
Definition parseHM (t : string) : option (Z * Z) :=
  match map Number (split ":"%char t) with
  | Some h :: Some m :: _ => Some (h, m)
  | _ => None
  end.

(** [x || 0] on an optional number. *)
Definition orZero (x : option Z) : Z := default 0 x.

End Js.

Import Js.

(** ** dateHelpers.ts *)

Record Slot := { start : Date; end_ : Date }.

Module TimeSlotConfig.
Record t := {
  startTime : string;
  endTime : string;
  slotDuration : Z;
  bufferTime : option Z
}.
End TimeSlotConfig.

Module DateHelpers.

Definition getDurationInMinutes (start_ finish : Date) : Z :=
  differenceInMinutes finish start_.

Definition getDayOfWeek (tz : Z) (date : Date) : Z := getDay tz date.

(** [Array.from({ length: days }, (_, i) => addDays(startDate, i))]. *)
Definition getDateRange (startDate : Date) (days : Z) : list Date :=
  map (fun i => addDays startDate (Z.of_nat i)) (seq 0 (Z.to_nat days)).

Definition hasMinimumNotice (now date : Date) (minHours : Z) : bool :=
  isAfter date (addMinutes now (minHours * 60)).

(** The body of the [while] loop of [generateTimeSlots]; the array the
    source pushes to is the list built front to back. *)
Fixpoint slotLoop (fuel : nat) (dayEnd : Date) (duration buffer : Z)
    (currentSlot : Date) : option (list Slot) :=
  match fuel with
  | O => None
  | S fuel' =>
      if isBefore currentSlot dayEnd then
        let slotEnd := addMinutes currentSlot duration in
        let pushed :=
          if isBefore slotEnd dayEnd || (slotEnd =? dayEnd)
          then [ {| start := currentSlot; end_ := slotEnd |} ] else [] in
        rest ← slotLoop fuel' dayEnd duration buffer (addMinutes slotEnd buffer);
        Some (pushed ++ rest)
      else Some []
  end.

(** [setMinutes(setHours(date, h), m)] for a time string; [None] is the
    invalid date. *)
Definition atTime (tz : Z) (date : Date) (t : string) : option Date :=
  match parseHM t with
  | Some (h, m) => Some (setMinutes tz (setHours tz date h) m)
  | None => None
  end.

(** An invalid date on either side makes [isBefore] false, so the loop
    body never runs. *)
Definition generateTimeSlots (tz : Z) (fuel : nat) (date : Date)
    (config : TimeSlotConfig.t) : option (list Slot) :=
  match atTime tz date (TimeSlotConfig.startTime config),
        atTime tz date (TimeSlotConfig.endTime config) with
  | Some currentSlot, Some dayEnd =>
      slotLoop fuel dayEnd (TimeSlotConfig.slotDuration config)
        (orZero (TimeSlotConfig.bufferTime config)) currentSlot
  | _, _ => Some []
  end.

Definition doTimesOverlap (start1 end1 start2 end2 : Date) : bool :=
  (isBefore start1 end2 && isAfter end1 start2)
  || (isBefore start2 end1 && isAfter end2 start1).

Definition isSlotAvailable (slotStart slotEnd : Date) (bookedSlots : list Slot) : bool :=
  negb (existsb (fun booked => doTimesOverlap slotStart slotEnd (start booked) (end_ booked))
          bookedSlots).

End DateHelpers.

Import DateHelpers.


(** ** types/database.ts and the tables of the schema

    Columns that no modelled function reads ([created_at], [updated_at]) are
    left out.  The UUID keys of [events] and [bookings] are natural numbers. *)

Module Event.
Record t := {
  id : nat;
  title : string;
  description : option string;
  start_time : Date;
  end_time : Date;
  is_public : bool;
  event_type : string
}.
End Event.

Module Booking.
Record t := {
  id : nat;
  event_id : nat;
  name : string;
  email : string;
  phone : option string;
  notes : option string;
  status : string
}.
End Booking.

Module AvailabilityRule.
Record t := {
  id : string;
  user_id : string;
  day_of_week : Z;
  start_time : string;
  end_time : string;
  is_active : bool
}.
End AvailabilityRule.

Module DaySchedule.
Record t := {
  day_of_week : Z;
  start_time : string;
  end_time : string;
  is_active : bool
}.
End DaySchedule.

Module CalendarSettings.
Record t := {
  id : string;
  user_id : string;
  slot_duration : Z;
  buffer_time : Z;
  advance_booking_days : Z;
  min_notice_hours : Z
}.
End CalendarSettings.

Module TimeSlot.
Record t := { start : Date; end_ : Date; available : bool }.
End TimeSlot.

Module ApiResponse.
Record t (A : Type) := { success : bool; data : option A; error : option string }.
Arguments success {A} _.
Arguments data {A} _.
Arguments error {A} _.

Definition ok {A} (a : A) : t A := {| success := true; data := Some a; error := None |}.
Definition rejection {A} (msg : string) : t A :=
  {| success := false; data := None; error := Some msg |}.
End ApiResponse.

(** ** The Supabase client

    The store is a record of tables.  One awaited query either resolves to a
    response [{ data, error }] or rejects (throws); which one is decided by
    the [Fault] injected for that call. *)

Module Supabase.

Record Database := {
  events : list Event.t;
  bookings : list Booking.t;
  availability_rules : list AvailabilityRule.t;
  calendar_settings : list CalendarSettings.t
}.

Record PostgrestError := { message : string }.

Record Response (A : Type) := { data : option A; error : option PostgrestError }.
Arguments data {A} _.
Arguments error {A} _.

Inductive Awaited (A : Type) :=
| Resolved (r : Response A)
| Rejected (msg : string).
Arguments Resolved {A} _.
Arguments Rejected {A} _.

Inductive Fault :=
| NoFault
| Fails (e : PostgrestError)
| Throws (msg : string).

Definition respond {A} (f : Fault) (result : A) : Awaited A :=
  match f with
  | NoFault => Resolved {| data := Some result; error := None |}
  | Fails e => Resolved {| data := None; error := Some e |}
  | Throws msg => Rejected msg
  end.

End Supabase.

Import Supabase.

(** ** actions/slots.ts *)

Module GetAvailableSlotsParams.
Record t := {
  startDate : Date;
  days : option Z;
  slotDuration : option Z;
  bufferTime : option Z
}.
End GetAvailableSlotsParams.

Module Slots.

Definition defaultRule (id : string) (day : Z) : AvailabilityRule.t :=
  {| AvailabilityRule.id := id; AvailabilityRule.user_id := "default";
     AvailabilityRule.day_of_week := day;
     AvailabilityRule.start_time := "09:00"; AvailabilityRule.end_time := "18:00";
     AvailabilityRule.is_active := true |}.

Definition DEFAULT_AVAILABILITY_RULES : list AvailabilityRule.t :=
  [ defaultRule "1" 1; defaultRule "2" 2; defaultRule "3" 3;
    defaultRule "4" 4; defaultRule "5" 5 ].

(** [.from('events').select(..).gte('start_time', from).lte('end_time', to)
    .eq('is_public', true)] *)
Definition selectEvents (db : Database) (from to : Date) : list Event.t :=
  List.filter
    (fun e => (from <=? Event.start_time e) && (Event.end_time e <=? to)
              && Event.is_public e)
    (events db).

(** [.from('availability_rules').select('*').eq('is_active', true)] *)
Definition selectActiveRules (db : Database) : list AvailabilityRule.t :=
  List.filter AvailabilityRule.is_active (availability_rules db).

(** The rule set used by the engine (lines 57-68). *)
Definition resolveRules (r : Response (list AvailabilityRule.t)) : list AvailabilityRule.t :=
  match error r, data r with
  | None, Some (rule :: rest) => rule :: rest
  | _, _ => DEFAULT_AVAILABILITY_RULES
  end.

Definition findRule (rules : list AvailabilityRule.t) (dayOfWeek : Z)
  : option AvailabilityRule.t :=
  List.find (fun r => AvailabilityRule.day_of_week r =? dayOfWeek) rules.

Definition bookedSlotsOn (tz : Z) (events : list Event.t) (date : Date) : list Slot :=
  map (fun e => {| start := Event.start_time e; end_ := Event.end_time e |})
    (List.filter (fun e => dayNumber tz (Event.start_time e) =? dayNumber tz date) events).

(** One iteration of [for (const date of dateRange)]: the slots pushed for
    that day, [None] when the slot loop does not return. *)
Definition daySlots (tz : Z) (fuel : nat) (rules : list AvailabilityRule.t)
    (events : list Event.t) (slotDuration bufferTime : Z) (date : Date)
  : option (list TimeSlot.t) :=
  match findRule rules (getDayOfWeek tz date) with
  | None => Some []
  | Some dayRule =>
      generated ← generateTimeSlots tz fuel date
        {| TimeSlotConfig.startTime := AvailabilityRule.start_time dayRule;
           TimeSlotConfig.endTime := AvailabilityRule.end_time dayRule;
           TimeSlotConfig.slotDuration := slotDuration;
           TimeSlotConfig.bufferTime := Some bufferTime |};
      let bookedSlots := bookedSlotsOn tz events date in
      Some (map (fun slot =>
                   {| TimeSlot.start := start slot; TimeSlot.end_ := end_ slot;
                      TimeSlot.available :=
                        isSlotAvailable (start slot) (end_ slot) bookedSlots |})
              generated)
  end.

Fixpoint allSlots (tz : Z) (fuel : nat) (rules : list AvailabilityRule.t)
    (events : list Event.t) (slotDuration bufferTime : Z) (dateRange : list Date)
  : option (list TimeSlot.t) :=
  match dateRange with
  | [] => Some []
  | date :: later =>
      today ← daySlots tz fuel rules events slotDuration bufferTime date;
      rest ← allSlots tz fuel rules events slotDuration bufferTime later;
      Some (today ++ rest)
  end.

(** [getAvailableSlots].  [eventsFault] and [rulesFault] decide how the two
    queries end.  The result is [None] only when a slot loop runs out of
    fuel; every exception raised in the [try] block yields [[]]. *)
Definition getAvailableSlots (tz : Z) (fuel : nat) (db : Database)
    (eventsFault rulesFault : Fault) (params : GetAvailableSlotsParams.t)
  : option (list TimeSlot.t) :=
  let startDate := GetAvailableSlotsParams.startDate params in
  let days := default 60 (GetAvailableSlotsParams.days params) in
  let slotDuration := default 30 (GetAvailableSlotsParams.slotDuration params) in
  let bufferTime := default 0 (GetAvailableSlotsParams.bufferTime params) in
  let dateRange := getDateRange startDate days in
  match last dateRange with
  | None => Some []   (* endDate.toISOString() throws on undefined *)
  | Some endDate =>
      match respond eventsFault (selectEvents db startDate endDate) with
      | Rejected _ => Some []
      | Resolved eventsResponse =>
          match error eventsResponse with
          | Some _ => Some []
          | None =>
              match respond rulesFault (selectActiveRules db) with
              | Rejected _ => Some []
              | Resolved rulesResponse =>
                  allSlots tz fuel (resolveRules rulesResponse)
                    (default [] (data eventsResponse)) slotDuration bufferTime dateRange
              end
          end
      end
  end.

Definition getAvailableSlotsForDay (tz : Z) (fuel : nat) (db : Database)
    (eventsFault rulesFault : Fault) (date : Date) (slotDuration bufferTime : Z)
  : option (list TimeSlot.t) :=
  getAvailableSlots tz fuel db eventsFault rulesFault
    {| GetAvailableSlotsParams.startDate := date;
       GetAvailableSlotsParams.days := Some 1;
       GetAvailableSlotsParams.slotDuration := Some slotDuration;
       GetAvailableSlotsParams.bufferTime := Some bufferTime |}.

End Slots.

Import Slots.

(** ** actions/settings: the admin schedule read *)

Module Settings.

Definition defaultDay (day : Z) (active : bool) : DaySchedule.t :=
  {| DaySchedule.day_of_week := day;
     DaySchedule.start_time := "09:00"; DaySchedule.end_time := "18:00";
     DaySchedule.is_active := active |}.

Definition DEFAULT_SCHEDULE : list DaySchedule.t :=
  [ defaultDay 0 false; defaultDay 1 true; defaultDay 2 true; defaultDay 3 true;
    defaultDay 4 true; defaultDay 5 true; defaultDay 6 false ].

Definition columns (r : AvailabilityRule.t) : DaySchedule.t :=
  {| DaySchedule.day_of_week := AvailabilityRule.day_of_week r;
     DaySchedule.start_time := AvailabilityRule.start_time r;
     DaySchedule.end_time := AvailabilityRule.end_time r;
     DaySchedule.is_active := AvailabilityRule.is_active r |}.

(** [.order('day_of_week')]: rows of one weekday keep their table order. *)
Fixpoint insertByDay (r : DaySchedule.t) (sorted : list DaySchedule.t) : list DaySchedule.t :=
  match sorted with
  | [] => [r]
  | x :: rest =>
      if DaySchedule.day_of_week r <=? DaySchedule.day_of_week x
      then r :: sorted
      else x :: insertByDay r rest
  end.

Definition orderByDay (rows : list DaySchedule.t) : list DaySchedule.t :=
  foldr insertByDay [] rows.

(** The rows of [availability_rules] owned by [user], in table order. *)
Definition persistedRows (db : Database) (user : string) : list DaySchedule.t :=
  map columns
    (List.filter (fun r => String.eqb (AvailabilityRule.user_id r) user)
       (availability_rules db)).

(** [.select('day_of_week, start_time, end_time, is_active')
    .eq('user_id', user.id).order('day_of_week')] *)
Definition selectSchedule (db : Database) (user : string) : list DaySchedule.t :=
  orderByDay (persistedRows db user).

Definition findDay (rows : list DaySchedule.t) (day : Z) : option DaySchedule.t :=
  List.find (fun r => DaySchedule.day_of_week r =? day) rows.

(** [DEFAULT_SCHEDULE.map((defaultDay) => ...)] (lines 282-293). *)
Definition mergeWithDefaults (rows : list DaySchedule.t) : list DaySchedule.t :=
  map (fun defaultDay =>
         match findDay rows (DaySchedule.day_of_week defaultDay) with
         | Some existingRule =>
             {| DaySchedule.day_of_week := DaySchedule.day_of_week existingRule;
                DaySchedule.start_time := DaySchedule.start_time existingRule;
                DaySchedule.end_time := DaySchedule.end_time existingRule;
                DaySchedule.is_active := DaySchedule.is_active existingRule |}
         | None => defaultDay
         end)
    DEFAULT_SCHEDULE.

(** [getSchedule]; [user] is what [getCurrentUser] returned. *)
Definition getSchedule (user : option string) (db : Database) (fault : Fault)
  : ApiResponse.t (list DaySchedule.t) :=
  match user with
  | None => ApiResponse.rejection "No autenticado"
  | Some uid =>
      match respond fault (selectSchedule db uid) with
      | Rejected _ => ApiResponse.rejection "Error inesperado"
      | Resolved r =>
          match error r, data r with
          | Some _, _ => ApiResponse.ok DEFAULT_SCHEDULE
          | None, None => ApiResponse.ok DEFAULT_SCHEDULE
          | None, Some [] => ApiResponse.ok DEFAULT_SCHEDULE
          | None, Some rows => ApiResponse.ok (mergeWithDefaults rows)
          end
      end
  end.

End Settings.

Import Settings.

(** ** utils/validations.ts: [createBookingSchema] *)

Module CreateBookingInput.
Record t := {
  slot_start : string;
  slot_end : string;
  name : string;
  email : string;
  phone : option string;
  notes : option string
}.
End CreateBookingInput.

Module Validations.
Section Zod.
(** The string checks of the zod library are parameters:
    [datetime s] is the instant an ISO 8601 datetime string denotes
    ([new Date(s)]), [None] when [z.string().datetime()] rejects it;
    [isEmail] is [z.string().email()]; [matchesPhone] is the
    regular-expression test of the [phone] field.  The lengths are those
    of ASCII text. *)
Variable datetime : string -> option Date.
Variable isEmail : string -> bool.
Variable matchesPhone : string -> bool.

Definition isDatetime (s : string) : bool :=
  match datetime s with Some _ => true | None => false end.

Definition issueUnless (ok : bool) (msg : string) : list string :=
  if ok then [] else [msg].

(** The messages of [validation.error.issues], in schema order. *)
Definition issues (input : CreateBookingInput.t) : list string :=
  issueUnless (isDatetime (CreateBookingInput.slot_start input)) "Fecha de inicio inválida"
  ++ issueUnless (isDatetime (CreateBookingInput.slot_end input)) "Fecha de fin inválida"
  ++ issueUnless (2 <=? String.length (CreateBookingInput.name input))%nat
    "El nombre debe tener al menos 2 caracteres"
  ++ issueUnless (String.length (CreateBookingInput.name input) <=? 255)%nat
    "El nombre debe tener máximo 255 caracteres"
  ++ issueUnless (isEmail (CreateBookingInput.email input)) "Email inválido"
  ++ issueUnless (String.length (CreateBookingInput.email input) <=? 255)%nat
    "El email debe tener máximo 255 caracteres"
  ++ match CreateBookingInput.phone input with
     | Some p => issueUnless (matchesPhone p) "Teléfono inválido"
     | None => []
     end
  ++ match CreateBookingInput.notes input with
     | Some n => issueUnless (String.length n <=? 1000)%nat
                   "Las notas deben tener máximo 1000 caracteres"
     | None => []
     end.

(** [createBookingSchema.safeParse(input)]: the first issue's message,
    or the validated data. *)
Definition safeParse (input : CreateBookingInput.t) : string + CreateBookingInput.t :=
  match issues input with
  | msg :: _ => inl msg
  | [] => inr input
  end.
End Zod.
End Validations.

(** ** actions/bookings: [createBooking] *)

Module Bookings.

(** How each of the four store calls of [createBooking] ends. *)
Record Faults := {
  checkFault : Fault;
  eventInsertFault : Fault;
  bookingInsertFault : Fault;
  deleteFault : Fault
}.

Definition noFaults : Faults :=
  {| checkFault := NoFault; eventInsertFault := NoFault;
     bookingInsertFault := NoFault; deleteFault := NoFault |}.

(** [uuid_generate_v4()]: a key no row of the table has. *)
Definition freshId (ids : list nat) : nat := S (foldr Nat.max 0%nat ids).

(** [x || null] on an optional string. *)
Definition orNull (x : option string) : option string :=
  match x with
  | Some EmptyString => None
  | other => other
  end.

(** [.from('events').select('id').eq('start_time', s).eq('end_time', e)
    .maybeSingle()]: no row is [null], one row is that row, several rows
    are an error. *)
Definition selectExisting (db : Database) (f : Fault) (slotStart slotEnd : Date)
  : Awaited (option nat) :=
  match f with
  | NoFault =>
      match List.filter
              (fun ev => (Event.start_time ev =? slotStart) && (Event.end_time ev =? slotEnd))
              (events db) with
      | [] => Resolved {| data := Some None; error := None |}
      | [ev] => Resolved {| data := Some (Some (Event.id ev)); error := None |}
      | _ => Resolved {| data := None;
                         error := Some {| message := "JSON object requested, multiple (or no) rows returned" |} |}
      end
  | Fails e => Resolved {| data := None; error := Some e |}
  | Throws msg => Rejected msg
  end.

(** The CHECK constraints [valid_time_range] and [valid_duration] of the
    [events] table. *)
Definition eventConstraints (ev : Event.t) : bool :=
  (Event.start_time ev <? Event.end_time ev)
  && (Event.end_time ev - Event.start_time ev <=? 24 * MS_PER_HOUR).

(** [.from('events').insert(row).select('id').single()] *)
Definition insertEvent (db : Database) (f : Fault) (row : nat -> Event.t)
  : Awaited nat * Database :=
  match f with
  | NoFault =>
      let newId := freshId (map Event.id (events db)) in
      if eventConstraints (row newId) then
        (Resolved {| data := Some newId; error := None |},
         {| events := events db ++ [row newId]; bookings := bookings db;
            availability_rules := availability_rules db;
            calendar_settings := calendar_settings db |})
      else
        (Resolved {| data := None;
                     error := Some {| message := "new row for relation events violates check constraint" |} |},
         db)
  | Fails e => (Resolved {| data := None; error := Some e |}, db)
  | Throws msg => (Rejected msg, db)
  end.

(** [.from('bookings').insert(row).select('id').single()] *)
Definition insertBooking (db : Database) (f : Fault) (row : nat -> Booking.t)
  : Awaited nat * Database :=
  match f with
  | NoFault =>
      let newId := freshId (map Booking.id (bookings db)) in
      (Resolved {| data := Some newId; error := None |},
       {| events := events db; bookings := bookings db ++ [row newId];
          availability_rules := availability_rules db;
          calendar_settings := calendar_settings db |})
  | Fails e => (Resolved {| data := None; error := Some e |}, db)
  | Throws msg => (Rejected msg, db)
  end.

(** [.from('events').delete().eq('id', id)]; bookings of the event go with
    it ([ON DELETE CASCADE]). *)
Definition deleteEvent (db : Database) (f : Fault) (id : nat) : Awaited unit * Database :=
  match f with
  | NoFault =>
      (Resolved {| data := Some tt; error := None |},
       {| events := List.filter (fun ev => negb (Event.id ev =? id)%nat) (events db);
          bookings := List.filter (fun b => negb (Booking.event_id b =? id)%nat) (bookings db);
          availability_rules := availability_rules db;
          calendar_settings := calendar_settings db |})
  | Fails e => (Resolved {| data := None; error := Some e |}, db)
  | Throws msg => (Rejected msg, db)
  end.

Definition unexpected (msg : string) : ApiResponse.t nat :=
  ApiResponse.rejection (String.append "Error inesperado: " msg).

(** [message || 'Unknown error'] *)
Definition orUnknown (msg : string) : string :=
  match msg with
  | EmptyString => "Unknown error"
  | _ => msg
  end.

Section CreateBooking.
Variable datetime : string -> option Date.
Variable isEmail : string -> bool.
Variable matchesPhone : string -> bool.

Definition eventRow (input : CreateBookingInput.t) (slotStart slotEnd : Date)
    (id : nat) : Event.t :=
  {| Event.id := id;
     Event.title := String.append "Reserva: " (CreateBookingInput.name input);
     Event.description := orNull (CreateBookingInput.notes input);
     Event.start_time := slotStart;
     Event.end_time := slotEnd;
     Event.is_public := true;
     Event.event_type := "booking" |}.

Definition bookingRow (input : CreateBookingInput.t) (eventId id : nat) : Booking.t :=
  {| Booking.id := id;
     Booking.event_id := eventId;
     Booking.name := CreateBookingInput.name input;
     Booking.email := CreateBookingInput.email input;
     Booking.phone := orNull (CreateBookingInput.phone input);
     Booking.notes := orNull (CreateBookingInput.notes input);
     Booking.status := "confirmed" |}.

(** Lines 70-121, after the three guards. *)
Definition createRecords (db : Database) (faults : Faults)
    (input : CreateBookingInput.t) (slotStart slotEnd : Date)
  : ApiResponse.t nat * Database :=
  match insertEvent db (eventInsertFault faults) (eventRow input slotStart slotEnd) with
  | (Rejected msg, db1) => (unexpected msg, db1)
  | (Resolved eventResponse, db1) =>
      match error eventResponse, data eventResponse with
      | Some e, _ =>
          (ApiResponse.rejection
             (String.append "Error al crear el evento: " (orUnknown (message e))), db1)
      | None, None =>
          (ApiResponse.rejection "Error al crear el evento: Unknown error", db1)
      | None, Some eventId =>
          match insertBooking db1 (bookingInsertFault faults) (bookingRow input eventId) with
          | (Rejected msg, db2) => (unexpected msg, db2)
          | (Resolved bookingResponse, db2) =>
              match error bookingResponse, data bookingResponse with
              | Some e, _ =>
                  match deleteEvent db2 (deleteFault faults) eventId with
                  | (Rejected msg, db3) => (unexpected msg, db3)
                  | (Resolved _, db3) =>
                      (ApiResponse.rejection
                         (String.append "Error al crear la reserva: " (message e)), db3)
                  end
              | None, Some bookingId => (ApiResponse.ok bookingId, db2)
              | None, None => (unexpected "Cannot read properties of null", db2)
              end
          end
      end
  end.

(** [createBooking(input)] run at instant [now] against [db]: the
    response and the store afterwards. *)
Definition createBooking (now : Date) (db : Database) (faults : Faults)
    (input : CreateBookingInput.t) : ApiResponse.t nat * Database :=
  match Validations.safeParse datetime isEmail matchesPhone input with
  | inl msg => (ApiResponse.rejection msg, db)
  | inr validated =>
      match datetime (CreateBookingInput.slot_start validated),
            datetime (CreateBookingInput.slot_end validated) with
      | Some slotStart, Some slotEnd =>
          if slotStart <? now then
            (ApiResponse.rejection "No se puede reservar un horario pasado", db)
          else
            match selectExisting db (checkFault faults) slotStart slotEnd with
            | Rejected msg => (unexpected msg, db)
            | Resolved check =>
                match error check, data check with
                | Some _, _ =>
                    (ApiResponse.rejection "Error al verificar disponibilidad", db)
                | None, Some (Some _) =>
                    (ApiResponse.rejection "Este horario ya fue reservado", db)
                | None, _ => createRecords db faults validated slotStart slotEnd
                end
            end
      | _, _ => (unexpected "Invalid time value", db)
      end
  end.
End CreateBooking.

End Bookings.

Import Bookings.

(** ** The calendar component: which slots count towards a day's dot *)

Module Calendar.

Definition minDate (now : Date) : Date := now + 12 * 60 * 60 * 1000.
Definition maxDate (now : Date) : Date := now + 7 * 24 * 60 * 60 * 1000.

(** The slots that pass both [continue] tests of [availableByDay]. *)
Definition counted (now : Date) (s : TimeSlot.t) : bool :=
  TimeSlot.available s
  && negb ((TimeSlot.start s <? minDate now) || (maxDate now <? TimeSlot.start s)).

End Calendar.

(** ** actions/settings: the other actions

    [getCalendarSettings], [saveCalendarSettings], [saveSchedule] and
    [getPublicCalendarConfig].  [requireAuth] redirects by throwing, inside
    the [try] block of the caller: without a user the two save actions end
    in their [catch]. *)

Module SettingsInput.
Record t := {
  slot_duration : Z;
  buffer_time : Z;
  advance_booking_days : Z;
  min_notice_hours : Z
}.
End SettingsInput.

Module PublicConfig.
Record t := {
  slotDuration : Z;
  bufferTime : Z;
  advanceBookingDays : Z;
  minNoticeHours : Z;
  schedule : list DaySchedule.t
}.
End PublicConfig.

Module SettingsActions.

Definition DEFAULT_SETTINGS : SettingsInput.t :=
  {| SettingsInput.slot_duration := 30; SettingsInput.buffer_time := 0;
     SettingsInput.advance_booking_days := 60; SettingsInput.min_notice_hours := 12 |}.

(** [{ id, user_id, ...settings }] *)
Definition settingsRow (id user : string) (s : SettingsInput.t) : CalendarSettings.t :=
  {| CalendarSettings.id := id; CalendarSettings.user_id := user;
     CalendarSettings.slot_duration := SettingsInput.slot_duration s;
     CalendarSettings.buffer_time := SettingsInput.buffer_time s;
     CalendarSettings.advance_booking_days := SettingsInput.advance_booking_days s;
     CalendarSettings.min_notice_hours := SettingsInput.min_notice_hours s |}.

(** [{ success: true }] *)
Definition succeeded : ApiResponse.t unit :=
  {| ApiResponse.success := true; ApiResponse.data := None; ApiResponse.error := None |}.

Definition ownedBy (user : string) (row : CalendarSettings.t) : bool :=
  String.eqb (CalendarSettings.user_id row) user.

(** [.from('calendar_settings').select('*').eq('user_id', user).maybeSingle()] *)
Definition selectSettings (db : Database) (f : Fault) (user : string)
  : Awaited (option CalendarSettings.t) :=
  match f with
  | NoFault =>
      match List.filter (ownedBy user) (calendar_settings db) with
      | [] => Resolved {| data := Some None; error := None |}
      | [row] => Resolved {| data := Some (Some row); error := None |}
      | _ => Resolved {| data := None;
                         error := Some {| message := "JSON object requested, multiple (or no) rows returned" |} |}
      end
  | Fails e => Resolved {| data := None; error := Some e |}
  | Throws msg => Rejected msg
  end.

Definition getCalendarSettings (user : option string) (db : Database) (fault : Fault)
  : ApiResponse.t CalendarSettings.t :=
  match user with
  | None => ApiResponse.rejection "No autenticado"
  | Some uid =>
      match selectSettings db fault uid with
      | Rejected _ => ApiResponse.rejection "Error inesperado"
      | Resolved r =>
          match error r, data r with
          | Some _, _ => ApiResponse.ok (settingsRow "" uid DEFAULT_SETTINGS)
          | None, Some (Some row) => ApiResponse.ok row
          | None, _ => ApiResponse.ok (settingsRow "" uid DEFAULT_SETTINGS)
          end
      end
  end.

(** The CHECK constraints of the [calendar_settings] table. *)
Definition settingsConstraints (s : SettingsInput.t) : bool :=
  (15 <=? SettingsInput.slot_duration s) && (SettingsInput.slot_duration s <=? 480)
  && (0 <=? SettingsInput.buffer_time s) && (SettingsInput.buffer_time s <=? 120)
  && (1 <=? SettingsInput.advance_booking_days s)
  && (SettingsInput.advance_booking_days s <=? 365)
  && (0 <=? SettingsInput.min_notice_hours s) && (SettingsInput.min_notice_hours s <=? 168).

Definition withCalendarSettings (db : Database) (rows : list CalendarSettings.t) : Database :=
  {| events := events db; bookings := bookings db;
     availability_rules := availability_rules db; calendar_settings := rows |}.

(** [.upsert({ user_id, ... }, { onConflict: 'user_id' })]: the row of the
    user is updated in place, or a row is inserted under the key [newId] the
    store draws for it. *)
Definition upsertSettings (db : Database) (f : Fault) (newId user : string)
    (s : SettingsInput.t) : Awaited unit * Database :=
  match f with
  | NoFault =>
      if settingsConstraints s then
        (Resolved {| data := Some tt; error := None |},
         withCalendarSettings db
           (if existsb (ownedBy user) (calendar_settings db)
            then map (fun row => if ownedBy user row
                                 then settingsRow (CalendarSettings.id row) user s
                                 else row)
                   (calendar_settings db)
            else calendar_settings db ++ [settingsRow newId user s]))
      else
        (Resolved {| data := None;
                     error := Some {| message := "new row for relation calendar_settings violates check constraint" |} |},
         db)
  | Fails e => (Resolved {| data := None; error := Some e |}, db)
  | Throws msg => (Rejected msg, db)
  end.

Definition saveCalendarSettings (user : option string) (db : Database) (fault : Fault)
    (newId : string) (settings : SettingsInput.t) : ApiResponse.t unit * Database :=
  match user with
  | None => (ApiResponse.rejection "Error inesperado", db)
  | Some uid =>
      match upsertSettings db fault newId uid settings with
      | (Rejected _, db1) => (ApiResponse.rejection "Error inesperado", db1)
      | (Resolved r, db1) =>
          match error r with
          | Some _ => (ApiResponse.rejection "Error al guardar la configuración", db1)
          | None => (succeeded, db1)
          end
      end
  end.

Section Schedule.
(** What Postgres does with the text of a TIME column is a parameter:
    [timeColumn s] is the text the column gives back for the input [s]
    ([None] when the input is refused) and [timeBefore a b] compares two
    such texts as times.  [newRuleId i] is the key drawn for the [i]-th
    inserted row. *)
Variable timeColumn : string -> option string.
Variable timeBefore : string -> string -> bool.
Variable newRuleId : nat -> string.

(** One row of the insert, [None] when the store refuses it: a time it
    cannot read, or a CHECK constraint ([valid_day],
    [valid_time_range_av]). *)
Definition ruleRow (user : string) (i : nat) (day : DaySchedule.t) : option AvailabilityRule.t :=
  s ← timeColumn (DaySchedule.start_time day);
  e ← timeColumn (DaySchedule.end_time day);
  if (0 <=? DaySchedule.day_of_week day) && (DaySchedule.day_of_week day <=? 6)
     && timeBefore s e
  then Some {| AvailabilityRule.id := newRuleId i; AvailabilityRule.user_id := user;
               AvailabilityRule.day_of_week := DaySchedule.day_of_week day;
               AvailabilityRule.start_time := s; AvailabilityRule.end_time := e;
               AvailabilityRule.is_active := DaySchedule.is_active day |}
  else None.

Fixpoint ruleRows (user : string) (i : nat) (schedule : list DaySchedule.t)
  : option (list AvailabilityRule.t) :=
  match schedule with
  | [] => Some []
  | day :: rest =>
      row ← ruleRow user i day;
      rows ← ruleRows user (S i) rest;
      Some (row :: rows)
  end.

(** [.from('availability_rules').delete().eq('user_id', user)] *)
Definition deleteRules (db : Database) (f : Fault) (user : string) : Awaited unit * Database :=
  match f with
  | NoFault =>
      (Resolved {| data := Some tt; error := None |},
       {| events := events db; bookings := bookings db;
          availability_rules :=
            List.filter (fun r => negb (String.eqb (AvailabilityRule.user_id r) user))
              (availability_rules db);
          calendar_settings := calendar_settings db |})
  | Fails e => (Resolved {| data := None; error := Some e |}, db)
  | Throws msg => (Rejected msg, db)
  end.

(** [.from('availability_rules').insert(rulesToInsert)]: one statement, all
    rows or none. *)
Definition insertRules (db : Database) (f : Fault) (user : string)
    (schedule : list DaySchedule.t) : Awaited unit * Database :=
  match f with
  | NoFault =>
      match ruleRows user 0 schedule with
      | Some rows =>
          (Resolved {| data := Some tt; error := None |},
           {| events := events db; bookings := bookings db;
              availability_rules := availability_rules db ++ rows;
              calendar_settings := calendar_settings db |})
      | None =>
          (Resolved {| data := None;
                       error := Some {| message := "new row for relation availability_rules is refused" |} |},
           db)
      end
  | Fails e => (Resolved {| data := None; error := Some e |}, db)
  | Throws msg => (Rejected msg, db)
  end.

(** The result of the delete is awaited and not looked at. *)
Definition saveSchedule (user : option string) (db : Database)
    (deleteFault insertFault : Fault) (schedule : list DaySchedule.t)
  : ApiResponse.t unit * Database :=
  match user with
  | None => (ApiResponse.rejection "Error inesperado", db)
  | Some uid =>
      match deleteRules db deleteFault uid with
      | (Rejected _, db1) => (ApiResponse.rejection "Error inesperado", db1)
      | (Resolved _, db1) =>
          match insertRules db1 insertFault uid schedule with
          | (Rejected _, db2) => (ApiResponse.rejection "Error inesperado", db2)
          | (Resolved r, db2) =>
              match error r with
              | Some _ => (ApiResponse.rejection "Error al guardar el horario", db2)
              | None => (succeeded, db2)
              end
          end
      end
  end.
End Schedule.

(** [getPublicCalendarConfig] has no [try]: a query that throws makes the
    call itself throw ([inl]).  The settings query is
    [.select('*').limit(1).maybeSingle()], the first row if there is one. *)
Definition getPublicCalendarConfig (db : Database) (settingsFault rulesFault : Fault)
  : string + PublicConfig.t :=
  match respond settingsFault (head (calendar_settings db)) with
  | Rejected msg => inl msg
  | Resolved settingsResponse =>
      match respond rulesFault (orderByDay (map columns (selectActiveRules db))) with
      | Rejected msg => inl msg
      | Resolved rulesResponse =>
          let settings := default None (data settingsResponse) in
          let field (get : CalendarSettings.t -> Z) (fallback : SettingsInput.t -> Z) : Z :=
            default (fallback DEFAULT_SETTINGS) (get <$> settings) in
          inr {| PublicConfig.slotDuration :=
                   field CalendarSettings.slot_duration SettingsInput.slot_duration;
                 PublicConfig.bufferTime :=
                   field CalendarSettings.buffer_time SettingsInput.buffer_time;
                 PublicConfig.advanceBookingDays :=
                   field CalendarSettings.advance_booking_days
                     SettingsInput.advance_booking_days;
                 PublicConfig.minNoticeHours :=
                   field CalendarSettings.min_notice_hours SettingsInput.min_notice_hours;
                 PublicConfig.schedule :=
                   match data rulesResponse with
                   | Some (rule :: rest) => rule :: rest
                   | _ => List.filter DaySchedule.is_active DEFAULT_SCHEDULE
                   end |}
      end
  end.

End SettingsActions.

Import SettingsActions.

(** ** actions/bookings: [cancelBooking] *)

Module Cancel.

(** [.from('bookings').update({ status: 'cancelled' }).eq('id', id)] through
    the session client: [mayUpdate] tells which rows the row-level policy
    lets the caller update; the others are left as they are, without an
    error. *)
Definition updateStatus (db : Database) (f : Fault) (mayUpdate : Booking.t -> bool)
    (id : nat) : Awaited unit * Database :=
  match f with
  | NoFault =>
      (Resolved {| data := Some tt; error := None |},
       {| events := events db;
          bookings :=
            map (fun b =>
                   if (Booking.id b =? id)%nat && mayUpdate b
                   then {| Booking.id := Booking.id b; Booking.event_id := Booking.event_id b;
                           Booking.name := Booking.name b; Booking.email := Booking.email b;
                           Booking.phone := Booking.phone b; Booking.notes := Booking.notes b;
                           Booking.status := "cancelled" |}
                   else b)
              (bookings db);
          availability_rules := availability_rules db;
          calendar_settings := calendar_settings db |})
  | Fails e => (Resolved {| data := None; error := Some e |}, db)
  | Throws msg => (Rejected msg, db)
  end.

Definition cancelBooking (db : Database) (fault : Fault) (mayUpdate : Booking.t -> bool)
    (id : nat) : ApiResponse.t unit * Database :=
  match updateStatus db fault mayUpdate id with
  | (Rejected _, db1) =>
      (ApiResponse.rejection "Error inesperado al cancelar la reserva", db1)
  | (Resolved r, db1) =>
      match error r with
      | Some _ => (ApiResponse.rejection "Error al cancelar la reserva", db1)
      | None => (succeeded, db1)
      end
  end.

End Cancel.

Import Cancel.


(** ** Calendar and booking-window helpers of [dateHelpers.ts]

    The functions of date-fns they call are written for the fixed-offset
    zone [tz]. *)

Module CalendarHelpers.

Section Zone.
Variable tz : Z.

(** [startOfDay] and [endOfDay]: the first and the last millisecond of the
    date's local calendar day. *)
Definition startOfDay (d : Date) : Date := d - localTime tz d mod MS_PER_DAY.






(** [new Date()] is the argument [now]; [excludedDates] defaults to the
    empty list at the call. *)
Definition getAvailableDates (now : Date) (advanceDays : Z) (excludedDates : list Date)
    : list Date :=
  let today := startOfDay now in
  let dates := getDateRange today advanceDays in
  List.filter (fun date => negb (existsb (fun excluded => isSameDay tz date excluded)
                                    excludedDates))
    dates.

End Zone.


End CalendarHelpers.

Import CalendarHelpers.

(** ** The day cells of [Calendar] and the time list of [DateTimePicker]

    [availableByDay] is a [Map] from [format(startOfDay(slotDate),
    'yyyy-MM-dd')] to a count.  The key names the local calendar day and is
    only compared for equality, so the day number stands for the string. *)

Module CalendarDays.

Section Zone.
Variable tz : Z.

Definition dayKey (d : Date) : Z := dayNumber tz d.

Definition availableByDay (now : Date) (slots : list TimeSlot.t) : gmap Z Z :=
  fold_left
    (fun byDay s =>
       if negb (TimeSlot.available s) then byDay
       else
         let slotDate := TimeSlot.start s in
         if (slotDate <? Calendar.minDate now) || (Calendar.maxDate now <? slotDate)
         then byDay
         else
           let key := dayKey (startOfDay tz slotDate) in
           <[key := orZero (byDay !! key) + 1]> byDay)
    slots ∅.

(** The cell of [day] in the grid: [availableByDay.has(dayKey)], whether
    the button is disabled, whether the day is the selected one and whether
    the dot is drawn.  [inMonth] is [isSameMonth(day, currentMonth)]. *)
Definition hasAvailability (byDay : gmap Z Z) (day : Date) : bool :=
  bool_decide (is_Some (byDay !! dayKey (startOfDay tz day))).

Definition disabled (inMonth hasAvailability : bool) : bool :=
  negb inMonth || negb hasAvailability.

Definition isSelected (selectedDate : option Date) (day : Date) : bool :=
  match selectedDate with
  | Some selected => isSameDay tz day selected
  | None => false
  end.

Definition dot (inMonth hasAvailability isSelected : bool) : bool :=
  inMonth && hasAvailability && negb isSelected.

End Zone.

End CalendarDays.

Module DateTimePicker.

Definition minDate (now : Date) : Date := now + 12 * 60 * 60 * 1000.
Definition maxDate (now : Date) : Date := now + 7 * 24 * 60 * 60 * 1000.

(** [sort((a, b) => a.start - b.start)]: [Array.prototype.sort] is stable,
    so slots with the same start keep their order. *)
Fixpoint insertByStart (s : TimeSlot.t) (sorted : list TimeSlot.t) : list TimeSlot.t :=
  match sorted with
  | [] => [s]
  | s' :: rest =>
      if TimeSlot.start s <=? TimeSlot.start s' then s :: s' :: rest
      else s' :: insertByStart s rest
  end.

Definition sortByStart (slots : list TimeSlot.t) : list TimeSlot.t :=
  foldr insertByStart [] slots.

Definition selectedDateSlots (tz : Z) (now : Date) (selectedDate : option Date)
    (slots : list TimeSlot.t) : list TimeSlot.t :=
  match selectedDate with
  | None => []
  | Some selected =>
      let target := startOfDay tz selected in
      sortByStart
        (List.filter
           (fun s =>
              let slotTime := TimeSlot.start s in
              if (slotTime <? minDate now) || (maxDate now <? slotTime) then false
              else
                let slotDay := startOfDay tz slotTime in
                isSameDay tz slotDay target)
           (List.filter TimeSlot.available slots))
  end.

End DateTimePicker.
(** ** Inputs and notions used in the statements below *)

Module Fixtures.

Definition rule_9_to_10 (duration : Z) (buffer : option Z) : TimeSlotConfig.t :=
  {| TimeSlotConfig.startTime := "09:00"; TimeSlotConfig.endTime := "10:00";
     TimeSlotConfig.slotDuration := duration; TimeSlotConfig.bufferTime := buffer |}.

(** Monday 5 January 1970, 00:00 UTC. *)
Definition monday : Date := 345600000.

(** Length in minutes of the window between two wall-clock times; 0 when
    one of them is not a time. *)
Definition windowMinutes (startTime endTime : string) : Z :=
  match parseHM startTime, parseHM endTime with
  | Some (sh, sm), Some (eh, em) => (eh * 60 + em) - (sh * 60 + sm)
  | _, _ => 0
  end.

Definition ruleWindow (rule : AvailabilityRule.t) : Z :=
  windowMinutes (AvailabilityRule.start_time rule) (AvailabilityRule.end_time rule).

Definition emptyDb : Database :=
  {| events := []; bookings := []; availability_rules := []; calendar_settings := [] |}.

(** The store with its settings table replaced. *)
Definition withSettings (db : Database) (settings : list CalendarSettings.t) : Database :=
  {| events := events db; bookings := bookings db;
     availability_rules := availability_rules db; calendar_settings := settings |}.

Definition slotParams (startDate : Date) (days duration buffer : Z)
  : GetAvailableSlotsParams.t :=
  {| GetAvailableSlotsParams.startDate := startDate;
     GetAvailableSlotsParams.days := Some days;
     GetAvailableSlotsParams.slotDuration := Some duration;
     GetAvailableSlotsParams.bufferTime := Some buffer |}.

(** A settings row with the documented defaults (30/0/60/12). *)
Definition defaultSettingsRow : CalendarSettings.t :=
  {| CalendarSettings.id := "s1"; CalendarSettings.user_id := "admin";
     CalendarSettings.slot_duration := 30; CalendarSettings.buffer_time := 0;
     CalendarSettings.advance_booking_days := 60;
     CalendarSettings.min_notice_hours := 12 |}.

(** Monday 5 January 1970, 08:00 and 09:00 UTC. *)
Definition monday_8am : Date := 374400000.
Definition monday_9am : Date := 378000000.

(** The documented default for weekday [d]: 09:00-18:00, active from
    Monday to Friday. *)
Definition documentedDefault (d : Z) : DaySchedule.t :=
  {| DaySchedule.day_of_week := d;
     DaySchedule.start_time := "09:00"; DaySchedule.end_time := "18:00";
     DaySchedule.is_active := (1 <=? d) && (d <=? 5) |}.


(** A store whose only rule is an active Monday 10:00-12:00. *)
Definition mondayOnlyDb : Database :=
  {| events := []; bookings := [];
     availability_rules :=
       [ {| AvailabilityRule.id := "r1"; AvailabilityRule.user_id := "admin";
            AvailabilityRule.day_of_week := 1;
            AvailabilityRule.start_time := "10:00"; AvailabilityRule.end_time := "12:00";
            AvailabilityRule.is_active := true |} ];
     calendar_settings := [] |}.


(** The zod checks on the strings used in the examples.  The tables give
    the value of the real check on the listed strings and reject every
    other string. *)
Definition iso_0900 : string := "1970-01-05T09:00:00.000Z".
Definition iso_0930 : string := "1970-01-05T09:30:00.000Z".

Definition datetimeTable (s : string) : option Date :=
  if String.eqb s iso_0900 then Some monday_9am
  else if String.eqb s iso_0930 then Some (addMinutes monday_9am 30)
  else None.

Definition emailTable (s : string) : bool := String.eqb s "ana@example.com".

Definition phoneTable (s : string) : bool := String.eqb s "+54 11 5555".

Definition anaBooking : CreateBookingInput.t :=
  {| CreateBookingInput.slot_start := iso_0900;
     CreateBookingInput.slot_end := iso_0930;
     CreateBookingInput.name := "Ana";
     CreateBookingInput.email := "ana@example.com";
     CreateBookingInput.phone := None;
     CreateBookingInput.notes := None |}.

Definition storeWithEvents (evs : list Event.t) : Database :=
  {| events := evs; bookings := []; availability_rules := []; calendar_settings := [] |}.

(** An admin block around the instant [t]: it starts one millisecond
    before and ends one millisecond after. *)
Definition blockAround (t : Date) : Event.t :=
  {| Event.id := 1%nat; Event.title := "Block"; Event.description := None;
     Event.start_time := t - 1; Event.end_time := t + 1;
     Event.is_public := true; Event.event_type := "block" |}.

Definition pastSlotError : string := "No se puede reservar un horario pasado".
Definition alreadyBookedError : string := "Este horario ya fue reservado".

(** Every event of type booking has a booking record that points to it. *)
Definition noOrphanBooking (db : Database) : Prop :=
  forall ev, ev ∈ events db -> Event.event_type ev = "booking"%string ->
    exists b, b ∈ bookings db /\ Booking.event_id b = Event.id ev.

(** Only the insert into [bookings] fails. *)
Definition bookingInsertFails : Faults :=
  {| checkFault := NoFault; eventInsertFault := NoFault;
     bookingInsertFault := Fails {| message := "violates check constraint valid_email" |};
     deleteFault := NoFault |}.

End Fixtures.

Import Fixtures.

(** ** Further inputs and notions *)

Module MoreFixtures.

(** The store with its events table replaced. *)
Definition withEvents (db : Database) (evs : list Event.t) : Database :=
  {| events := evs; bookings := bookings db;
     availability_rules := availability_rules db;
     calendar_settings := calendar_settings db |}.

(** The store with its rules table replaced. *)
Definition withRules (db : Database) (rules : list AvailabilityRule.t) : Database :=
  {| events := events db; bookings := bookings db;
     availability_rules := rules; calendar_settings := calendar_settings db |}.

(** A wall-clock time as the TIME column and the defaults give it: digit
    groups separated by colons, the hour at most 24 and the minute at most
    59.  On these [Number] agrees with JavaScript. *)
Definition clockTime (t : string) : Prop :=
  exists h m, parseHM t = Some (h, m) /\ 0 <= h <= 24 /\ 0 <= m <= 59.

(** The largest time value of a JavaScript [Date]; beyond it, in either
    direction, a date is invalid. *)
Definition MAX_TIME_VALUE : Z := 8640000000000000.

(** Every date the slot loop computes for [date] is a time value: while
    the loop runs the cursor is within two days of [date], and one slot and
    one buffer are added to it at most. *)
Definition withinDateRange (date : Date) (duration buffer : Z) : Prop :=
  - MAX_TIME_VALUE + 2 * MS_PER_DAY + (Z.abs duration + Z.abs buffer) * MS_PER_MINUTE
  <= date
  /\ date + 2 * MS_PER_DAY + (Z.abs duration + Z.abs buffer) * MS_PER_MINUTE
     <= MAX_TIME_VALUE.

(** The last day of the range of a call, [dateRange[dateRange.length - 1]]. *)
Definition rangeEnd (params : GetAvailableSlotsParams.t) : Date :=
  addDays (GetAvailableSlotsParams.startDate params)
    (default 60 (GetAvailableSlotsParams.days params) - 1).

(** An event stored for Monday 09:00-09:30. *)
Definition booked_0900 : Event.t :=
  {| Event.id := 1%nat; Event.title := "Reserva: Ana"; Event.description := None;
     Event.start_time := monday_9am; Event.end_time := addMinutes monday_9am 30;
     Event.is_public := true; Event.event_type := "booking" |}.

(** A store in which Monday 09:00-09:30 is booked. *)
Definition bookedDb : Database :=
  {| events := [booked_0900]; bookings := []; availability_rules := [];
     calendar_settings := [] |}.

(** The 09:00-09:30 slot, marked available. *)
Definition slot_0900_available : TimeSlot.t :=
  {| TimeSlot.start := monday_9am; TimeSlot.end_ := addMinutes monday_9am 30;
     TimeSlot.available := true |}.

(** The store keeps the submitted day [day] as the row [row]: same
    weekday and flag, and the times as the TIME column gives them back. *)
Definition storedAs (timeColumn : string -> option string) (day row : DaySchedule.t) : Prop :=
  DaySchedule.day_of_week row = DaySchedule.day_of_week day
  /\ timeColumn (DaySchedule.start_time day) = Some (DaySchedule.start_time row)
  /\ timeColumn (DaySchedule.end_time day) = Some (DaySchedule.end_time row)
  /\ DaySchedule.is_active row = DaySchedule.is_active day.

(** A schedule as the settings panel submits it: seven entries, entry [i]
    for weekday [i]. *)
Definition weekShaped (schedule : list DaySchedule.t) : Prop :=
  length schedule = 7%nat
  /\ forall i day, schedule !! i = Some day -> DaySchedule.day_of_week day = Z.of_nat i.

(** The TIME column on the two texts used in the examples. *)
Definition timeTable (s : string) : option string :=
  if String.eqb s "09:00" then Some "09:00:00"%string
  else if String.eqb s "18:00" then Some "18:00:00"%string
  else None.

Definition timeBeforeTable (a b : string) : bool :=
  String.eqb a "09:00:00" && String.eqb b "18:00:00".

Definition ruleIdTable (i : nat) : string :=
  String (Ascii.ascii_of_nat (97 + i)) EmptyString.

Definition validSettings : SettingsInput.t :=
  {| SettingsInput.slot_duration := 45; SettingsInput.buffer_time := 15;
     SettingsInput.advance_booking_days := 30; SettingsInput.min_notice_hours := 24 |}.

(** The store with its rules and settings tables replaced. *)
Definition withConfig (db : Database) (rules : list AvailabilityRule.t)
    (settings : list CalendarSettings.t) : Database :=
  {| events := events db; bookings := bookings db;
     availability_rules := rules; calendar_settings := settings |}.

(** The foreign key of [bookings]: every booking points to a stored event. *)
Definition referencesEvents (db : Database) : Prop :=
  forall b, b ∈ bookings db -> exists ev, ev ∈ events db /\ Event.id ev = Booking.event_id b.

(** The insert into [bookings] throws. *)
Definition bookingInsertThrows : Faults :=
  {| checkFault := NoFault; eventInsertFault := NoFault;
     bookingInsertFault := Throws "fetch failed"; deleteFault := NoFault |}.

(** The insert into [bookings] fails and so does the rollback delete. *)
Definition rollbackDeleteFails : Faults :=
  {| checkFault := NoFault; eventInsertFault := NoFault;
     bookingInsertFault := Fails {| message := "violates check constraint valid_email" |};
     deleteFault := Fails {| message := "timeout" |} |}.

(** A booking whose end is its start. *)
Definition emptyBooking : CreateBookingInput.t :=
  {| CreateBookingInput.slot_start := iso_0900;
     CreateBookingInput.slot_end := iso_0900;
     CreateBookingInput.name := "Ana";
     CreateBookingInput.email := "ana@example.com";
     CreateBookingInput.phone := None;
     CreateBookingInput.notes := None |}.

(** The filter of the availability check of [createBooking]. *)
Definition exactMatch (slotStart slotEnd : Date) (ev : Event.t) : bool :=
  (Event.start_time ev =? slotStart) && (Event.end_time ev =? slotEnd).

End MoreFixtures.

Import MoreFixtures.

(** * Properties *)

(** ** Checks on concrete inputs *)

Example split_hm : split ":"%char "09:30:00" = ["09"; "30"; "00"]%string.
Proof. reflexivity. Qed.

Example parseHM_db_time : parseHM "09:30:00" = Some (9, 30).
Proof. reflexivity. Qed.

Example parseHM_not_a_time : parseHM "0900" = None.
Proof. reflexivity. Qed.

Example scenario_A :
  generateTimeSlots 0 5 monday (rule_9_to_10 30 (Some 0))
  = Some [ {| start := 378000000; end_ := 379800000 |};
           {| start := 379800000; end_ := 381600000 |} ].
Proof. reflexivity. Qed.

Example scenario_C :
  generateTimeSlots 0 5 monday (rule_9_to_10 45 None)
  = Some [ {| start := 378000000; end_ := 380700000 |} ].
Proof. reflexivity. Qed.

Example monday_is_day_1 : getDayOfWeek 0 monday = 1.
Proof. reflexivity. Qed.

(** ** Overlap *)

Lemma doTimesOverlap_spec (start1 end1 start2 end2 : Date) :
  doTimesOverlap start1 end1 start2 end2 = true <-> start1 < end2 /\ start2 < end1.
Proof.
  unfold doTimesOverlap, isBefore, isAfter.
  rewrite orb_true_iff, !andb_true_iff, !Z.ltb_lt. lia.
Qed.

Lemma isSlotAvailable_false (slotStart slotEnd : Date) (bookedSlots : list Slot) :
  isSlotAvailable slotStart slotEnd bookedSlots = false
  <-> exists b, b ∈ bookedSlots /\ slotStart < end_ b /\ start b < slotEnd.
Proof.
  unfold isSlotAvailable. rewrite negb_false_iff, existsb_exists.
  split; intros (b & Hin & Hov); exists b.
  - apply doTimesOverlap_spec in Hov. split; [by apply list_elem_of_In | exact Hov].
  - split; [by apply list_elem_of_In | by apply doTimesOverlap_spec].
Qed.

(** C1. For a slot with [slotStart < slotEnd] and any booked intervals,
    [isSlotAvailable] is false exactly when some booked interval [b] has
    [slotStart < b.end] and [b.start < slotEnd]; when every booked interval
    only touches the slot at an endpoint, it is true. *)
Theorem isSlotAvailable_iff_no_overlap (slotStart slotEnd : Date) (bookedSlots : list Slot) :
  slotStart < slotEnd ->
  (isSlotAvailable slotStart slotEnd bookedSlots = false
   <-> exists b, b ∈ bookedSlots /\ slotStart < end_ b /\ start b < slotEnd)
  /\ ((forall b, b ∈ bookedSlots -> slotEnd = start b \/ end_ b = slotStart) ->
      isSlotAvailable slotStart slotEnd bookedSlots = true).
Proof.
  intros _. split; [apply isSlotAvailable_false |].
  intros Htouch. apply not_false_iff_true. intros Hfalse.
  apply isSlotAvailable_false in Hfalse as (b & Hin & Hlt1 & Hlt2).
  destruct (Htouch b Hin); lia.
Qed.

Lemma isSlotAvailable_iff_no_overlap_witness :
  isSlotAvailable 0 30 [ {| start := 30; end_ := 60 |} ] = true.
Proof.
  apply (isSlotAvailable_iff_no_overlap 0 30 [ {| start := 30; end_ := 60 |} ]); [lia |].
  intros b Hb. apply list_elem_of_singleton in Hb. subst b. left. reflexivity.
Defined.

(** ** The slot loop *)

Section SlotLoop.
Variables (dayEnd : Date) (duration buffer : Z).

Local Abbreviation loop fuel cur := (slotLoop fuel dayEnd duration buffer cur).
Local Abbreviation next cur := (addMinutes (addMinutes cur duration) buffer).

Lemma slotLoop_done (fuel : nat) (cur : Date) :
  dayEnd <= cur -> loop (S fuel) cur = Some [].
Proof.
  intros Hle. simpl. unfold isBefore.
  destruct (Z.ltb_spec cur dayEnd); [lia | reflexivity].
Qed.

Lemma slotLoop_step (fuel : nat) (cur : Date) :
  cur < dayEnd ->
  loop (S fuel) cur =
    rest ← loop fuel (next cur);
    Some ((if (addMinutes cur duration <=? dayEnd)
           then [ {| start := cur; end_ := addMinutes cur duration |} ] else []) ++ rest).
Proof.
  intros Hlt. simpl. unfold isBefore at 1.
  destruct (Z.ltb_spec cur dayEnd); [| lia].
  replace (isBefore (addMinutes cur duration) dayEnd || (addMinutes cur duration =? dayEnd))
    with (addMinutes cur duration <=? dayEnd); [reflexivity |].
  unfold isBefore.
  destruct (Z.leb_spec (addMinutes cur duration) dayEnd),
           (Z.ltb_spec (addMinutes cur duration) dayEnd),
           (Z.eqb_spec (addMinutes cur duration) dayEnd); simpl; try reflexivity; lia.
Qed.

(** More fuel does not change a result. *)
Lemma slotLoop_fuel_mono (fuel fuel' : nat) (cur : Date) (slots : list Slot) :
  (fuel <= fuel')%nat -> loop fuel cur = Some slots -> loop fuel' cur = Some slots.
Proof.
  revert fuel' cur slots. induction fuel as [| fuel IH]; intros fuel' cur slots Hle H.
  - discriminate.
  - destruct fuel' as [| fuel']; [lia |].
    destruct (Z.lt_ge_cases cur dayEnd) as [Hlt | Hge].
    + rewrite slotLoop_step in H |- * by assumption.
      destruct (loop fuel (next cur)) as [rest |] eqn:Hrest; [| discriminate].
      rewrite (IH fuel' _ rest) by (assumption || lia). exact H.
    + rewrite slotLoop_done in H |- * by assumption. exact H.
Qed.

(** With a positive stride the loop returns. *)
Lemma slotLoop_returns (n : nat) (cur : Date) :
  0 < duration + buffer ->
  dayEnd - cur <= Z.of_nat n ->
  is_Some (loop (S n) cur).
Proof.
  intros Hstride. revert cur. induction n as [| n IH]; intros cur Hn.
  - rewrite slotLoop_done by lia. eauto.
  - destruct (Z.lt_ge_cases cur dayEnd) as [Hlt | Hge].
    + rewrite slotLoop_step by assumption.
      destruct (IH (next cur)) as [rest Hrest].
      { unfold addMinutes, MS_PER_MINUTE. lia. }
      rewrite Hrest. simpl. eauto.
    + rewrite slotLoop_done by assumption. eauto.
Qed.

(** With a stride that is not positive the loop never leaves a cursor
    before [dayEnd]. *)
Lemma slotLoop_diverges (fuel : nat) (cur : Date) :
  duration + buffer <= 0 -> cur < dayEnd -> loop fuel cur = None.
Proof.
  intros Hstride. revert cur. induction fuel as [| fuel IH]; intros cur Hlt.
  - reflexivity.
  - rewrite slotLoop_step by assumption.
    rewrite IH; [reflexivity |]. unfold addMinutes, MS_PER_MINUTE. lia.
Qed.

(** Once a candidate ends after [dayEnd], nothing more is pushed. *)
Lemma slotLoop_past_end (fuel : nat) (cur : Date) (slots : list Slot) :
  dayEnd < addMinutes cur duration -> loop fuel cur = Some slots -> slots = [].
Proof.
  revert cur slots. induction fuel as [| fuel IH]; intros cur slots Hpast H.
  - discriminate.
  - destruct (Z.lt_ge_cases cur dayEnd) as [Hlt | Hge].
    + rewrite slotLoop_step in H by assumption.
      destruct (loop fuel (next cur)) as [rest |] eqn:Hrest; [| discriminate].
      simpl in H. destruct (Z.leb_spec (addMinutes cur duration) dayEnd); [lia |].
      injection H as <-. simpl.
      destruct (Z.lt_ge_cases 0 (duration + buffer)) as [Hpos | Hneg].
      * apply (IH (next cur)); [| assumption].
        unfold addMinutes, MS_PER_MINUTE in *. lia.
      * rewrite slotLoop_diverges in Hrest; [discriminate | lia |].
        unfold addMinutes, MS_PER_MINUTE in *. lia.
    + rewrite slotLoop_done in H by assumption. by injection H as <-.
Qed.

(** The [i]-th slot pushed is the [i]-th candidate of the cursor. *)
Lemma slotLoop_cursor (fuel : nat) (cur : Date) (slots : list Slot) (i : nat) (s : Slot) :
  loop fuel cur = Some slots ->
  slots !! i = Some s ->
  start s = addMinutes cur (Z.of_nat i * (duration + buffer))
  /\ end_ s = addMinutes (start s) duration
  /\ end_ s <= dayEnd.
Proof.
  revert cur slots i. induction fuel as [| fuel IH]; intros cur slots i H Hi.
  - discriminate.
  - destruct (Z.lt_ge_cases cur dayEnd) as [Hlt | Hge].
    + destruct (Z.le_gt_cases (addMinutes cur duration) dayEnd) as [Hfit | Hpast].
      * rewrite slotLoop_step in H by assumption.
        destruct (loop fuel (next cur)) as [rest |] eqn:Hrest; [| discriminate].
        simpl in H. rewrite (proj2 (Z.leb_le _ _) Hfit) in H. injection H as <-.
        destruct i as [| i]; simpl in Hi.
        -- injection Hi as <-. simpl. unfold addMinutes in *. repeat split; lia.
        -- destruct (IH _ _ _ Hrest Hi) as (Hs & He & Hd).
           repeat split; try assumption.
           rewrite Hs. unfold addMinutes. lia.
      * apply slotLoop_past_end in H as ->; [| lia].
        by rewrite lookup_nil in Hi.
    + rewrite slotLoop_done in H by assumption. injection H as <-.
      by rewrite lookup_nil in Hi.
Qed.

(** At most [floor((window + buffer) / stride)] slots fit, all in
    milliseconds. *)
Lemma slotLoop_length (fuel : nat) (cur : Date) (slots : list Slot) :
  0 < duration -> 0 <= buffer ->
  loop fuel cur = Some slots ->
  Z.of_nat (length slots)
  <= Z.max 0 ((dayEnd - cur + buffer * MS_PER_MINUTE) / ((duration + buffer) * MS_PER_MINUTE)).
Proof.
  intros Hd Hb. revert cur slots. induction fuel as [| fuel IH]; intros cur slots H.
  - discriminate.
  - destruct (Z.lt_ge_cases cur dayEnd) as [Hlt | Hge].
    + destruct (Z.le_gt_cases (addMinutes cur duration) dayEnd) as [Hfit | Hpast].
      * rewrite slotLoop_step in H by assumption.
        destruct (loop fuel (next cur)) as [rest |] eqn:Hrest; [| discriminate].
        simpl in H. rewrite (proj2 (Z.leb_le _ _) Hfit) in H. injection H as <-.
        specialize (IH _ _ Hrest). simpl length. rewrite Nat2Z.inj_succ.
        set (stride := (duration + buffer) * MS_PER_MINUTE) in *.
        assert (Hstride : 0 < stride) by (unfold stride, MS_PER_MINUTE; lia).
        replace (dayEnd - next cur + buffer * MS_PER_MINUTE)
          with (dayEnd - cur + buffer * MS_PER_MINUTE + (-1) * stride) in IH
          by (unfold stride, addMinutes; lia).
        rewrite Z.div_add in IH by lia.
        assert (1 <= (dayEnd - cur + buffer * MS_PER_MINUTE) / stride).
        { apply Z.div_le_lower_bound; [lia |].
          unfold stride, addMinutes in *. lia. }
        lia.
      * apply slotLoop_past_end in H as ->; [| lia]. simpl. lia.
    + rewrite slotLoop_done in H by assumption. injection H as <-. simpl. lia.
Qed.

End SlotLoop.

(** ** [generateTimeSlots] *)

Lemma getMinutes_setHours (tz : Z) (d : Date) (h : Z) :
  getMinutes tz (setHours tz d h) = getMinutes tz d.
Proof.
  unfold getMinutes, setHours, localTime.
  replace (d + (h - getHours tz d) * MS_PER_HOUR + tz)
    with (d + tz + (h - getHours tz d) * MS_PER_HOUR) by lia.
  by rewrite Z_mod_plus_full.
Qed.

Lemma atTime_parsed (tz : Z) (date : Date) (t : string) (h m : Z) :
  parseHM t = Some (h, m) ->
  atTime tz date t
  = Some (date + (h - getHours tz date) * MS_PER_HOUR + (m - getMinutes tz date) * MS_PER_MINUTE).
Proof.
  intros Hp. unfold atTime. rewrite Hp. f_equal.
  unfold setMinutes at 1. rewrite getMinutes_setHours. reflexivity.
Qed.

Lemma generateTimeSlots_fuel_mono (tz : Z) (fuel fuel' : nat) (date : Date)
    (config : TimeSlotConfig.t) (slots : list Slot) :
  (fuel <= fuel')%nat ->
  generateTimeSlots tz fuel date config = Some slots ->
  generateTimeSlots tz fuel' date config = Some slots.
Proof.
  unfold generateTimeSlots. intros Hle.
  destruct (atTime tz date (TimeSlotConfig.startTime config)); [| done].
  destruct (atTime tz date (TimeSlotConfig.endTime config)); [| done].
  by apply slotLoop_fuel_mono.
Qed.

Lemma generateTimeSlots_returns (tz : Z) (date : Date) (config : TimeSlotConfig.t) :
  0 < TimeSlotConfig.slotDuration config + orZero (TimeSlotConfig.bufferTime config) ->
  exists fuel slots, generateTimeSlots tz fuel date config = Some slots.
Proof.
  intros Hstride. unfold generateTimeSlots.
  destruct (atTime tz date (TimeSlotConfig.startTime config)) as [cur |]; [| by exists 0%nat, []].
  destruct (atTime tz date (TimeSlotConfig.endTime config)) as [dayEnd |]; [| by exists 0%nat, []].
  destruct (slotLoop_returns dayEnd _ _ (Z.to_nat (dayEnd - cur)) cur Hstride) as [slots Hs];
    [lia |].
  eauto.
Qed.

Lemma generateTimeSlots_cursor (tz : Z) (fuel : nat) (date : Date) (config : TimeSlotConfig.t)
    (slots : list Slot) (i : nat) (s : Slot) :
  generateTimeSlots tz fuel date config = Some slots ->
  slots !! i = Some s ->
  exists cursor dayEnd,
    atTime tz date (TimeSlotConfig.startTime config) = Some cursor
    /\ atTime tz date (TimeSlotConfig.endTime config) = Some dayEnd
    /\ start s = addMinutes cursor
                   (Z.of_nat i * (TimeSlotConfig.slotDuration config
                                  + orZero (TimeSlotConfig.bufferTime config)))
    /\ end_ s = addMinutes (start s) (TimeSlotConfig.slotDuration config)
    /\ end_ s <= dayEnd.
Proof.
  unfold generateTimeSlots. intros H Hi.
  destruct (atTime tz date (TimeSlotConfig.startTime config)) as [cur |];
    [| injection H as <-; by rewrite lookup_nil in Hi].
  destruct (atTime tz date (TimeSlotConfig.endTime config)) as [dayEnd |];
    [| injection H as <-; by rewrite lookup_nil in Hi].
  exists cur, dayEnd. repeat split; try reflexivity;
    by eapply slotLoop_cursor.
Qed.

(** C2. For a positive slot duration and a buffer that is not negative,
    [generateTimeSlots] returns, and every slot it returns lasts exactly
    [slotDuration] minutes and ends no later than the day's instant at the
    rule's end time. *)
Theorem generateTimeSlots_slot_shape (tz : Z) (date : Date) (config : TimeSlotConfig.t) :
  0 < TimeSlotConfig.slotDuration config ->
  0 <= orZero (TimeSlotConfig.bufferTime config) ->
  (exists fuel slots, generateTimeSlots tz fuel date config = Some slots)
  /\ (forall fuel slots slot,
        generateTimeSlots tz fuel date config = Some slots ->
        slot ∈ slots ->
        end_ slot - start slot = TimeSlotConfig.slotDuration config * MS_PER_MINUTE
        /\ getDurationInMinutes (start slot) (end_ slot) = TimeSlotConfig.slotDuration config
        /\ exists dayEnd,
             atTime tz date (TimeSlotConfig.endTime config) = Some dayEnd
             /\ end_ slot <= dayEnd).
Proof.
  intros Hd Hb. split; [apply generateTimeSlots_returns; lia |].
  intros fuel slots slot H Hin.
  apply list_elem_of_lookup in Hin as [i Hi].
  destruct (generateTimeSlots_cursor _ _ _ _ _ _ _ H Hi)
    as (cursor & dayEnd & _ & Hend & _ & He & Hle).
  assert (Hdiff : end_ slot - start slot = TimeSlotConfig.slotDuration config * MS_PER_MINUTE)
    by (rewrite He; unfold addMinutes; lia).
  repeat split; [exact Hdiff | | by exists dayEnd].
  unfold getDurationInMinutes, differenceInMinutes. rewrite Hdiff.
  by apply Z.quot_mul.
Qed.

Lemma generateTimeSlots_slot_shape_witness :
  (exists fuel slots, generateTimeSlots 0 fuel monday (rule_9_to_10 30 (Some 0)) = Some slots)
  /\ (forall fuel slots slot,
        generateTimeSlots 0 fuel monday (rule_9_to_10 30 (Some 0)) = Some slots ->
        slot ∈ slots ->
        end_ slot - start slot = 30 * MS_PER_MINUTE
        /\ getDurationInMinutes (start slot) (end_ slot) = 30
        /\ exists dayEnd,
             atTime 0 monday "10:00" = Some dayEnd /\ end_ slot <= dayEnd).
Proof.
  apply (generateTimeSlots_slot_shape 0 monday (rule_9_to_10 30 (Some 0))); simpl; lia.
Defined.

(** C3. In a sequence returned by [generateTimeSlots], a slot that follows
    another starts [bufferTime] minutes after the end of that one; the slot
    at index [i] is the [i]-th candidate of the cursor, which starts at the
    rule's start time and advances by [slotDuration + bufferTime]. *)
Theorem generateTimeSlots_consecutive (tz : Z) (fuel : nat) (date : Date)
    (config : TimeSlotConfig.t) (slots : list Slot) (i : nat) (a b : Slot) :
  generateTimeSlots tz fuel date config = Some slots ->
  slots !! i = Some a ->
  slots !! S i = Some b ->
  start b = addMinutes (end_ a) (orZero (TimeSlotConfig.bufferTime config))
  /\ exists cursor,
       atTime tz date (TimeSlotConfig.startTime config) = Some cursor
       /\ start a = addMinutes cursor
                      (Z.of_nat i * (TimeSlotConfig.slotDuration config
                                     + orZero (TimeSlotConfig.bufferTime config)))
       /\ end_ a = addMinutes (start a) (TimeSlotConfig.slotDuration config).
Proof.
  intros H Ha Hb.
  destruct (generateTimeSlots_cursor _ _ _ _ _ _ _ H Ha)
    as (cursor & dayEnd & Hcur & _ & Hsa & Hea & _).
  destruct (generateTimeSlots_cursor _ _ _ _ _ _ _ H Hb)
    as (cursor' & _ & Hcur' & _ & Hsb & _ & _).
  rewrite Hcur in Hcur'. injection Hcur' as <-.
  split; [| by exists cursor].
  rewrite Hsb, Hea, Hsa. unfold addMinutes. lia.
Qed.

Lemma generateTimeSlots_consecutive_witness :
  start {| start := 379800000; end_ := 381600000 |}
  = addMinutes (end_ {| start := 378000000; end_ := 379800000 |}) (orZero (Some 0))
  /\ exists cursor,
       atTime 0 monday "09:00" = Some cursor
       /\ start {| start := 378000000; end_ := 379800000 |}
          = addMinutes cursor (Z.of_nat 0 * (30 + orZero (Some 0)))
       /\ end_ {| start := 378000000; end_ := 379800000 |}
          = addMinutes (start {| start := 378000000; end_ := 379800000 |}) 30.
Proof.
  apply (generateTimeSlots_consecutive 0 5 monday (rule_9_to_10 30 (Some 0))
           [ {| start := 378000000; end_ := 379800000 |};
             {| start := 379800000; end_ := 381600000 |} ]
           0 {| start := 378000000; end_ := 379800000 |}
           {| start := 379800000; end_ := 381600000 |});
    reflexivity.
Defined.

Lemma generateTimeSlots_length (tz : Z) (fuel : nat) (date : Date) (config : TimeSlotConfig.t)
    (slots : list Slot) :
  0 < TimeSlotConfig.slotDuration config ->
  0 <= orZero (TimeSlotConfig.bufferTime config) ->
  generateTimeSlots tz fuel date config = Some slots ->
  Z.of_nat (length slots)
  <= Z.max 0 ((windowMinutes (TimeSlotConfig.startTime config) (TimeSlotConfig.endTime config)
               + orZero (TimeSlotConfig.bufferTime config))
              / (TimeSlotConfig.slotDuration config + orZero (TimeSlotConfig.bufferTime config))).
Proof.
  intros Hd Hb. unfold generateTimeSlots, windowMinutes.
  destruct (parseHM (TimeSlotConfig.startTime config)) as [[sh sm] |] eqn:Hs;
    [rewrite (atTime_parsed _ _ _ _ _ Hs) | unfold atTime; rewrite Hs; intros [= <-]; simpl; lia].
  destruct (parseHM (TimeSlotConfig.endTime config)) as [[eh em] |] eqn:He;
    [rewrite (atTime_parsed _ _ _ _ _ He) | unfold atTime; rewrite He; intros [= <-]; simpl; lia].
  intros H. apply slotLoop_length in H; [| assumption ..].
  etransitivity; [exact H |]. apply Z.eq_le_incl. f_equal.
  set (b := orZero (TimeSlotConfig.bufferTime config)) in *.
  set (d := TimeSlotConfig.slotDuration config) in *.
  rewrite <- (Z.div_mul_cancel_r (eh * 60 + em - (sh * 60 + sm) + b) (d + b) MS_PER_MINUTE)
    by (unfold MS_PER_MINUTE; lia).
  f_equal. unfold MS_PER_HOUR, MS_PER_MINUTE. lia.
Qed.

(** ** [getAvailableSlots] *)

Section Engine.
Variables (tz : Z) (rules : list AvailabilityRule.t) (events : list Event.t).
Variables (duration buffer : Z).

Lemma daySlots_fuel_mono (fuel fuel' : nat) (date : Date) (l : list TimeSlot.t) :
  (fuel <= fuel')%nat ->
  daySlots tz fuel rules events duration buffer date = Some l ->
  daySlots tz fuel' rules events duration buffer date = Some l.
Proof.
  unfold daySlots. intros Hle.
  destruct (findRule rules (getDayOfWeek tz date)) as [dayRule |]; [| done].
  destruct (generateTimeSlots tz fuel date _) as [generated |] eqn:Hg; [| done].
  by rewrite (generateTimeSlots_fuel_mono _ _ _ _ _ _ Hle Hg).
Qed.

Lemma daySlots_returns (date : Date) :
  0 < duration + buffer ->
  exists fuel l, daySlots tz fuel rules events duration buffer date = Some l.
Proof.
  intros Hstride. unfold daySlots.
  destruct (findRule rules (getDayOfWeek tz date)) as [dayRule |]; [| by exists 0%nat, []].
  edestruct generateTimeSlots_returns as (fuel & generated & Hg);
    [| exists fuel; rewrite Hg; simpl; eauto].
  exact Hstride.
Qed.

Lemma allSlots_fuel_mono (fuel fuel' : nat) (dateRange : list Date) (l : list TimeSlot.t) :
  (fuel <= fuel')%nat ->
  allSlots tz fuel rules events duration buffer dateRange = Some l ->
  allSlots tz fuel' rules events duration buffer dateRange = Some l.
Proof.
  intros Hle. revert l. induction dateRange as [| date later IH]; intros l; [done |].
  simpl.
  destruct (daySlots tz fuel _ _ _ _ date) as [today |] eqn:Ht; [| done].
  rewrite (daySlots_fuel_mono _ _ _ _ Hle Ht). simpl.
  destruct (allSlots tz fuel _ _ _ _ later) as [rest |]; [| done].
  by rewrite (IH rest).
Qed.

Lemma allSlots_returns (dateRange : list Date) :
  0 < duration + buffer ->
  exists fuel l, allSlots tz fuel rules events duration buffer dateRange = Some l.
Proof.
  intros Hstride. induction dateRange as [| date later (f2 & rest & Hrest)].
  - by exists 0%nat, [].
  - destruct (daySlots_returns date Hstride) as (f1 & today & Htoday).
    exists (Nat.max f1 f2), (today ++ rest). simpl.
    rewrite (daySlots_fuel_mono f1 _ _ today) by (lia || assumption). simpl.
    by rewrite (allSlots_fuel_mono f2 _ _ rest) by (lia || assumption).
Qed.

Lemma daySlots_length (fuel : nat) (date : Date) (l : list TimeSlot.t) (window : Z) :
  0 < duration -> 0 <= buffer -> 0 <= window ->
  (forall rule, rule ∈ rules -> ruleWindow rule <= window) ->
  daySlots tz fuel rules events duration buffer date = Some l ->
  Z.of_nat (length l) <= (window + buffer) / (duration + buffer).
Proof.
  intros Hd Hb Hw Hrules. unfold daySlots, findRule.
  assert (Hq : 0 <= (window + buffer) / (duration + buffer)) by (apply Z.div_pos; lia).
  destruct (find _ rules) as [dayRule |] eqn:Hfind; [| intros [= <-]; simpl; lia].
  apply find_some in Hfind as [Hin _]. apply list_elem_of_In, Hrules in Hin.
  destruct (generateTimeSlots tz fuel date _) as [generated |] eqn:Hg; [| done].
  simpl. intros [= <-]. rewrite length_map.
  apply generateTimeSlots_length in Hg; simpl in *; [| assumption ..].
  etransitivity; [exact Hg |]. apply Z.max_lub; [assumption |].
  apply Z.div_le_mono; [lia |]. unfold ruleWindow in Hin. lia.
Qed.

Lemma allSlots_length (fuel : nat) (dateRange : list Date) (l : list TimeSlot.t) (window : Z) :
  0 < duration -> 0 <= buffer -> 0 <= window ->
  (forall rule, rule ∈ rules -> ruleWindow rule <= window) ->
  allSlots tz fuel rules events duration buffer dateRange = Some l ->
  Z.of_nat (length l)
  <= Z.of_nat (length dateRange) * ((window + buffer) / (duration + buffer)).
Proof.
  intros Hd Hb Hw Hrules. revert l.
  induction dateRange as [| date later IH]; intros l.
  - intros [= <-]. simpl. lia.
  - simpl allSlots.
    destruct (daySlots tz fuel _ _ _ _ date) as [today |] eqn:Ht; [| done]. simpl.
    destruct (allSlots tz fuel _ _ _ _ later) as [rest |]; [| done]. simpl.
    intros [= <-]. rewrite length_app, Nat2Z.inj_add. simpl length. rewrite Nat2Z.inj_succ.
    specialize (IH rest eq_refl).
    pose proof (daySlots_length _ _ _ _ Hd Hb Hw Hrules Ht). lia.
Qed.

End Engine.

Lemma getDateRange_length (startDate : Date) (days : Z) :
  length (getDateRange startDate days) = Z.to_nat days.
Proof. unfold getDateRange. by rewrite length_map, length_seq. Qed.

Lemma resolveRules_elem (r : Response (list AvailabilityRule.t)) (rule : AvailabilityRule.t) :
  rule ∈ resolveRules r ->
  rule ∈ DEFAULT_AVAILABILITY_RULES \/ exists rows, data r = Some rows /\ rule ∈ rows.
Proof.
  unfold resolveRules. destruct (error r); [by left |].
  destruct (data r) as [[| first rest] |]; [by left | | by left].
  intros Hin. right. eauto.
Qed.

Lemma getAvailableSlots_returns (tz : Z) (db : Database) (eventsFault rulesFault : Fault)
    (params : GetAvailableSlotsParams.t) :
  0 < default 30 (GetAvailableSlotsParams.slotDuration params)
      + default 0 (GetAvailableSlotsParams.bufferTime params) ->
  exists fuel slots, getAvailableSlots tz fuel db eventsFault rulesFault params = Some slots.
Proof.
  intros Hstride. unfold getAvailableSlots.
  destruct (last _) as [endDate |]; [| by exists 0%nat, []].
  destruct (respond eventsFault _) as [eventsResponse | msg]; [| by exists 0%nat, []].
  destruct (error eventsResponse); [by exists 0%nat, [] |].
  destruct (respond rulesFault _) as [rulesResponse | msg]; [| by exists 0%nat, []].
  by apply allSlots_returns.
Qed.

(** C5 (as stated) fails: with the default rules (a window of 540 minutes),
    one day, a duration of 480 and a buffer of 120 minutes, one slot is
    returned, and [1 * floor(540 / (480 + 120))] is 0. *)
Lemma getAvailableSlots_exceeds_stated_bound :
  (forall rule, rule ∈ DEFAULT_AVAILABILITY_RULES -> ruleWindow rule = 540)
  /\ exists slots,
       getAvailableSlots 0 5 emptyDb NoFault NoFault (slotParams monday 1 480 120) = Some slots
       /\ slots = [ {| TimeSlot.start := monday_9am;
                       TimeSlot.end_ := addMinutes monday_9am 480;
                       TimeSlot.available := true |} ]
       /\ ~ Z.of_nat (length slots) <= 1 * (540 / (480 + 120)).
Proof.
  split.
  - intros rule Hin. apply list_elem_of_In in Hin. simpl in Hin.
    destruct Hin as [<- | [<- | [<- | [<- | [<- | []]]]]]; reflexivity.
  - eexists. split; [reflexivity |]. split; [reflexivity |]. by vm_compute.
Qed.

(** C5 (amended). With [days >= 0], a positive duration, a buffer that is not
    negative and every rule of the effective rule set spanning at most
    [window] minutes, [getAvailableSlots] returns, and the list it returns
    has at most [days * floor((window + buffer) / (duration + buffer))]
    slots. *)
Theorem getAvailableSlots_length_bound (tz : Z) (db : Database)
    (eventsFault rulesFault : Fault) (params : GetAvailableSlotsParams.t) (window : Z) :
  let days := default 60 (GetAvailableSlotsParams.days params) in
  let duration := default 30 (GetAvailableSlotsParams.slotDuration params) in
  let buffer := default 0 (GetAvailableSlotsParams.bufferTime params) in
  0 <= days -> 0 < duration -> 0 <= buffer -> 0 <= window ->
  (forall r rule,
     respond rulesFault (selectActiveRules db) = Resolved r ->
     rule ∈ resolveRules r -> ruleWindow rule <= window) ->
  (exists fuel slots, getAvailableSlots tz fuel db eventsFault rulesFault params = Some slots)
  /\ (forall fuel slots,
        getAvailableSlots tz fuel db eventsFault rulesFault params = Some slots ->
        Z.of_nat (length slots) <= days * ((window + buffer) / (duration + buffer))).
Proof.
  intros days duration buffer Hdays Hd Hb Hw Hrules.
  split; [apply getAvailableSlots_returns; fold duration buffer; lia |].
  assert (Hq : 0 <= days * ((window + buffer) / (duration + buffer)))
    by (apply Z.mul_nonneg_nonneg; [| apply Z.div_pos]; lia).
  intros fuel slots. unfold getAvailableSlots. fold days duration buffer.
  destruct (last _) as [endDate |]; [| by intros [= <-]].
  destruct (respond eventsFault _) as [eventsResponse | msg]; [| by intros [= <-]].
  destruct (error eventsResponse); [by intros [= <-] |].
  destruct (respond rulesFault _) as [rulesResponse | msg] eqn:Hresp; [| by intros [= <-]].
  intros H. apply (allSlots_length _ _ _ _ _ _ _ _ window) in H; try assumption.
  - rewrite getDateRange_length, Z2Nat.id in H by assumption. exact H.
  - intros rule Hin. by eapply Hrules.
Qed.

Lemma getAvailableSlots_length_bound_witness :
  (exists fuel slots,
     getAvailableSlots 0 fuel emptyDb NoFault NoFault (slotParams monday 1 480 120) = Some slots)
  /\ (forall fuel slots,
        getAvailableSlots 0 fuel emptyDb NoFault NoFault (slotParams monday 1 480 120)
        = Some slots ->
        Z.of_nat (length slots) <= 1 * ((540 + 120) / (480 + 120))).
Proof.
  apply (getAvailableSlots_length_bound 0 emptyDb NoFault NoFault
           (slotParams monday 1 480 120) 540); simpl; try lia.
  intros r rule [= <-] Hin. apply list_elem_of_In in Hin. simpl in Hin.
  destruct Hin as [<- | [<- | [<- | [<- | [<- | []]]]]]; by vm_compute.
Defined.

(** C6. When the read of the booked events fails, by an error in the
    response or by an exception, [getAvailableSlots] returns the empty list. *)
Theorem getAvailableSlots_events_read_failure (tz : Z) (fuel : nat) (db : Database)
    (rulesFault : Fault) (params : GetAvailableSlotsParams.t) :
  (forall e, getAvailableSlots tz fuel db (Fails e) rulesFault params = Some [])
  /\ (forall msg, getAvailableSlots tz fuel db (Throws msg) rulesFault params = Some []).
Proof.
  split; intros x; unfold getAvailableSlots; by destruct (last _).
Qed.

(** C10. [getAvailableSlots] returns the same list whatever the settings
    table holds, so [minNoticeHours] and [advanceBookingDays] have no effect
    on it; with a minimum notice of 12 hours stored, a call at 08:00 returns
    the 09:00 slot of the same day marked available, a slot that
    [hasMinimumNotice] refuses and that only the calendar component leaves
    out, by its own 12-hour constant. *)
Theorem getAvailableSlots_ignores_notice_settings :
  (forall tz fuel db eventsFault rulesFault params settings,
     getAvailableSlots tz fuel (withSettings db settings) eventsFault rulesFault params
     = getAvailableSlots tz fuel db eventsFault rulesFault params)
  /\ (let db := withSettings emptyDb [defaultSettingsRow] in
      let now := monday_8am in
      let slot := {| TimeSlot.start := monday_9am; TimeSlot.end_ := addMinutes monday_9am 30;
                     TimeSlot.available := true |} in
      exists slots,
        getAvailableSlots 0 20 db NoFault NoFault (slotParams now 1 30 0) = Some slots
        /\ slots !! 0%nat = Some slot
        /\ hasMinimumNotice now (TimeSlot.start slot)
             (CalendarSettings.min_notice_hours defaultSettingsRow) = false
        /\ Calendar.counted now slot = false).
Proof.
  split; [reflexivity |].
  eexists. split; [by vm_compute |]. by vm_compute.
Qed.

(** ** Schedule resolution *)

(** Case analysis on a weekday known to lie between 0 and 6. *)
Ltac weekday_cases d :=
  let H := fresh "Hday" in
  assert (d = 0 \/ d = 1 \/ d = 2 \/ d = 3 \/ d = 4 \/ d = 5 \/ d = 6) as H by lia;
  destruct H as [-> | [-> | [-> | [-> | [-> | [-> | ->]]]]]].

Lemma findDay_insertByDay (r : DaySchedule.t) (sorted : list DaySchedule.t) (d : Z) :
  findDay (insertByDay r sorted) d
  = if DaySchedule.day_of_week r =? d then Some r else findDay sorted d.
Proof.
  unfold findDay. induction sorted as [| x rest IH]; simpl; [done |].
  destruct (Z.leb_spec (DaySchedule.day_of_week r) (DaySchedule.day_of_week x)) as [Hle | Hgt];
    simpl; [done |].
  rewrite IH.
  destruct (Z.eqb_spec (DaySchedule.day_of_week x) d), (Z.eqb_spec (DaySchedule.day_of_week r) d);
    try reflexivity; lia.
Qed.

(** Ordering by weekday keeps the first row of each weekday first. *)
Lemma findDay_orderByDay (rows : list DaySchedule.t) (d : Z) :
  findDay (orderByDay rows) d = findDay rows d.
Proof.
  induction rows as [| r rows IH]; [done |].
  unfold orderByDay in *. simpl foldr. rewrite findDay_insertByDay, IH. reflexivity.
Qed.

Lemma insertByDay_not_nil (r : DaySchedule.t) (sorted : list DaySchedule.t) :
  insertByDay r sorted <> [].
Proof. destruct sorted as [| x rest]; simpl; [done |]. by destruct (_ <=? _). Qed.

Lemma orderByDay_nil (rows : list DaySchedule.t) : orderByDay rows = [] <-> rows = [].
Proof.
  destruct rows as [| r rows]; [done |]. split; [| done].
  unfold orderByDay. simpl. intros H. by apply insertByDay_not_nil in H.
Qed.

Lemma DEFAULT_SCHEDULE_documented (d : Z) :
  0 <= d <= 6 -> DEFAULT_SCHEDULE !! Z.to_nat d = Some (documentedDefault d).
Proof.
  intros Hd. weekday_cases d; reflexivity.
Qed.

Lemma mergeWithDefaults_lookup (rows : list DaySchedule.t) (d : Z) :
  0 <= d <= 6 ->
  mergeWithDefaults rows !! Z.to_nat d = Some (default (documentedDefault d) (findDay rows d)).
Proof.
  intros Hd. unfold mergeWithDefaults.
  rewrite list_lookup_fmap, (DEFAULT_SCHEDULE_documented d Hd). simpl.
  by destruct (findDay rows d) as [[] |].
Qed.


(** ** [createBooking] *)

Section BookingGuard.
Variable datetime : string -> option Date.
Variable isEmail : string -> bool.
Variable matchesPhone : string -> bool.

Local Abbreviation issues := (Validations.issues datetime isEmail matchesPhone).
Local Abbreviation createBooking := (Bookings.createBooking datetime isEmail matchesPhone).

Lemma issues_nil_datetimes (input : CreateBookingInput.t) :
  issues input = [] ->
  is_Some (datetime (CreateBookingInput.slot_start input))
  /\ is_Some (datetime (CreateBookingInput.slot_end input)).
Proof.
  unfold Validations.issues, Validations.isDatetime, Validations.issueUnless.
  destruct (datetime (CreateBookingInput.slot_start input)); [| done].
  destruct (datetime (CreateBookingInput.slot_end input)); [| done].
  eauto.
Qed.

(** Past the three guards [createBooking] is [createRecords]. *)
Lemma createBooking_guards_passed (now : Date) (db : Database) (faults : Faults)
    (input : CreateBookingInput.t) (slotStart slotEnd : Date) :
  issues input = [] ->
  datetime (CreateBookingInput.slot_start input) = Some slotStart ->
  datetime (CreateBookingInput.slot_end input) = Some slotEnd ->
  now <= slotStart ->
  selectExisting db (checkFault faults) slotStart slotEnd
  = Resolved {| data := Some None; error := None |} ->
  createBooking now db faults input = createRecords db faults input slotStart slotEnd.
Proof.
  intros Hvalid Hstart Hend Hfuture Hcheck.
  unfold Bookings.createBooking, Validations.safeParse.
  rewrite Hvalid, Hstart, Hend, Hcheck.
  destruct (Z.ltb_spec slotStart now); [lia | reflexivity].
Qed.

(** C7 (amended). If the input passes validation and the candidate start
    is strictly earlier than the acceptance time, the call is rejected with
    the past-slot message and the store is unchanged. *)
Theorem createBooking_rejects_past_slot (now : Date) (db : Database) (faults : Faults)
    (input : CreateBookingInput.t) (slotStart : Date) :
  issues input = [] ->
  datetime (CreateBookingInput.slot_start input) = Some slotStart ->
  slotStart < now ->
  createBooking now db faults input = (ApiResponse.rejection pastSlotError, db).
Proof.
  intros Hvalid Hstart Hpast.
  destruct (issues_nil_datetimes _ Hvalid) as [_ [slotEnd Hend]].
  unfold Bookings.createBooking, Validations.safeParse.
  rewrite Hvalid, Hstart, Hend.
  destruct (Z.ltb_spec slotStart now); [reflexivity | lia].
Qed.

End BookingGuard.

Lemma createBooking_rejects_past_slot_witness :
  createBooking datetimeTable emailTable phoneTable (monday_9am + 1) emptyDb noFaults anaBooking
  = (ApiResponse.rejection pastSlotError, emptyDb).
Proof.
  apply (createBooking_rejects_past_slot datetimeTable emailTable phoneTable
           (monday_9am + 1) emptyDb noFaults anaBooking monday_9am);
    [reflexivity | reflexivity | unfold monday_9am; lia].
Defined.

(** C7 (as stated) fails: a valid booking whose start equals the acceptance
    time is not strictly in the future, yet it is accepted and an event and
    a booking are created. *)
Lemma createBooking_accepts_slot_starting_now :
  let now := monday_9am in
  let result := createBooking datetimeTable emailTable phoneTable now emptyDb noFaults anaBooking in
  Validations.issues datetimeTable emailTable phoneTable anaBooking = []
  /\ datetimeTable (CreateBookingInput.slot_start anaBooking) = Some now
  /\ ~ now < now
  /\ result.1 = ApiResponse.ok 1%nat
  /\ events result.2 = [ eventRow anaBooking now (addMinutes now 30) 1 ]
  /\ bookings result.2 = [ bookingRow anaBooking 1 1 ].
Proof.
  repeat split; try reflexivity. unfold monday_9am. lia.
Qed.

(** ** Rollback and the exact-match check *)

Lemma freshId_above (ids : list nat) (id : nat) : id ∈ ids -> (id < freshId ids)%nat.
Proof.
  unfold freshId. induction ids as [| x ids IH]; intros Hin.
  - by apply elem_of_nil in Hin.
  - apply elem_of_cons in Hin as [-> | Hin]; simpl; [lia |].
    specialize (IH Hin). lia.
Qed.

Lemma filter_keeps_all {A : Type} (p : A -> bool) (l : list A) :
  (forall x, x ∈ l -> p x = true) -> List.filter p l = l.
Proof.
  induction l as [| x l IH]; intros Hall; [done |]. simpl.
  rewrite (Hall x) by apply list_elem_of_here.
  f_equal. apply IH. intros y Hy. apply Hall. by apply list_elem_of_further.
Qed.

(** Deleting the event just inserted gives back the events there were. *)
Lemma delete_inserted_event (evs : list Event.t) (row : nat -> Event.t) :
  let newId := freshId (map Event.id evs) in
  Event.id (row newId) = newId ->
  List.filter (fun ev => negb (Event.id ev =? newId)%nat) (evs ++ [row newId]) = evs.
Proof.
  intros newId Hid. rewrite List.filter_app. simpl. rewrite Hid, Nat.eqb_refl. simpl.
  rewrite app_nil_r. apply filter_keeps_all. intros ev Hev.
  assert (Event.id ev < newId)%nat as Hlt
    by (apply freshId_above, list_elem_of_fmap; eauto).
  apply negb_true_iff, Nat.eqb_neq. lia.
Qed.

Lemma eventConstraints_eventRow (input : CreateBookingInput.t) (slotStart slotEnd : Date)
    (id : nat) :
  slotStart < slotEnd ->
  slotEnd - slotStart <= 24 * MS_PER_HOUR ->
  eventConstraints (eventRow input slotStart slotEnd id) = true.
Proof.
  intros Hlt Hday. unfold eventConstraints. simpl.
  apply andb_true_iff. split; [by apply Z.ltb_lt | by apply Z.leb_le].
Qed.

Section Rollback.
Variable datetime : string -> option Date.
Variable isEmail : string -> bool.
Variable matchesPhone : string -> bool.

Local Abbreviation issues := (Validations.issues datetime isEmail matchesPhone).
Local Abbreviation createBooking := (Bookings.createBooking datetime isEmail matchesPhone).

(** C8 (amended). When the guards pass and the event insert succeeds, a
    booking insert that does not succeed always ends in a rejection.  The
    event just created is deleted only when the insert comes back with an
    error and the store carries out the delete: then the events are those of
    before, and if every booking event had its booking record before, every
    one has it after.  When the insert throws, or the delete is not carried
    out, the created event stays without a booking record. *)
Theorem createBooking_rolls_back_event (now : Date) (db : Database) (faults : Faults)
    (input : CreateBookingInput.t) (slotStart slotEnd : Date) :
  issues input = [] ->
  datetime (CreateBookingInput.slot_start input) = Some slotStart ->
  datetime (CreateBookingInput.slot_end input) = Some slotEnd ->
  now <= slotStart ->
  selectExisting db (checkFault faults) slotStart slotEnd
  = Resolved {| data := Some None; error := None |} ->
  eventInsertFault faults = NoFault ->
  slotStart < slotEnd ->
  slotEnd - slotStart <= 24 * MS_PER_HOUR ->
  bookingInsertFault faults <> NoFault ->
  exists r db',
    createBooking now db faults input = (r, db')
    /\ ApiResponse.success r = false
    /\ (forall e,
          bookingInsertFault faults = Fails e ->
          deleteFault faults = NoFault ->
          r = ApiResponse.rejection (String.append "Error al crear la reserva: " (message e))
          /\ events db' = events db
          /\ (noOrphanBooking db -> noOrphanBooking db'))
    /\ ((exists msg, bookingInsertFault faults = Throws msg)
        \/ deleteFault faults <> NoFault ->
        events db'
        = events db
          ++ [eventRow input slotStart slotEnd (freshId (map Event.id (events db)))]
        /\ bookings db' = bookings db
        /\ (referencesEvents db -> ~ noOrphanBooking db')).
Proof.
  intros Hvalid Hstart Hend Hfuture Hcheck Hevent Hlt Hday Hbooking.
  rewrite (createBooking_guards_passed _ _ _ _ _ _ _ _ _ Hvalid Hstart Hend Hfuture Hcheck).
  unfold createRecords, insertEvent. rewrite Hevent.
  rewrite eventConstraints_eventRow by assumption.
  cbn -[freshId]. unfold insertBooking.
  set (newId := freshId (map Event.id (events db))).
  assert (Horphan :
    forall db',
      events db' = events db ++ [eventRow input slotStart slotEnd newId] ->
      bookings db' = bookings db ->
      referencesEvents db -> ~ noOrphanBooking db').
  { intros db' Hevents Hbookings Hrefs Hlinked.
    destruct (Hlinked (eventRow input slotStart slotEnd newId)) as (b & Hb & Hlink).
    - rewrite Hevents. apply elem_of_app. right. apply list_elem_of_here.
    - reflexivity.
    - rewrite Hbookings in Hb. destruct (Hrefs b Hb) as (ev & Hev & Hid).
      assert (Event.id ev < newId)%nat as Hfresh
        by (apply freshId_above, list_elem_of_fmap; eauto).
      simpl in Hlink. lia. }
  destruct (bookingInsertFault faults) as [| e | msg]; [done | |].
  - cbn -[freshId]. unfold deleteEvent.
    destruct (deleteFault faults) as [| e' | msg'] eqn:Hdelete; cbn -[freshId];
      do 2 eexists; (split; [reflexivity |]); (split; [reflexivity |]).
    + split; [| intros [[msg Hmsg] | Hnot]; done].
      intros ? [= <-] _.
      pose proof (delete_inserted_event (events db) (eventRow input slotStart slotEnd) eq_refl)
        as Hdel. cbn -[freshId] in Hdel. fold newId in Hdel.
      split; [reflexivity |]. split; [exact Hdel |].
      intros Hlinked ev Hev Htype. cbn -[freshId] in Hev |- *. rewrite Hdel in Hev.
      destruct (Hlinked ev Hev Htype) as (b & Hb & Hlink).
      exists b. split; [| exact Hlink].
      apply list_elem_of_In, filter_In. split; [by apply list_elem_of_In |].
      assert (Event.id ev < newId)%nat as Hfresh
        by (apply freshId_above, list_elem_of_fmap; eauto).
      apply negb_true_iff, Nat.eqb_neq. lia.
    + split; [done |]. intros _.
      split; [reflexivity |]. split; [reflexivity |]. by apply Horphan.
    + split; [done |]. intros _.
      split; [reflexivity |]. split; [reflexivity |]. by apply Horphan.
  - cbn -[freshId]. do 2 eexists. split; [reflexivity |]. split; [reflexivity |].
    split; [done |]. intros _.
    split; [reflexivity |]. split; [reflexivity |]. by apply Horphan.
Qed.





End Rollback.

Lemma createBooking_rolls_back_event_witness :
  exists r db',
    createBooking datetimeTable emailTable phoneTable monday_8am emptyDb bookingInsertFails
      anaBooking = (r, db')
    /\ ApiResponse.success r = false
    /\ (forall e,
          bookingInsertFault bookingInsertFails = Fails e ->
          deleteFault bookingInsertFails = NoFault ->
          r = ApiResponse.rejection (String.append "Error al crear la reserva: " (message e))
          /\ events db' = events emptyDb
          /\ (noOrphanBooking emptyDb -> noOrphanBooking db'))
    /\ ((exists msg, bookingInsertFault bookingInsertFails = Throws msg)
        \/ deleteFault bookingInsertFails <> NoFault ->
        events db'
        = events emptyDb
          ++ [eventRow anaBooking monday_9am (addMinutes monday_9am 30)
                (freshId (map Event.id (events emptyDb)))]
        /\ bookings db' = bookings emptyDb
        /\ (referencesEvents emptyDb -> ~ noOrphanBooking db')).
Proof.
  apply (createBooking_rolls_back_event datetimeTable emailTable phoneTable
           monday_8am emptyDb bookingInsertFails anaBooking
           monday_9am (addMinutes monday_9am 30));
    try reflexivity; by vm_compute.
Defined.

(** C8 (as stated) fails: the booking insert fails after the event insert
    succeeded, the call is a rejection, and the event of type booking stays
    in the store without a booking record.  First the insert throws; then
    it comes back with an error and the rollback delete fails. *)
Lemma rollback_gaps_leave_orphan_event :
  (let out := createBooking datetimeTable emailTable phoneTable monday_8am emptyDb
                bookingInsertThrows anaBooking in
   ApiResponse.success out.1 = false
   /\ events out.2 = [eventRow anaBooking monday_9am (addMinutes monday_9am 30) 1]
   /\ bookings out.2 = []
   /\ ~ noOrphanBooking out.2)
  /\ (let out := createBooking datetimeTable emailTable phoneTable monday_8am emptyDb
                   rollbackDeleteFails anaBooking in
      out.1 = ApiResponse.rejection
                "Error al crear la reserva: violates check constraint valid_email"
      /\ events out.2 = [eventRow anaBooking monday_9am (addMinutes monday_9am 30) 1]
      /\ bookings out.2 = []
      /\ ~ noOrphanBooking out.2).
Proof.
  split; cbn zeta; (split; [reflexivity |]); (split; [reflexivity |]);
    (split; [reflexivity |]); intros Hlinked;
    destruct (Hlinked (eventRow anaBooking monday_9am (addMinutes monday_9am 30) 1))
      as (b & Hb & _); try reflexivity; try apply list_elem_of_here;
    by apply elem_of_nil in Hb.
Qed.

Example rollback_restores_store :
  createBooking datetimeTable emailTable phoneTable monday_8am emptyDb bookingInsertFails
    anaBooking
  = (ApiResponse.rejection "Error al crear la reserva: violates check constraint valid_email",
     emptyDb).
Proof. reflexivity. Qed.


(** The store of the example above: an admin block 08:59:59.999-09:00:00.001
    does not stop a booking of 09:00-09:30; an event with the same endpoints
    does. *)
Example overlapping_booking_accepted :
  (createBooking datetimeTable emailTable phoneTable monday_8am
     (storeWithEvents [blockAround monday_9am]) noFaults anaBooking).1
  = ApiResponse.ok 1%nat.
Proof. reflexivity. Qed.

Example exact_match_rejected :
  createBooking datetimeTable emailTable phoneTable monday_8am
    (storeWithEvents [eventRow anaBooking monday_9am (addMinutes monday_9am 30) 7])
    noFaults anaBooking
  = (ApiResponse.rejection alreadyBookedError,
     storeWithEvents [eventRow anaBooking monday_9am (addMinutes monday_9am 30) 7]).
Proof. reflexivity. Qed.

(** * Further properties *)

(** ** The slot generator: count, order, divergence *)

Section SlotLoopCount.
Variables (dayEnd : Date) (duration buffer : Z).

Local Abbreviation loop fuel cur := (slotLoop fuel dayEnd duration buffer cur).
Local Abbreviation next cur := (addMinutes (addMinutes cur duration) buffer).

Lemma slotLoop_count (fuel : nat) (cur : Date) (slots : list Slot) :
  0 < duration -> 0 <= buffer ->
  loop fuel cur = Some slots ->
  Z.of_nat (length slots)
  = Z.max 0 ((dayEnd - cur + buffer * MS_PER_MINUTE) / ((duration + buffer) * MS_PER_MINUTE)).
Proof.
  intros Hd Hb. revert cur slots.
  set (stride := (duration + buffer) * MS_PER_MINUTE).
  assert (Hstride : 0 < stride) by (unfold stride, MS_PER_MINUTE; lia).
  assert (Hnone : forall cur, dayEnd - cur < duration * MS_PER_MINUTE ->
                    (dayEnd - cur + buffer * MS_PER_MINUTE) / stride <= 0).
  { intros cur Hlt.
    assert ((dayEnd - cur + buffer * MS_PER_MINUTE) / stride < 1); [| lia].
    apply Z.div_lt_upper_bound; [assumption |]. unfold stride. lia. }
  induction fuel as [| fuel IH]; intros cur slots H; [discriminate |].
  destruct (Z.lt_ge_cases cur dayEnd) as [Hlt | Hge].
  - destruct (Z.le_gt_cases (addMinutes cur duration) dayEnd) as [Hfit | Hpast].
    + rewrite slotLoop_step in H by assumption.
      destruct (loop fuel (next cur)) as [rest |] eqn:Hrest; [| discriminate].
      simpl in H. rewrite (proj2 (Z.leb_le _ _) Hfit) in H. injection H as <-.
      specialize (IH _ _ Hrest). simpl length. rewrite Nat2Z.inj_succ, IH.
      replace (dayEnd - next cur + buffer * MS_PER_MINUTE)
        with (dayEnd - cur + buffer * MS_PER_MINUTE + (-1) * stride)
        by (unfold stride, addMinutes; lia).
      rewrite Z.div_add by lia.
      assert (1 <= (dayEnd - cur + buffer * MS_PER_MINUTE) / stride).
      { apply Z.div_le_lower_bound; [lia |]. unfold stride, addMinutes in *. lia. }
      lia.
    + apply slotLoop_past_end in H as ->; [| lia]. simpl.
      specialize (Hnone cur). unfold addMinutes in Hpast. lia.
  - rewrite slotLoop_done in H by assumption. injection H as <-. simpl.
    specialize (Hnone cur). unfold MS_PER_MINUTE in *. lia.
Qed.

(** A loop that returned a slot has a positive stride. *)
Lemma slotLoop_some_stride (fuel : nat) (cur : Date) (slots : list Slot) (i : nat) (s : Slot) :
  loop fuel cur = Some slots -> slots !! i = Some s -> 0 < duration + buffer.
Proof.
  intros H Hi. destruct (Z.lt_ge_cases 0 (duration + buffer)) as [| Hneg]; [assumption |].
  destruct fuel as [| fuel]; [discriminate |].
  destruct (Z.lt_ge_cases cur dayEnd) as [Hlt | Hge].
  - rewrite slotLoop_diverges in H by (lia || assumption). discriminate.
  - rewrite slotLoop_done in H by assumption. injection H as <-.
    by rewrite lookup_nil in Hi.
Qed.

End SlotLoopCount.

Lemma windowMinutes_atTime (tz : Z) (date : Date) (s e : string) (cursor dayEnd : Date) :
  atTime tz date s = Some cursor ->
  atTime tz date e = Some dayEnd ->
  dayEnd - cursor = windowMinutes s e * MS_PER_MINUTE.
Proof.
  unfold windowMinutes. intros Hs He.
  destruct (parseHM s) as [[sh sm] |] eqn:Hps; [| by unfold atTime in Hs; rewrite Hps in Hs].
  destruct (parseHM e) as [[eh em] |] eqn:Hpe; [| by unfold atTime in He; rewrite Hpe in He].
  rewrite (atTime_parsed _ _ _ _ _ Hps) in Hs. rewrite (atTime_parsed _ _ _ _ _ Hpe) in He.
  injection Hs as <-. injection He as <-. unfold MS_PER_HOUR, MS_PER_MINUTE. lia.
Qed.

Lemma windowMinutes_positive_parsed (tz : Z) (date : Date) (s e : string) :
  0 < windowMinutes s e ->
  exists cursor dayEnd, atTime tz date s = Some cursor /\ atTime tz date e = Some dayEnd.
Proof.
  unfold windowMinutes, atTime.
  destruct (parseHM s) as [[sh sm] |]; [| lia].
  destruct (parseHM e) as [[eh em] |]; [| lia]. eauto.
Qed.

(** X1. For wall-clock times as the TIME column and the defaults give
    them, a date whose slots stay time values, a positive duration and a
    buffer that is not negative, [generateTimeSlots] returns, and the number
    of slots it returns is exactly
    [floor((window + buffer) / (duration + buffer))], or 0 when that is
    negative; a window shorter than the duration gives no slot. *)
Theorem generateTimeSlots_count (tz : Z) (date : Date) (config : TimeSlotConfig.t) :
  let window := windowMinutes (TimeSlotConfig.startTime config) (TimeSlotConfig.endTime config) in
  let duration := TimeSlotConfig.slotDuration config in
  let buffer := orZero (TimeSlotConfig.bufferTime config) in
  clockTime (TimeSlotConfig.startTime config) ->
  clockTime (TimeSlotConfig.endTime config) ->
  withinDateRange date duration buffer ->
  0 < duration -> 0 <= buffer ->
  (exists fuel slots, generateTimeSlots tz fuel date config = Some slots)
  /\ (forall fuel slots,
        generateTimeSlots tz fuel date config = Some slots ->
        Z.of_nat (length slots) = Z.max 0 ((window + buffer) / (duration + buffer))
        /\ (window < duration -> slots = [])).
Proof.
  intros window duration buffer _ _ _ Hd Hb.
  split; [apply generateTimeSlots_returns; fold duration buffer; lia |].
  intros fuel slots H.
  assert (Hcount : Z.of_nat (length slots) = Z.max 0 ((window + buffer) / (duration + buffer))).
  { unfold generateTimeSlots in H.
    assert (Hzero : window = 0 -> Z.max 0 ((window + buffer) / (duration + buffer)) = 0).
    { intros ->. rewrite Z.div_small by lia. reflexivity. }
    destruct (atTime tz date (TimeSlotConfig.startTime config)) as [cursor |] eqn:Hs.
    - destruct (atTime tz date (TimeSlotConfig.endTime config)) as [dayEnd |] eqn:He.
      + apply slotLoop_count in H; [| assumption ..]. rewrite H. f_equal.
        rewrite (windowMinutes_atTime _ _ _ _ _ _ Hs He). fold window duration buffer.
        rewrite <- (Z.div_mul_cancel_r (window + buffer) (duration + buffer) MS_PER_MINUTE)
          by (unfold MS_PER_MINUTE; lia).
        f_equal. lia.
      + injection H as <-. simpl. symmetry. apply Hzero.
        unfold window, windowMinutes, atTime in *.
        destruct (parseHM (TimeSlotConfig.startTime config)) as [[] |]; [| done].
        by destruct (parseHM (TimeSlotConfig.endTime config)) as [[] |].
    - injection H as <-. simpl. symmetry. apply Hzero.
      unfold window, windowMinutes, atTime in *.
      by destruct (parseHM (TimeSlotConfig.startTime config)) as [[] |]. }
  split; [exact Hcount |].
  intros Hshort.
  assert ((window + buffer) / (duration + buffer) < 1)
    by (apply Z.div_lt_upper_bound; lia).
  destruct slots; [reflexivity | simpl in Hcount; lia].
Qed.

Lemma generateTimeSlots_count_witness :
  (exists fuel slots, generateTimeSlots 0 fuel monday (rule_9_to_10 45 None) = Some slots)
  /\ (forall fuel slots,
        generateTimeSlots 0 fuel monday (rule_9_to_10 45 None) = Some slots ->
        Z.of_nat (length slots)
        = Z.max 0 ((windowMinutes "09:00" "10:00" + orZero None) / (45 + orZero None))
        /\ (windowMinutes "09:00" "10:00" < 45 -> slots = [])).
Proof.
  apply (generateTimeSlots_count 0 monday (rule_9_to_10 45 None)).
  - exists 9, 0. split; [reflexivity | lia].
  - exists 10, 0. split; [reflexivity | lia].
  - split; vm_compute; discriminate.
  - simpl. lia.
  - simpl. lia.
Defined.



(** X3. When the end time is after the start time (wall-clock times, on a
    date whose slots stay time values) and [slotDuration + bufferTime] is
    zero, the cursor of [generateTimeSlots] never moves and stays before the
    end of the window, so the condition of the loop never becomes false: no
    amount of fuel gives a result. *)
Theorem generateTimeSlots_never_returns (tz : Z) (date : Date) (config : TimeSlotConfig.t) :
  clockTime (TimeSlotConfig.startTime config) ->
  clockTime (TimeSlotConfig.endTime config) ->
  withinDateRange date (TimeSlotConfig.slotDuration config)
    (orZero (TimeSlotConfig.bufferTime config)) ->
  0 < windowMinutes (TimeSlotConfig.startTime config) (TimeSlotConfig.endTime config) ->
  TimeSlotConfig.slotDuration config + orZero (TimeSlotConfig.bufferTime config) = 0 ->
  forall fuel, generateTimeSlots tz fuel date config = None.
Proof.
  intros _ _ _ Hwindow Hstride fuel.
  destruct (windowMinutes_positive_parsed tz date _ _ Hwindow) as (cursor & dayEnd & Hs & He).
  unfold generateTimeSlots. rewrite Hs, He.
  apply slotLoop_diverges; [lia |].
  pose proof (windowMinutes_atTime _ _ _ _ _ _ Hs He) as Hdiff.
  unfold MS_PER_MINUTE in Hdiff. lia.
Qed.

Lemma generateTimeSlots_never_returns_witness :
  generateTimeSlots 0 1000 monday (rule_9_to_10 0 None) = None.
Proof.
  apply (generateTimeSlots_never_returns 0 monday (rule_9_to_10 0 None)).
  - exists 9, 0. split; [reflexivity | lia].
  - exists 10, 0. split; [reflexivity | lia].
  - split; vm_compute; discriminate.
  - by vm_compute.
  - reflexivity.
Defined.

(** ** The date range *)

Lemma dayNumber_addDays (tz : Z) (d : Date) (n : Z) :
  dayNumber tz (addDays d n) = dayNumber tz d + n.
Proof.
  unfold dayNumber, addDays, localTime.
  replace (d + n * MS_PER_DAY + tz) with (d + tz + n * MS_PER_DAY) by lia.
  apply Z.div_add. unfold MS_PER_DAY. lia.
Qed.


Lemma getDateRange_lookup (startDate : Date) (days : Z) (i : nat) :
  (i < Z.to_nat days)%nat ->
  getDateRange startDate days !! i = Some (addDays startDate (Z.of_nat i)).
Proof.
  intros Hi. unfold getDateRange.
  rewrite list_lookup_fmap, lookup_seq_lt by assumption. reflexivity.
Qed.

Lemma getDateRange_elem (startDate : Date) (days : Z) (date : Date) :
  date ∈ getDateRange startDate days ->
  exists i, 0 <= i < days /\ date = addDays startDate i.
Proof.
  intros Hin. apply list_elem_of_lookup in Hin as [i Hi].
  assert (i < Z.to_nat days)%nat as Hlt.
  { apply lookup_lt_Some in Hi. by rewrite getDateRange_length in Hi. }
  rewrite getDateRange_lookup in Hi by assumption. injection Hi as <-.
  exists (Z.of_nat i). split; [lia | reflexivity].
Qed.


Lemma getDateRange_last (startDate : Date) (days : Z) :
  1 <= days -> last (getDateRange startDate days) = Some (addDays startDate (days - 1)).
Proof.
  intros Hdays. rewrite last_lookup, getDateRange_length.
  rewrite getDateRange_lookup by lia. do 2 f_equal. lia.
Qed.

Lemma getDateRange_last_none (startDate : Date) (days : Z) :
  days <= 0 -> last (getDateRange startDate days) = None.
Proof.
  intros Hdays. unfold getDateRange. by replace (Z.to_nat days) with 0%nat by lia.
Qed.

(** ** The engine: where a returned slot comes from *)

Section EngineSlots.
Variables (tz : Z) (rules : list AvailabilityRule.t) (events : list Event.t).
Variables (duration buffer : Z).

Lemma daySlots_elem (fuel : nat) (date : Date) (today : list TimeSlot.t) (ts : TimeSlot.t) :
  daySlots tz fuel rules events duration buffer date = Some today ->
  ts ∈ today ->
  exists dayRule generated slot,
    findRule rules (getDayOfWeek tz date) = Some dayRule
    /\ generateTimeSlots tz fuel date
         {| TimeSlotConfig.startTime := AvailabilityRule.start_time dayRule;
            TimeSlotConfig.endTime := AvailabilityRule.end_time dayRule;
            TimeSlotConfig.slotDuration := duration;
            TimeSlotConfig.bufferTime := Some buffer |} = Some generated
    /\ slot ∈ generated
    /\ ts = {| TimeSlot.start := start slot; TimeSlot.end_ := end_ slot;
               TimeSlot.available :=
                 isSlotAvailable (start slot) (end_ slot) (bookedSlotsOn tz events date) |}.
Proof.
  unfold daySlots. intros H Hin.
  destruct (findRule rules (getDayOfWeek tz date)) as [dayRule |];
    [| injection H as <-; by apply elem_of_nil in Hin].
  destruct (generateTimeSlots tz fuel date _) as [generated |] eqn:Hg; [| done].
  simpl in H. injection H as <-.
  apply list_elem_of_fmap in Hin as (slot & -> & Hslot).
  exists dayRule, generated, slot. eauto.
Qed.

Lemma allSlots_elem (fuel : nat) (dateRange : list Date) (l : list TimeSlot.t)
    (ts : TimeSlot.t) :
  allSlots tz fuel rules events duration buffer dateRange = Some l ->
  ts ∈ l ->
  exists date today,
    date ∈ dateRange
    /\ daySlots tz fuel rules events duration buffer date = Some today
    /\ ts ∈ today.
Proof.
  revert l. induction dateRange as [| date later IH]; intros l H Hin.
  - injection H as <-. by apply elem_of_nil in Hin.
  - simpl in H.
    destruct (daySlots tz fuel _ _ _ _ date) as [today |] eqn:Ht; [| done]. simpl in H.
    destruct (allSlots tz fuel _ _ _ _ later) as [rest |]; [| done]. simpl in H.
    injection H as <-. apply elem_of_app in Hin as [Hin | Hin].
    + exists date, today. split; [apply list_elem_of_here | done].
    + destruct (IH rest eq_refl Hin) as (date' & today' & Hd & Hs & Hts).
      exists date', today'. split; [by apply list_elem_of_further | done].
Qed.

End EngineSlots.

(** What the engine works with once both queries have been answered. *)
Lemma getAvailableSlots_inv (tz : Z) (fuel : nat) (db : Database)
    (eventsFault rulesFault : Fault) (params : GetAvailableSlotsParams.t)
    (slots : list TimeSlot.t) (ts : TimeSlot.t) :
  getAvailableSlots tz fuel db eventsFault rulesFault params = Some slots ->
  ts ∈ slots ->
  let startDate := GetAvailableSlotsParams.startDate params in
  let days := default 60 (GetAvailableSlotsParams.days params) in
  exists rulesResponse,
    1 <= days
    /\ eventsFault = NoFault
    /\ respond rulesFault (selectActiveRules db) = Resolved rulesResponse
    /\ allSlots tz fuel (resolveRules rulesResponse)
         (selectEvents db startDate (rangeEnd params))
         (default 30 (GetAvailableSlotsParams.slotDuration params))
         (default 0 (GetAvailableSlotsParams.bufferTime params))
         (getDateRange startDate days) = Some slots.
Proof.
  intros H Hin startDate days. unfold getAvailableSlots in H. fold startDate days in H.
  destruct (Z.le_gt_cases 1 days) as [Hdays | Hdays].
  - rewrite getDateRange_last in H by assumption.
    destruct eventsFault as [| e | msg]; simpl in H;
      [| injection H as <-; by apply elem_of_nil in Hin ..].
    destruct (respond rulesFault _) as [rulesResponse | msg] eqn:Hresp;
      [| injection H as <-; by apply elem_of_nil in Hin].
    exists rulesResponse. repeat split; try done.
  - rewrite getDateRange_last_none in H by lia.
    injection H as <-. by apply elem_of_nil in Hin.
Qed.

(** X5. Every slot [getAvailableSlots] returns was generated for a day of
    the requested range from the rule of that day's weekday: it starts a
    whole number of strides after the rule's start time on that day, lasts
    exactly [slotDuration] minutes and ends no later than the rule's end
    time on that day. *)
Theorem getAvailableSlots_slot_origin (tz : Z) (fuel : nat) (db : Database)
    (eventsFault rulesFault : Fault) (params : GetAvailableSlotsParams.t)
    (slots : list TimeSlot.t) (ts : TimeSlot.t) :
  let startDate := GetAvailableSlotsParams.startDate params in
  let days := default 60 (GetAvailableSlotsParams.days params) in
  let duration := default 30 (GetAvailableSlotsParams.slotDuration params) in
  let buffer := default 0 (GetAvailableSlotsParams.bufferTime params) in
  getAvailableSlots tz fuel db eventsFault rulesFault params = Some slots ->
  ts ∈ slots ->
  exists (k : Z) (dayRule : AvailabilityRule.t) (cursor dayEnd : Date) (i : nat),
    0 <= k < days
    /\ (dayRule ∈ selectActiveRules db \/ dayRule ∈ DEFAULT_AVAILABILITY_RULES)
    /\ AvailabilityRule.day_of_week dayRule = getDayOfWeek tz (addDays startDate k)
    /\ atTime tz (addDays startDate k) (AvailabilityRule.start_time dayRule) = Some cursor
    /\ atTime tz (addDays startDate k) (AvailabilityRule.end_time dayRule) = Some dayEnd
    /\ TimeSlot.start ts = addMinutes cursor (Z.of_nat i * (duration + buffer))
    /\ TimeSlot.end_ ts = addMinutes (TimeSlot.start ts) duration
    /\ TimeSlot.end_ ts <= dayEnd.
Proof.
  intros startDate days duration buffer H Hin.
  destruct (getAvailableSlots_inv _ _ _ _ _ _ _ _ H Hin)
    as (rulesResponse & Hdays & _ & Hresp & Hall).
  destruct (allSlots_elem _ _ _ _ _ _ _ _ _ Hall Hin) as (date & today & Hdate & Htoday & Hts).
  apply getDateRange_elem in Hdate as (k & Hk & ->).
  destruct (daySlots_elem _ _ _ _ _ _ _ _ _ Htoday Hts)
    as (dayRule & generated & slot & Hrule & Hgen & Hslot & ->).
  apply list_elem_of_lookup in Hslot as [i Hi].
  destruct (generateTimeSlots_cursor _ _ _ _ _ _ _ Hgen Hi)
    as (cursor & dayEnd & Hcur & Hend & Hs & He & Hle).
  exists k, dayRule, cursor, dayEnd, i. simpl in *.
  apply find_some in Hrule as [Hrin Hday]. apply Z.eqb_eq in Hday.
  repeat split; try done; try lia.
  apply list_elem_of_In in Hrin. apply resolveRules_elem in Hrin as [Hdef | (rows & Hrows & Hrin)].
  - by right.
  - left. destruct rulesFault; simpl in Hresp; try done; injection Hresp as <-;
      simpl in Hrows; [by injection Hrows as <- | done].
Qed.

Lemma getAvailableSlots_slot_origin_witness :
  exists (k : Z) (dayRule : AvailabilityRule.t) (cursor dayEnd : Date) (i : nat),
    0 <= k < 1
    /\ (dayRule ∈ selectActiveRules emptyDb \/ dayRule ∈ DEFAULT_AVAILABILITY_RULES)
    /\ AvailabilityRule.day_of_week dayRule = getDayOfWeek 0 (addDays monday k)
    /\ atTime 0 (addDays monday k) (AvailabilityRule.start_time dayRule) = Some cursor
    /\ atTime 0 (addDays monday k) (AvailabilityRule.end_time dayRule) = Some dayEnd
    /\ monday_9am = addMinutes cursor (Z.of_nat i * (480 + 120))
    /\ addMinutes monday_9am 480 = addMinutes monday_9am 480
    /\ addMinutes monday_9am 480 <= dayEnd.
Proof.
  apply (getAvailableSlots_slot_origin 0 5 emptyDb NoFault NoFault
           (slotParams monday 1 480 120)
           [ {| TimeSlot.start := monday_9am; TimeSlot.end_ := addMinutes monday_9am 480;
                TimeSlot.available := true |} ]
           {| TimeSlot.start := monday_9am; TimeSlot.end_ := addMinutes monday_9am 480;
              TimeSlot.available := true |});
    [reflexivity | apply list_elem_of_here].
Defined.

(** ** The engine: which events make a slot unavailable *)

Lemma selectEvents_elem (db : Database) (from to : Date) (ev : Event.t) :
  ev ∈ selectEvents db from to
  <-> ev ∈ events db
      /\ from <= Event.start_time ev /\ Event.end_time ev <= to /\ Event.is_public ev = true.
Proof.
  unfold selectEvents. rewrite list_elem_of_In, filter_In, <- list_elem_of_In.
  rewrite !andb_true_iff, !Z.leb_le. tauto.
Qed.

Lemma bookedSlotsOn_elem (tz : Z) (evs : list Event.t) (date : Date) (b : Slot) :
  b ∈ bookedSlotsOn tz evs date
  <-> exists ev, ev ∈ evs
                 /\ dayNumber tz (Event.start_time ev) = dayNumber tz date
                 /\ b = {| start := Event.start_time ev; end_ := Event.end_time ev |}.
Proof.
  unfold bookedSlotsOn. rewrite list_elem_of_fmap. split.
  - intros (ev & -> & Hin). apply list_elem_of_In, filter_In in Hin as [Hin Hday].
    apply Z.eqb_eq in Hday. exists ev. by rewrite list_elem_of_In.
  - intros (ev & Hin & Hday & ->). exists ev. split; [reflexivity |].
    apply list_elem_of_In, filter_In. split; [by apply list_elem_of_In | by apply Z.eqb_eq].
Qed.

(** The flag of a returned slot, in terms of the events table. *)
Lemma getAvailableSlots_flag (tz : Z) (fuel : nat) (db : Database)
    (eventsFault rulesFault : Fault) (params : GetAvailableSlotsParams.t)
    (slots : list TimeSlot.t) (ts : TimeSlot.t) :
  let startDate := GetAvailableSlotsParams.startDate params in
  let days := default 60 (GetAvailableSlotsParams.days params) in
  getAvailableSlots tz fuel db eventsFault rulesFault params = Some slots ->
  ts ∈ slots ->
  exists k dayRule cursor,
    0 <= k < days
    /\ AvailabilityRule.day_of_week dayRule = getDayOfWeek tz (addDays startDate k)
    /\ atTime tz (addDays startDate k) (AvailabilityRule.start_time dayRule) = Some cursor
    /\ cursor <= TimeSlot.start ts
    /\ (TimeSlot.available ts = false
        <-> exists ev,
              ev ∈ events db
              /\ Event.is_public ev = true
              /\ startDate <= Event.start_time ev
              /\ Event.end_time ev <= rangeEnd params
              /\ dayNumber tz (Event.start_time ev) = dayNumber tz (addDays startDate k)
              /\ TimeSlot.start ts < Event.end_time ev
              /\ Event.start_time ev < TimeSlot.end_ ts).
Proof.
  intros startDate days H Hin.
  destruct (getAvailableSlots_inv _ _ _ _ _ _ _ _ H Hin)
    as (rulesResponse & Hdays & _ & Hresp & Hall).
  destruct (allSlots_elem _ _ _ _ _ _ _ _ _ Hall Hin) as (date & today & Hdate & Htoday & Hts).
  apply getDateRange_elem in Hdate as (k & Hk & ->).
  destruct (daySlots_elem _ _ _ _ _ _ _ _ _ Htoday Hts)
    as (dayRule & generated & slot & Hrule & Hgen & Hslot & ->).
  apply list_elem_of_lookup in Hslot as [i Hi].
  destruct (generateTimeSlots_cursor _ _ _ _ _ _ _ Hgen Hi)
    as (cursor & dayEnd & Hcur & Hend & Hs & He & Hle).
  assert (Hstride : 0 < default 30 (GetAvailableSlotsParams.slotDuration params)
                        + default 0 (GetAvailableSlotsParams.bufferTime params)).
  { unfold generateTimeSlots in Hgen. simpl in Hgen, Hcur, Hend. rewrite Hcur, Hend in Hgen.
    by eapply slotLoop_some_stride. }
  exists k, dayRule, cursor. simpl in *.
  apply find_some in Hrule as [_ Hday]. apply Z.eqb_eq in Hday.
  split; [done |]. split; [done |]. split; [done |]. split.
  { rewrite Hs. unfold addMinutes, MS_PER_MINUTE.
    assert (0 <= Z.of_nat i * (default 30 (GetAvailableSlotsParams.slotDuration params)
                               + default 0 (GetAvailableSlotsParams.bufferTime params)))
      by (apply Z.mul_nonneg_nonneg; lia).
    lia. }
  rewrite isSlotAvailable_false. split.
  - intros (b & Hb & Hlt1 & Hlt2).
    apply bookedSlotsOn_elem in Hb as (ev & Hev & Hsame & ->).
    apply selectEvents_elem in Hev as (Hev & Hfrom & Hto & Hpub).
    exists ev. simpl in *. done.
  - intros (ev & Hev & Hpub & Hfrom & Hto & Hsame & Hlt1 & Hlt2).
    exists {| start := Event.start_time ev; end_ := Event.end_time ev |}.
    split; [| done]. apply bookedSlotsOn_elem. exists ev.
    split; [| done]. apply selectEvents_elem. done.
Qed.

(** X6. A slot returned by [getAvailableSlots] is marked unavailable exactly
    when some stored event is public, lies inside the queried range (starts
    at or after [startDate], ends at or before the last date of the range),
    starts on the same local calendar day as the slot's day, and overlaps
    the slot. *)
Theorem getAvailableSlots_unavailable_iff (tz : Z) (fuel : nat) (db : Database)
    (eventsFault rulesFault : Fault) (params : GetAvailableSlotsParams.t)
    (slots : list TimeSlot.t) (ts : TimeSlot.t) :
  let startDate := GetAvailableSlotsParams.startDate params in
  let days := default 60 (GetAvailableSlotsParams.days params) in
  getAvailableSlots tz fuel db eventsFault rulesFault params = Some slots ->
  ts ∈ slots ->
  exists k dayRule cursor,
    0 <= k < days
    /\ AvailabilityRule.day_of_week dayRule = getDayOfWeek tz (addDays startDate k)
    /\ atTime tz (addDays startDate k) (AvailabilityRule.start_time dayRule) = Some cursor
    /\ cursor <= TimeSlot.start ts
    /\ (TimeSlot.available ts = false
        <-> exists ev,
              ev ∈ events db
              /\ Event.is_public ev = true
              /\ startDate <= Event.start_time ev
              /\ Event.end_time ev <= rangeEnd params
              /\ dayNumber tz (Event.start_time ev) = dayNumber tz (addDays startDate k)
              /\ TimeSlot.start ts < Event.end_time ev
              /\ Event.start_time ev < TimeSlot.end_ ts).
Proof. apply getAvailableSlots_flag. Qed.

(** X7. [getAvailableSlotsForDay] asks for one day, so the range ends at the
    very instant it starts and the events query can return no event whose
    end is after its start: every slot it returns is marked available,
    whatever is booked. *)
Theorem getAvailableSlotsForDay_all_available (tz : Z) (fuel : nat) (db : Database)
    (eventsFault rulesFault : Fault) (date : Date) (slotDuration bufferTime : Z)
    (slots : list TimeSlot.t) (ts : TimeSlot.t) :
  (forall ev, ev ∈ events db -> Event.start_time ev < Event.end_time ev) ->
  getAvailableSlotsForDay tz fuel db eventsFault rulesFault date slotDuration bufferTime
  = Some slots ->
  ts ∈ slots ->
  TimeSlot.available ts = true.
Proof.
  intros Hevents H Hin. unfold getAvailableSlotsForDay in H.
  destruct (getAvailableSlots_flag _ _ _ _ _ _ _ _ H Hin)
    as (k & dayRule & cursor & Hk & _ & _ & _ & Hflag).
  apply not_false_iff_true. intros Hfalse.
  apply Hflag in Hfalse as (ev & Hev & _ & Hfrom & Hto & _).
  specialize (Hevents ev Hev).
  unfold rangeEnd, addDays in Hto. simpl in Hfrom, Hto. lia.
Qed.

Lemma getAvailableSlotsForDay_all_available_witness :
  exists slots,
    getAvailableSlotsForDay 0 20 bookedDb NoFault NoFault monday_8am 30 0 = Some slots
    /\ slots !! 0%nat = Some slot_0900_available
    /\ TimeSlot.available slot_0900_available = true.
Proof.
  eexists. split; [by vm_compute |]. split; [by vm_compute |].
  eapply (getAvailableSlotsForDay_all_available 0 20 bookedDb NoFault NoFault monday_8am 30 0).
  - intros ev Hev. apply list_elem_of_singleton in Hev. subst ev. by vm_compute.
  - by vm_compute.
  - apply list_elem_of_here.
Defined.

Lemma getAvailableSlots_unavailable_iff_witness :
  exists slots,
    getAvailableSlots 0 20 bookedDb NoFault NoFault (slotParams monday_8am 2 30 0) = Some slots
    /\ exists ts, slots !! 0%nat = Some ts /\ TimeSlot.available ts = false
    /\ exists k dayRule cursor,
         0 <= k < 2
         /\ AvailabilityRule.day_of_week dayRule = getDayOfWeek 0 (addDays monday_8am k)
         /\ atTime 0 (addDays monday_8am k) (AvailabilityRule.start_time dayRule) = Some cursor
         /\ cursor <= TimeSlot.start ts
         /\ (TimeSlot.available ts = false
             <-> exists ev,
                   ev ∈ events bookedDb
                   /\ Event.is_public ev = true
                   /\ monday_8am <= Event.start_time ev
                   /\ Event.end_time ev <= rangeEnd (slotParams monday_8am 2 30 0)
                   /\ dayNumber 0 (Event.start_time ev) = dayNumber 0 (addDays monday_8am k)
                   /\ TimeSlot.start ts < Event.end_time ev
                   /\ Event.start_time ev < TimeSlot.end_ ts).
Proof.
  eexists. split; [by vm_compute |].
  eexists. split; [by vm_compute |]. split; [reflexivity |].
  eapply (getAvailableSlots_unavailable_iff 0 20 bookedDb NoFault NoFault
            (slotParams monday_8am 2 30 0)).
  - by vm_compute.
  - apply list_elem_of_here.
Defined.

(** ** The rule set of the engine and the schedule read *)





(** ** The engine: what it does not look at *)

Lemma filter_drop_middle {A : Type} (p : A -> bool) (before after : list A) (x : A) :
  p x = false -> List.filter p (before ++ x :: after) = List.filter p (before ++ after).
Proof. intros Hx. rewrite !List.filter_app. simpl. by rewrite Hx. Qed.

(** X8. An event that is not public, or that starts before [startDate], or
    that ends after the last date of the range is invisible to
    [getAvailableSlots]: the result is the same with and without it. *)
Theorem getAvailableSlots_ignores_hidden_event (tz : Z) (fuel : nat) (db : Database)
    (eventsFault rulesFault : Fault) (params : GetAvailableSlotsParams.t)
    (before after : list Event.t) (ev : Event.t) :
  Event.is_public ev = false
  \/ Event.start_time ev < GetAvailableSlotsParams.startDate params
  \/ rangeEnd params < Event.end_time ev ->
  getAvailableSlots tz fuel (withEvents db (before ++ ev :: after)) eventsFault rulesFault params
  = getAvailableSlots tz fuel (withEvents db (before ++ after)) eventsFault rulesFault params.
Proof.
  intros Hhidden. unfold getAvailableSlots.
  destruct (Z.le_gt_cases 1 (default 60 (GetAvailableSlotsParams.days params))) as [Hdays | Hdays].
  - rewrite getDateRange_last by assumption.
    replace (selectEvents (withEvents db (before ++ ev :: after))
               (GetAvailableSlotsParams.startDate params)
               (addDays (GetAvailableSlotsParams.startDate params)
                  (default 60 (GetAvailableSlotsParams.days params) - 1)))
      with (selectEvents (withEvents db (before ++ after))
              (GetAvailableSlotsParams.startDate params)
              (addDays (GetAvailableSlotsParams.startDate params)
                 (default 60 (GetAvailableSlotsParams.days params) - 1))); [reflexivity |].
    unfold selectEvents. simpl. symmetry. apply filter_drop_middle.
    unfold rangeEnd in Hhidden.
    destruct Hhidden as [Hpub | [Hearly | Hlate]].
    + rewrite Hpub. apply andb_false_r.
    + apply andb_false_iff. left. apply andb_false_iff. left. apply Z.leb_gt. lia.
    + apply andb_false_iff. left. apply andb_false_iff. right. apply Z.leb_gt. lia.
  - by rewrite getDateRange_last_none by lia.
Qed.

Lemma getAvailableSlots_ignores_hidden_event_witness :
  getAvailableSlots 0 20 (withEvents emptyDb ([] ++ booked_0900 :: [])) NoFault NoFault
    (slotParams monday_8am 1 30 0)
  = getAvailableSlots 0 20 (withEvents emptyDb ([] ++ [])) NoFault NoFault
      (slotParams monday_8am 1 30 0).
Proof.
  apply (getAvailableSlots_ignores_hidden_event 0 20 emptyDb NoFault NoFault
           (slotParams monday_8am 1 30 0) [] [] booked_0900).
  right. right. by vm_compute.
Defined.

Lemma filter_filter_same {A : Type} (p : A -> bool) (l : list A) :
  List.filter p (List.filter p l) = List.filter p l.
Proof.
  induction l as [| x l IH]; [done |]. simpl.
  destruct (p x) eqn:Hx; [| exact IH]. simpl. by rewrite Hx, IH.
Qed.

Lemma filter_none {A : Type} (p : A -> bool) (l : list A) :
  (forall x, x ∈ l -> p x = false) -> List.filter p l = [].
Proof.
  induction l as [| x l IH]; intros Hall; [done |]. simpl.
  rewrite (Hall x) by apply list_elem_of_here.
  apply IH. intros y Hy. apply Hall. by apply list_elem_of_further.
Qed.

(** X9. Rules stored with [is_active = false] are invisible to
    [getAvailableSlots]: removing them leaves the result unchanged, and a
    store in which every rule is inactive is treated like a store without
    rules (the default Monday-to-Friday rules apply). *)
Theorem getAvailableSlots_ignores_inactive_rules (tz : Z) (fuel : nat) (db : Database)
    (eventsFault rulesFault : Fault) (params : GetAvailableSlotsParams.t) :
  getAvailableSlots tz fuel
    (withRules db (List.filter AvailabilityRule.is_active (availability_rules db)))
    eventsFault rulesFault params
  = getAvailableSlots tz fuel db eventsFault rulesFault params
  /\ ((forall rule, rule ∈ availability_rules db -> AvailabilityRule.is_active rule = false) ->
      getAvailableSlots tz fuel db eventsFault rulesFault params
      = getAvailableSlots tz fuel (withRules db []) eventsFault rulesFault params).
Proof.
  split.
  - unfold getAvailableSlots, selectActiveRules. simpl. by rewrite filter_filter_same.
  - intros Hinactive. unfold getAvailableSlots, selectActiveRules. simpl.
    by rewrite filter_none.
Qed.

(** X10. With [days] zero or negative [getAvailableSlots] returns the empty
    list, whatever the store holds and however its queries would end. *)
Theorem getAvailableSlots_no_days (tz : Z) (fuel : nat) (db : Database)
    (eventsFault rulesFault : Fault) (params : GetAvailableSlotsParams.t) (days : Z) :
  GetAvailableSlotsParams.days params = Some days ->
  days <= 0 ->
  getAvailableSlots tz fuel db eventsFault rulesFault params = Some [].
Proof.
  intros Hparam Hdays. unfold getAvailableSlots. rewrite Hparam. simpl.
  by rewrite getDateRange_last_none.
Qed.

Lemma getAvailableSlots_no_days_witness :
  getAvailableSlots 0 0 bookedDb (Throws "down") NoFault (slotParams monday 0 30 0) = Some [].
Proof.
  apply (getAvailableSlots_no_days 0 0 bookedDb (Throws "down") NoFault
           (slotParams monday 0 30 0) 0); [reflexivity | lia].
Defined.

(** ** Calendar settings: save and read back *)

Lemma ownedBy_settingsRow (user other id : string) (s : SettingsInput.t) :
  ownedBy other (settingsRow id user s) = String.eqb user other.
Proof. reflexivity. Qed.

Lemma filter_owned_update (user other : string) (s : SettingsInput.t)
    (rows : list CalendarSettings.t) :
  List.filter (ownedBy other)
    (map (fun row => if ownedBy user row
                     then settingsRow (CalendarSettings.id row) user s else row) rows)
  = if String.eqb user other
    then map (fun row => settingsRow (CalendarSettings.id row) user s)
           (List.filter (ownedBy user) rows)
    else List.filter (ownedBy other) rows.
Proof.
  induction rows as [| row rows IH]; simpl; [by destruct (String.eqb user other) |].
  rewrite IH. clear IH. unfold ownedBy. simpl.
  destruct (String.eqb_spec (CalendarSettings.user_id row) user) as [Hu | Hu]; simpl;
    destruct (String.eqb_spec user other) as [Ho | Ho]; simpl;
    try reflexivity;
    destruct (String.eqb_spec (CalendarSettings.user_id row) other) as [Hro | Hro]; simpl;
    try reflexivity; congruence.
Qed.

Lemma existsb_filter_nil {A : Type} (p : A -> bool) (l : list A) :
  existsb p l = false <-> List.filter p l = [].
Proof.
  induction l as [| x l IH]; simpl; [done |].
  destruct (p x); simpl; [split; discriminate | exact IH].
Qed.

(** X11. Saving settings that satisfy the table's CHECK constraints, for a
    signed-in user with at most one settings row, succeeds, and
    [getCalendarSettings] then returns a row of that user with exactly the
    saved values; the rows of other users and the other tables are left as
    they were. *)
Theorem saveCalendarSettings_then_get (user newId : string) (db : Database)
    (s : SettingsInput.t) :
  settingsConstraints s = true ->
  (length (List.filter (ownedBy user) (calendar_settings db)) <= 1)%nat ->
  exists db' id,
    saveCalendarSettings (Some user) db NoFault newId s = (succeeded, db')
    /\ getCalendarSettings (Some user) db' NoFault = ApiResponse.ok (settingsRow id user s)
    /\ (forall other, other <> user ->
          List.filter (ownedBy other) (calendar_settings db')
          = List.filter (ownedBy other) (calendar_settings db))
    /\ events db' = events db /\ bookings db' = bookings db
    /\ availability_rules db' = availability_rules db.
Proof.
  intros Hok Hone. unfold saveCalendarSettings, upsertSettings. rewrite Hok. simpl.
  destruct (existsb (ownedBy user) (calendar_settings db)) eqn:Hex.
  - destruct (List.filter (ownedBy user) (calendar_settings db)) as [| row [| row' more]] eqn:Hf.
    + apply existsb_filter_nil in Hf. congruence.
    + eexists. exists (CalendarSettings.id row). split; [reflexivity |].
      split; [| split; [| done]].
      * unfold getCalendarSettings, selectSettings. simpl.
        rewrite filter_owned_update, String.eqb_refl, Hf. reflexivity.
      * intros other Hne. simpl. rewrite filter_owned_update.
        by destruct (String.eqb_spec user other).
    + simpl in Hone. lia.
  - apply existsb_filter_nil in Hex.
    eexists. exists newId. split; [reflexivity |].
    split; [| split; [| done]].
    + unfold getCalendarSettings, selectSettings. simpl.
      rewrite List.filter_app, Hex. simpl. unfold ownedBy at 1. simpl.
      by rewrite String.eqb_refl.
    + intros other Hne. simpl. rewrite List.filter_app. simpl.
      unfold ownedBy at 2. simpl.
      destruct (String.eqb_spec user other); [congruence | by rewrite app_nil_r].
Qed.

Lemma saveCalendarSettings_then_get_witness :
  exists db' id,
    saveCalendarSettings (Some "admin"%string) (withSettings emptyDb [defaultSettingsRow])
      NoFault "s2" validSettings = (succeeded, db')
    /\ getCalendarSettings (Some "admin"%string) db' NoFault
       = ApiResponse.ok (settingsRow id "admin" validSettings)
    /\ (forall other, other <> "admin"%string ->
          List.filter (ownedBy other) (calendar_settings db')
          = List.filter (ownedBy other)
              (calendar_settings (withSettings emptyDb [defaultSettingsRow])))
    /\ events db' = events (withSettings emptyDb [defaultSettingsRow])
    /\ bookings db' = bookings (withSettings emptyDb [defaultSettingsRow])
    /\ availability_rules db' = availability_rules (withSettings emptyDb [defaultSettingsRow]).
Proof.
  apply (saveCalendarSettings_then_get "admin" "s2"
           (withSettings emptyDb [defaultSettingsRow]) validSettings);
    [reflexivity | simpl; lia].
Defined.

(** X12. [saveCalendarSettings] writes nothing unless it reports success:
    after a rejection the store is the one before the call.  Without a
    signed-in user it is rejected; for a signed-in user and a store that
    answers, it succeeds exactly when the values are within the table's
    CHECK ranges (15-480, 0-120, 1-365, 0-168). *)
Theorem saveCalendarSettings_rejection_keeps_store (user : option string) (db : Database)
    (fault : Fault) (newId : string) (s : SettingsInput.t) :
  (ApiResponse.success (saveCalendarSettings user db fault newId s).1 = false ->
   (saveCalendarSettings user db fault newId s).2 = db)
  /\ (user = None ->
      saveCalendarSettings user db fault newId s
      = (ApiResponse.rejection "Error inesperado", db))
  /\ (forall uid,
        ApiResponse.success (saveCalendarSettings (Some uid) db NoFault newId s).1
        = settingsConstraints s).
Proof.
  split; [| split].
  - unfold saveCalendarSettings, upsertSettings.
    destruct user as [uid |]; [| done].
    destruct fault; simpl; try done.
    destruct (settingsConstraints s); simpl; done.
  - by intros ->.
  - intros uid. unfold saveCalendarSettings, upsertSettings.
    by destruct (settingsConstraints s).
Qed.

(** ** The weekly schedule: save and read back *)

Lemma filter_filter_implied {A : Type} (p q : A -> bool) (l : list A) :
  (forall x, p x = true -> q x = true) ->
  List.filter p (List.filter q l) = List.filter p l.
Proof.
  intros Himp. induction l as [| x l IH]; [done |]. simpl.
  destruct (q x) eqn:Hq; simpl.
  - by rewrite IH.
  - destruct (p x) eqn:Hp; [| exact IH]. apply Himp in Hp. congruence.
Qed.

Lemma insertByDay_elem (r x : DaySchedule.t) (sorted : list DaySchedule.t) :
  x ∈ insertByDay r sorted <-> x = r \/ x ∈ sorted.
Proof.
  induction sorted as [| y rest IH]; simpl.
  - rewrite list_elem_of_singleton, elem_of_nil. tauto.
  - destruct (_ <=? _); rewrite ?elem_of_cons, ?IH; rewrite ?elem_of_cons; tauto.
Qed.

Lemma orderByDay_elem (x : DaySchedule.t) (rows : list DaySchedule.t) :
  x ∈ orderByDay rows <-> x ∈ rows.
Proof.
  induction rows as [| r rows IH]; [done |].
  unfold orderByDay in *. simpl. rewrite insertByDay_elem, elem_of_cons, IH. tauto.
Qed.

Lemma findDay_week (rows : list DaySchedule.t) (i : nat) :
  length rows = 7%nat ->
  (forall j r, rows !! j = Some r -> DaySchedule.day_of_week r = Z.of_nat j) ->
  (i < 7)%nat ->
  findDay rows (Z.of_nat i) = rows !! i.
Proof.
  intros Hlen Hdays Hi.
  destruct rows as [| r0 [| r1 [| r2 [| r3 [| r4 [| r5 [| r6 [| r7 more]]]]]]]];
    try discriminate.
  pose proof (Hdays 0%nat r0 eq_refl) as H0. pose proof (Hdays 1%nat r1 eq_refl) as H1.
  pose proof (Hdays 2%nat r2 eq_refl) as H2. pose proof (Hdays 3%nat r3 eq_refl) as H3.
  pose proof (Hdays 4%nat r4 eq_refl) as H4. pose proof (Hdays 5%nat r5 eq_refl) as H5.
  pose proof (Hdays 6%nat r6 eq_refl) as H6.
  unfold findDay. simpl. rewrite H0, H1, H2, H3, H4, H5, H6.
  do 7 (destruct i as [| i]; [reflexivity |]). lia.
Qed.

(** A week-shaped list of rows is what the merge with the defaults makes of
    it. *)
Lemma mergeWithDefaults_week (rows : list DaySchedule.t) :
  length rows = 7%nat ->
  (forall j r, rows !! j = Some r -> DaySchedule.day_of_week r = Z.of_nat j) ->
  mergeWithDefaults (orderByDay rows) = rows.
Proof.
  intros Hlen Hdays. apply list_eq. intros i.
  destruct (Nat.lt_ge_cases i 7) as [Hi | Hi].
  - pose proof (mergeWithDefaults_lookup (orderByDay rows) (Z.of_nat i)) as Hm.
    rewrite Nat2Z.id in Hm. rewrite Hm by lia.
    rewrite findDay_orderByDay, findDay_week by assumption.
    destruct (rows !! i) eqn:Hr; [reflexivity |].
    apply lookup_ge_None in Hr. lia.
  - rewrite !lookup_ge_None_2; [reflexivity | lia |].
    unfold mergeWithDefaults. rewrite length_map. simpl. lia.
Qed.

Section ScheduleSave.
Variable timeColumn : string -> option string.
Variable timeBefore : string -> string -> bool.
Variable newRuleId : nat -> string.

Local Abbreviation ruleRows := (SettingsActions.ruleRows timeColumn timeBefore newRuleId).
Local Abbreviation saveSchedule := (SettingsActions.saveSchedule timeColumn timeBefore newRuleId).

Lemma ruleRows_stored (user : string) (i : nat) (schedule : list DaySchedule.t)
    (rows : list AvailabilityRule.t) :
  ruleRows user i schedule = Some rows ->
  Forall2 (storedAs timeColumn) schedule (map columns rows)
  /\ Forall (fun r => AvailabilityRule.user_id r = user) rows.
Proof.
  revert i rows. induction schedule as [| day rest IH]; intros i rows H.
  - injection H as <-. split; constructor.
  - simpl in H.
    destruct (ruleRow timeColumn timeBefore newRuleId user i day) as [row |] eqn:Hrow;
      [| done]. simpl in H.
    destruct (ruleRows user (S i) rest) as [rows' |] eqn:Hrows; [| done]. simpl in H.
    injection H as <-. destruct (IH _ _ Hrows) as [Hstored Huser].
    unfold ruleRow in Hrow.
    destruct (timeColumn (DaySchedule.start_time day)) as [s |] eqn:Hs; [| done].
    destruct (timeColumn (DaySchedule.end_time day)) as [e |] eqn:He; [| done].
    simpl in Hrow. destruct (_ && _); [| done]. injection Hrow as <-.
    split; constructor; try assumption; [| reflexivity].
    by repeat split.
Qed.

Lemma filter_own_rows (user : string) (rows : list AvailabilityRule.t) :
  Forall (fun r => AvailabilityRule.user_id r = user) rows ->
  List.filter (fun r => String.eqb (AvailabilityRule.user_id r) user) rows = rows
  /\ forall other, other <> user ->
       List.filter (fun r => String.eqb (AvailabilityRule.user_id r) other) rows = [].
Proof.
  intros Hall. split.
  - apply filter_keeps_all. intros r Hr.
    rewrite Forall_forall in Hall. rewrite (Hall r Hr). apply String.eqb_refl.
  - intros other Hne. apply filter_none. intros r Hr.
    rewrite Forall_forall in Hall. rewrite (Hall r Hr).
    apply String.eqb_neq. congruence.
Qed.

Lemma persistedRows_after_delete (db : Database) (user other : string) :
  map columns
    (List.filter (fun r => String.eqb (AvailabilityRule.user_id r) other)
       (List.filter (fun r => negb (String.eqb (AvailabilityRule.user_id r) user))
          (availability_rules db)))
  = if String.eqb other user then [] else persistedRows db other.
Proof.
  destruct (String.eqb_spec other user) as [-> | Hne].
  - rewrite filter_none; [reflexivity |]. intros r Hr.
    apply list_elem_of_In, filter_In in Hr as [_ Hr].
    by apply negb_true_iff in Hr.
  - unfold persistedRows. f_equal. apply filter_filter_implied.
    intros r Hr. apply String.eqb_eq in Hr. apply negb_true_iff, String.eqb_neq. congruence.
Qed.

(** X13. When the store accepts every submitted row, [saveSchedule]
    succeeds and replaces the signed-in user's rules by the submitted ones
    (times as the TIME column gives them back); the rules of other users and
    the other tables are left as they were. *)
Theorem saveSchedule_replaces_rules (user : string) (db : Database)
    (schedule : list DaySchedule.t) (rows : list AvailabilityRule.t) :
  ruleRows user 0 schedule = Some rows ->
  exists db',
    saveSchedule (Some user) db NoFault NoFault schedule = (succeeded, db')
    /\ Forall2 (storedAs timeColumn) schedule (persistedRows db' user)
    /\ (forall other, other <> user -> persistedRows db' other = persistedRows db other)
    /\ events db' = events db /\ bookings db' = bookings db
    /\ calendar_settings db' = calendar_settings db.
Proof.
  intros Hrows. destruct (ruleRows_stored _ _ _ _ Hrows) as [Hstored Huser].
  destruct (filter_own_rows _ _ Huser) as [Hown Hother].
  unfold SettingsActions.saveSchedule, deleteRules, insertRules. simpl. rewrite Hrows. simpl.
  eexists. split; [reflexivity |]. simpl.
  split; [| split; [| done]].
  - unfold persistedRows. simpl. rewrite List.filter_app, map_app.
    rewrite (persistedRows_after_delete db user user), String.eqb_refl, Hown. exact Hstored.
  - intros other Hne. unfold persistedRows at 1. simpl. rewrite List.filter_app, map_app.
    rewrite (persistedRows_after_delete db user other), (Hother other Hne).
    destruct (String.eqb_spec other user); [congruence | by rewrite app_nil_r].
Qed.

(** X14. [saveSchedule] deletes before it inserts: when the insert is
    refused (an error of the store, or a row it does not accept) the call is
    rejected and the user's former rules are gone, so that [getSchedule]
    answers with the default schedule. *)
Theorem saveSchedule_failed_insert_clears (user : string) (db : Database)
    (insertFault : Fault) (schedule : list DaySchedule.t) :
  (exists e, insertFault = Fails e)
  \/ (insertFault = NoFault /\ ruleRows user 0 schedule = None) ->
  exists db',
    saveSchedule (Some user) db NoFault insertFault schedule
    = (ApiResponse.rejection "Error al guardar el horario", db')
    /\ persistedRows db' user = []
    /\ getSchedule (Some user) db' NoFault = ApiResponse.ok DEFAULT_SCHEDULE
    /\ (forall other, other <> user -> persistedRows db' other = persistedRows db other).
Proof.
  intros Hfail.
  assert (Hgone : persistedRows (deleteRules db NoFault user).2 user = []).
  { unfold persistedRows. simpl.
    by rewrite (persistedRows_after_delete db user user), String.eqb_refl. }
  assert (Hothers : forall other, other <> user ->
            persistedRows (deleteRules db NoFault user).2 other = persistedRows db other).
  { intros other Hne. unfold persistedRows at 1. simpl.
    rewrite (persistedRows_after_delete db user other).
    by destruct (String.eqb_spec other user). }
  exists (deleteRules db NoFault user).2.
  split; [| split; [exact Hgone | split; [| exact Hothers]]].
  - unfold SettingsActions.saveSchedule, insertRules. simpl.
    destruct Hfail as [[e ->] | [-> Hnone]]; [reflexivity |]. by rewrite Hnone.
  - unfold getSchedule, selectSchedule. by rewrite Hgone.
Qed.

(** X15. The result of the delete is not looked at: when the delete fails
    and the insert is accepted, [saveSchedule] reports success although the
    former rules are still stored next to the new ones, and the query of
    [getSchedule] then returns both. *)
Theorem saveSchedule_failed_delete_keeps_old (user : string) (db : Database)
    (e : PostgrestError) (schedule : list DaySchedule.t) (rows : list AvailabilityRule.t) :
  ruleRows user 0 schedule = Some rows ->
  exists db',
    saveSchedule (Some user) db (Fails e) NoFault schedule = (succeeded, db')
    /\ persistedRows db' user = persistedRows db user ++ map columns rows
    /\ forall row,
         row ∈ selectSchedule db' user
         <-> row ∈ persistedRows db user \/ row ∈ map columns rows.
Proof.
  intros Hrows. destruct (ruleRows_stored _ _ _ _ Hrows) as [_ Huser].
  destruct (filter_own_rows _ _ Huser) as [Hown _].
  unfold SettingsActions.saveSchedule, deleteRules, insertRules. simpl. rewrite Hrows. simpl.
  eexists. split; [reflexivity |].
  assert (Hpersisted :
    persistedRows
      {| events := events db; bookings := bookings db;
         availability_rules := availability_rules db ++ rows;
         calendar_settings := calendar_settings db |} user
    = persistedRows db user ++ map columns rows).
  { unfold persistedRows. simpl. by rewrite List.filter_app, map_app, Hown. }
  split; [exact Hpersisted |].
  intros row. unfold selectSchedule. by rewrite orderByDay_elem, Hpersisted, elem_of_app.
Qed.

(** X16. A schedule of seven entries, entry [i] for weekday [i], that the
    store accepts is read back by [getSchedule] exactly as it was stored:
    nothing is taken from the defaults and no entry is moved. *)
Theorem saveSchedule_then_getSchedule (user : string) (db : Database)
    (schedule : list DaySchedule.t) (rows : list AvailabilityRule.t) :
  weekShaped schedule ->
  ruleRows user 0 schedule = Some rows ->
  exists db' stored,
    saveSchedule (Some user) db NoFault NoFault schedule = (succeeded, db')
    /\ getSchedule (Some user) db' NoFault = ApiResponse.ok stored
    /\ Forall2 (storedAs timeColumn) schedule stored.
Proof.
  intros [Hlen Hdays] Hrows. destruct (ruleRows_stored _ _ _ _ Hrows) as [Hstored Huser].
  destruct (filter_own_rows _ _ Huser) as [Hown _].
  unfold SettingsActions.saveSchedule, deleteRules, insertRules. simpl. rewrite Hrows. simpl.
  eexists. exists (map columns rows). split; [reflexivity |]. split; [| exact Hstored].
  assert (Hpersisted :
    persistedRows
      {| events := events db; bookings := bookings db;
         availability_rules :=
           List.filter (fun r => negb (String.eqb (AvailabilityRule.user_id r) user))
             (availability_rules db) ++ rows;
         calendar_settings := calendar_settings db |} user
    = map columns rows).
  { unfold persistedRows. simpl. rewrite List.filter_app, map_app.
    by rewrite (persistedRows_after_delete db user user), String.eqb_refl, Hown. }
  pose proof (Forall2_length _ _ _ Hstored) as Hlen'.
  assert (Hweek : forall j r, map columns rows !! j = Some r ->
                    DaySchedule.day_of_week r = Z.of_nat j).
  { intros j r Hr.
    destruct (Forall2_lookup_r _ _ _ _ _ Hstored Hr) as (day & Hday & Hst).
    destruct Hst as (Hd & _). rewrite Hd. by apply Hdays. }
  unfold getSchedule, selectSchedule. simpl. rewrite Hpersisted.
  destruct (orderByDay (map columns rows)) as [| first others] eqn:Hsorted.
  - apply (proj1 (orderByDay_nil _)) in Hsorted. rewrite Hsorted in Hlen'.
    simpl in Hlen'. lia.
  - rewrite <- Hsorted. by rewrite mergeWithDefaults_week by (assumption || lia).
Qed.

End ScheduleSave.

Lemma saveSchedule_replaces_rules_witness :
  exists rows db',
    ruleRows timeTable timeBeforeTable ruleIdTable "admin" 0 DEFAULT_SCHEDULE = Some rows
    /\ saveSchedule timeTable timeBeforeTable ruleIdTable (Some "admin"%string) mondayOnlyDb
         NoFault NoFault DEFAULT_SCHEDULE = (succeeded, db')
    /\ Forall2 (storedAs timeTable) DEFAULT_SCHEDULE (persistedRows db' "admin").
Proof.
  eexists.
  destruct (saveSchedule_replaces_rules timeTable timeBeforeTable ruleIdTable
              "admin" mondayOnlyDb DEFAULT_SCHEDULE _ eq_refl) as (db' & Hsave & Hstored & _).
  exists db'. split; [reflexivity |]. split; assumption.
Defined.

Lemma saveSchedule_failed_insert_clears_witness :
  exists db',
    saveSchedule timeTable timeBeforeTable ruleIdTable (Some "admin"%string) mondayOnlyDb
      NoFault NoFault [defaultDay 9 true]
    = (ApiResponse.rejection "Error al guardar el horario", db')
    /\ persistedRows db' "admin" = [].
Proof.
  destruct (saveSchedule_failed_insert_clears timeTable timeBeforeTable ruleIdTable
              "admin" mondayOnlyDb NoFault [defaultDay 9 true])
    as (db' & Hsave & Hgone & _).
  - right. split; reflexivity.
  - exists db'. split; assumption.
Defined.

Lemma saveSchedule_failed_delete_keeps_old_witness :
  exists db',
    saveSchedule timeTable timeBeforeTable ruleIdTable (Some "admin"%string) mondayOnlyDb
      (Fails {| message := "timeout" |}) NoFault DEFAULT_SCHEDULE = (succeeded, db')
    /\ forall row, row ∈ persistedRows mondayOnlyDb "admin" ->
                    row ∈ selectSchedule db' "admin".
Proof.
  destruct (saveSchedule_failed_delete_keeps_old timeTable timeBeforeTable ruleIdTable
              "admin" mondayOnlyDb {| message := "timeout" |} DEFAULT_SCHEDULE _ eq_refl)
    as (db' & Hsave & _ & Hold).
  exists db'. split; [exact Hsave |].
  intros row Hrow. apply Hold. by left.
Defined.

Lemma saveSchedule_then_getSchedule_witness :
  exists db' stored,
    saveSchedule timeTable timeBeforeTable ruleIdTable (Some "admin"%string) mondayOnlyDb
      NoFault NoFault DEFAULT_SCHEDULE = (succeeded, db')
    /\ getSchedule (Some "admin"%string) db' NoFault = ApiResponse.ok stored
    /\ Forall2 (storedAs timeTable) DEFAULT_SCHEDULE stored.
Proof.
  apply (saveSchedule_then_getSchedule timeTable timeBeforeTable ruleIdTable
           "admin" mondayOnlyDb DEFAULT_SCHEDULE
           (default [] (ruleRows timeTable timeBeforeTable ruleIdTable
                          "admin" 0 DEFAULT_SCHEDULE))).
  - split; [reflexivity |]. intros i day Hi.
    do 7 (destruct i as [| i]; [by injection Hi as <- |]). done.
  - reflexivity.
Defined.

(** ** The public configuration *)

Lemma findDay_columns (rules : list AvailabilityRule.t) (d : Z) :
  findDay (map columns rules) d = columns <$> findRule rules d.
Proof.
  unfold findDay, findRule. induction rules as [| r rules IH]; [done |]. simpl.
  by destruct (_ =? d).
Qed.

Lemma findDay_active_defaults (d : Z) :
  findDay (List.filter DaySchedule.is_active DEFAULT_SCHEDULE) d
  = columns <$> findRule DEFAULT_AVAILABILITY_RULES d.
Proof.
  assert (d = 1 \/ d = 2 \/ d = 3 \/ d = 4 \/ d = 5
          \/ (d <> 1 /\ d <> 2 /\ d <> 3 /\ d <> 4 /\ d <> 5)) as Hcases by lia.
  destruct Hcases as [-> | [-> | [-> | [-> | [-> | (H1 & H2 & H3 & H4 & H5)]]]]];
    try reflexivity.
  unfold findDay, findRule, DEFAULT_SCHEDULE, DEFAULT_AVAILABILITY_RULES, defaultDay, defaultRule.
  cbn [List.filter List.find DaySchedule.is_active DaySchedule.day_of_week
       AvailabilityRule.day_of_week].
  rewrite !(proj2 (Z.eqb_neq _ d)) by congruence. reflexivity.
Qed.

Lemma active_defaults_active (day : DaySchedule.t) :
  day ∈ List.filter DaySchedule.is_active DEFAULT_SCHEDULE -> DaySchedule.is_active day = true.
Proof. intros Hday. apply list_elem_of_In, filter_In in Hday. tauto. Qed.

(** X17. When [getPublicCalendarConfig] returns, the schedule it gives is
    not empty and holds active days only; and when no two active rules share
    a weekday (otherwise the order in which the store returns them decides),
    it shows for every weekday the very rule [getAvailableSlots] uses for
    that weekday (none where the engine has none), the defaults included. *)
Theorem getPublicCalendarConfig_schedule (db : Database) (settingsFault rulesFault : Fault)
    (config : PublicConfig.t) :
  getPublicCalendarConfig db settingsFault rulesFault = inr config ->
  PublicConfig.schedule config <> []
  /\ (forall day, day ∈ PublicConfig.schedule config -> DaySchedule.is_active day = true)
  /\ (NoDup (map AvailabilityRule.day_of_week (selectActiveRules db)) ->
      forall r d,
        respond rulesFault (selectActiveRules db) = Resolved r ->
        findDay (PublicConfig.schedule config) d = columns <$> findRule (resolveRules r) d).
Proof.
  unfold getPublicCalendarConfig.
  destruct (respond settingsFault _) as [settingsResponse | msg]; [| done].
  destruct rulesFault as [| e | msg]; cbn [respond]; [| | done].
  - intros [= <-]. cbn [PublicConfig.schedule data].
    destruct (orderByDay (map columns (selectActiveRules db))) as [| first others] eqn:Hsorted.
    + apply (proj1 (orderByDay_nil _)) in Hsorted. apply fmap_nil_inv in Hsorted.
      split; [done |]. split; [apply active_defaults_active |].
      intros _ r d [= <-]. unfold resolveRules. cbn [error data]. rewrite Hsorted.
      apply findDay_active_defaults.
    + rewrite <- Hsorted. split; [by rewrite Hsorted |]. split.
      * intros day Hday. apply orderByDay_elem, list_elem_of_fmap in Hday as (r & -> & Hr).
        apply list_elem_of_In, filter_In in Hr. simpl. tauto.
      * intros _ r d [= <-]. rewrite findDay_orderByDay, findDay_columns.
        unfold resolveRules. cbn [error data].
        destruct (selectActiveRules db) as [| rule rest]; [| reflexivity].
        simpl in Hsorted. discriminate.
  - intros [= <-]. cbn [PublicConfig.schedule data]. split; [done |].
    split; [apply active_defaults_active |].
    intros _ r d [= <-]. apply findDay_active_defaults.
Qed.

Lemma getPublicCalendarConfig_schedule_witness :
  exists config,
    getPublicCalendarConfig mondayOnlyDb NoFault NoFault = inr config
    /\ PublicConfig.schedule config <> []
    /\ (forall day, day ∈ PublicConfig.schedule config -> DaySchedule.is_active day = true)
    /\ (forall r d,
          respond NoFault (selectActiveRules mondayOnlyDb) = Resolved r ->
          findDay (PublicConfig.schedule config) d = columns <$> findRule (resolveRules r) d).
Proof.
  eexists. split; [reflexivity |].
  destruct (getPublicCalendarConfig_schedule mondayOnlyDb NoFault NoFault _ eq_refl)
    as (Hsome & Hactive & Hsame).
  split; [exact Hsome |]. split; [exact Hactive |].
  apply Hsame. simpl. repeat constructor. apply not_elem_of_nil.
Defined.

(** ** [createBooking]: what a call leaves in the store *)

Section BookingEffects.
Variable datetime : string -> option Date.
Variable isEmail : string -> bool.
Variable matchesPhone : string -> bool.

Local Abbreviation issues := (Validations.issues datetime isEmail matchesPhone).
Local Abbreviation createBooking := (Bookings.createBooking datetime isEmail matchesPhone).

Lemma createRecords_ok_inv (db db' : Database) (faults : Faults)
    (input : CreateBookingInput.t) (slotStart slotEnd : Date) (bookingId : nat) :
  createRecords db faults input slotStart slotEnd = (ApiResponse.ok bookingId, db') ->
  let eventId := freshId (map Event.id (events db)) in
  eventConstraints (eventRow input slotStart slotEnd eventId) = true
  /\ bookingId = freshId (map Booking.id (bookings db))
  /\ db' = {| events := events db ++ [eventRow input slotStart slotEnd eventId];
              bookings := bookings db ++ [bookingRow input eventId bookingId];
              availability_rules := availability_rules db;
              calendar_settings := calendar_settings db |}.
Proof.
  unfold createRecords, insertEvent, insertBooking, deleteEvent.
  destruct (eventInsertFault faults); simpl; [| intros [=] ..].
  destruct (eventConstraints _) eqn:Hok; simpl; [| intros [=]].
  destruct (bookingInsertFault faults); simpl;
    [| destruct (deleteFault faults); simpl; intros [=] | intros [=]].
  intros [= <- <-]. done.
Qed.

Lemma createBooking_ok_inv (now : Date) (db db' : Database) (faults : Faults)
    (input : CreateBookingInput.t) (bookingId : nat) :
  createBooking now db faults input = (ApiResponse.ok bookingId, db') ->
  exists slotStart slotEnd,
    issues input = []
    /\ datetime (CreateBookingInput.slot_start input) = Some slotStart
    /\ datetime (CreateBookingInput.slot_end input) = Some slotEnd
    /\ now <= slotStart
    /\ List.filter (exactMatch slotStart slotEnd) (events db) = []
    /\ createRecords db faults input slotStart slotEnd = (ApiResponse.ok bookingId, db').
Proof.
  unfold Bookings.createBooking, Validations.safeParse.
  destruct (issues input) as [| msg rest] eqn:Hissues; [| intros [=]].
  destruct (datetime (CreateBookingInput.slot_start input)) as [slotStart |]; [| intros [=]].
  destruct (datetime (CreateBookingInput.slot_end input)) as [slotEnd |]; [| intros [=]].
  destruct (Z.ltb_spec slotStart now); [intros [=] |].
  unfold selectExisting.
  destruct (checkFault faults); simpl; [| intros [=] ..].
  destruct (List.filter _ (events db)) as [| ev [| ev' more]] eqn:Hnone;
    simpl; [| intros [=] ..].
  intros Hrecords. exists slotStart, slotEnd. do 4 (split; [done |]).
  split; [exact Hnone | exact Hrecords].
Qed.

(** X18. A successful [createBooking] adds exactly one event and one booking:
    the event is public, of type booking, carries the candidate's start and
    end under a key no stored event had, and the booking returned points to
    it; before the call no stored event had exactly these endpoints, and if
    every booking event had its booking record before, every one has it
    after. *)
Theorem createBooking_success_effects (now : Date) (db db' : Database) (faults : Faults)
    (input : CreateBookingInput.t) (bookingId : nat) :
  createBooking now db faults input = (ApiResponse.ok bookingId, db') ->
  exists slotStart slotEnd ev bk,
    datetime (CreateBookingInput.slot_start input) = Some slotStart
    /\ datetime (CreateBookingInput.slot_end input) = Some slotEnd
    /\ now <= slotStart
    /\ events db' = events db ++ [ev]
    /\ bookings db' = bookings db ++ [bk]
    /\ availability_rules db' = availability_rules db
    /\ calendar_settings db' = calendar_settings db
    /\ Event.start_time ev = slotStart /\ Event.end_time ev = slotEnd
    /\ Event.is_public ev = true /\ Event.event_type ev = "booking"%string
    /\ Booking.id bk = bookingId /\ Booking.event_id bk = Event.id ev
    /\ Booking.status bk = "confirmed"%string
    /\ ~ (Event.id ev ∈ map Event.id (events db))
    /\ (forall old, old ∈ events db ->
          ~ (Event.start_time old = slotStart /\ Event.end_time old = slotEnd))
    /\ (noOrphanBooking db -> noOrphanBooking db').
Proof.
  intros H.
  destruct (createBooking_ok_inv _ _ _ _ _ _ H)
    as (slotStart & slotEnd & _ & Hs & He & Hfuture & Hnone & Hrecords).
  destruct (createRecords_ok_inv _ _ _ _ _ _ _ Hrecords) as (_ & -> & ->).
  eexists slotStart, slotEnd, _, _.
  do 14 (split; [done || reflexivity |]).
  split; [| split].
  - simpl. intros Hin. apply freshId_above in Hin. lia.
  - intros old Hold [Hos Hoe].
    assert (In old (List.filter (exactMatch slotStart slotEnd) (events db))) as Hin.
    { apply filter_In. split; [by apply list_elem_of_In |].
      unfold exactMatch. apply andb_true_iff. split; by apply Z.eqb_eq. }
    by rewrite Hnone in Hin.
  - intros Hlinked ev Hev Htype. simpl in Hev |- *.
    apply elem_of_app in Hev as [Hev | Hev].
    + destruct (Hlinked ev Hev Htype) as (b & Hb & Hlink).
      exists b. split; [apply elem_of_app; by left | exact Hlink].
    + apply list_elem_of_singleton in Hev. subst ev.
      eexists. split; [apply elem_of_app; right; apply list_elem_of_here | reflexivity].
Qed.

(** X19. While the store holds an event with exactly the candidate's start
    and end, [createBooking] does not succeed and leaves the store as it is,
    however its queries end (one such event: already booked; several: the
    check itself fails). *)
Theorem createBooking_exact_match_blocks (now : Date) (db : Database) (faults : Faults)
    (input : CreateBookingInput.t) (slotStart slotEnd : Date) (ev : Event.t) :
  datetime (CreateBookingInput.slot_start input) = Some slotStart ->
  datetime (CreateBookingInput.slot_end input) = Some slotEnd ->
  ev ∈ events db ->
  Event.start_time ev = slotStart ->
  Event.end_time ev = slotEnd ->
  ApiResponse.success (createBooking now db faults input).1 = false
  /\ (createBooking now db faults input).2 = db.
Proof.
  intros Hs He Hev Hes Hee.
  assert (In ev (List.filter (exactMatch slotStart slotEnd) (events db))) as Hin.
  { apply filter_In. split; [by apply list_elem_of_In |].
    unfold exactMatch. apply andb_true_iff. split; by apply Z.eqb_eq. }
  unfold Bookings.createBooking, Validations.safeParse.
  destruct (issues input) as [| msg rest]; [| done].
  rewrite Hs, He. destruct (slotStart <? now); [done |].
  unfold selectExisting.
  destruct (checkFault faults); simpl; [| done ..].
  change (List.filter _ (events db))
    with (List.filter (exactMatch slotStart slotEnd) (events db)).
  by destruct (List.filter (exactMatch slotStart slotEnd) (events db)) as [| x [| y more]].
Qed.

(** X20. After a successful booking, a further [createBooking] for the same
    start and end is refused and changes nothing; when it passes validation
    and the future check and the store answers the check, the refusal is
    the already-booked one. *)
Theorem createBooking_twice (now now' : Date) (db db' : Database) (faults faults' : Faults)
    (input input' : CreateBookingInput.t) (bookingId : nat) :
  createBooking now db faults input = (ApiResponse.ok bookingId, db') ->
  datetime (CreateBookingInput.slot_start input')
  = datetime (CreateBookingInput.slot_start input) ->
  datetime (CreateBookingInput.slot_end input')
  = datetime (CreateBookingInput.slot_end input) ->
  ApiResponse.success (createBooking now' db' faults' input').1 = false
  /\ (createBooking now' db' faults' input').2 = db'
  /\ (issues input' = [] ->
      (forall slotStart,
         datetime (CreateBookingInput.slot_start input) = Some slotStart ->
         now' <= slotStart) ->
      checkFault faults' = NoFault ->
      createBooking now' db' faults' input' = (ApiResponse.rejection alreadyBookedError, db')).
Proof.
  intros H Hs' He'.
  destruct (createBooking_ok_inv _ _ _ _ _ _ H)
    as (slotStart & slotEnd & _ & Hs & He & Hfuture & Hnone & Hrecords).
  destruct (createRecords_ok_inv _ _ _ _ _ _ _ Hrecords) as (Hok & -> & ->).
  rewrite Hs in Hs'. rewrite He in He'.
  set (ev := eventRow input slotStart slotEnd (freshId (map Event.id (events db)))) in *.
  split; [| split].
  - eapply (createBooking_exact_match_blocks _ _ _ _ slotStart slotEnd ev); try done.
    simpl. apply elem_of_app. right. apply list_elem_of_here.
  - eapply (createBooking_exact_match_blocks _ _ _ _ slotStart slotEnd ev); try done.
    simpl. apply elem_of_app. right. apply list_elem_of_here.
  - intros Hvalid Hnow Hcheck. specialize (Hnow slotStart Hs).
    unfold Bookings.createBooking, Validations.safeParse.
    rewrite Hvalid, Hs', He'. destruct (Z.ltb_spec slotStart now'); [lia |].
    unfold selectExisting. rewrite Hcheck. simpl.
    change (List.filter _ (events db ++ [ev]))
      with (List.filter (exactMatch slotStart slotEnd) (events db ++ [ev])).
    rewrite List.filter_app, Hnone. simpl.
    unfold exactMatch at 1. simpl. by rewrite !Z.eqb_refl.
Qed.

(** X21. [createBooking] never reads the availability rules or the
    calendar settings: with these two tables replaced by anything, the
    response is the same and so are the events and bookings left in the
    store.  Nothing ties a booking to the working hours, the slot duration,
    the notice or the horizon. *)
Theorem createBooking_ignores_schedule (now : Date) (db : Database) (faults : Faults)
    (input : CreateBookingInput.t) (rules : list AvailabilityRule.t)
    (settings : list CalendarSettings.t) :
  createBooking now (withConfig db rules settings) faults input
  = ((createBooking now db faults input).1,
     withConfig (createBooking now db faults input).2 rules settings).
Proof.
  unfold Bookings.createBooking, Validations.safeParse.
  destruct (issues input); [| reflexivity].
  destruct (datetime (CreateBookingInput.slot_start input)); [| reflexivity].
  destruct (datetime (CreateBookingInput.slot_end input)); [| reflexivity].
  destruct (_ <? now); [reflexivity |].
  unfold selectExisting. simpl.
  destruct (checkFault faults); simpl; try reflexivity.
  destruct (List.filter _ (events db)) as [| x [| y more]]; simpl; try reflexivity.
  unfold createRecords, insertEvent, insertBooking, deleteEvent. simpl.
  destruct (eventInsertFault faults); simpl; try reflexivity.
  destruct (eventConstraints _); simpl; try reflexivity.
  destruct (bookingInsertFault faults); simpl; try reflexivity.
  destruct (deleteFault faults); reflexivity.
Qed.

(** X22. [createBooking] does not compare the end with the start.  For a
    candidate that passes the guards but whose end is not after its start,
    or lies more than 24 hours after it, the CHECK constraints of the events
    table refuse the insert: the call is rejected with the event-creation
    message and the store is unchanged. *)
Theorem createBooking_invalid_interval (now : Date) (db : Database) (faults : Faults)
    (input : CreateBookingInput.t) (slotStart slotEnd : Date) :
  issues input = [] ->
  datetime (CreateBookingInput.slot_start input) = Some slotStart ->
  datetime (CreateBookingInput.slot_end input) = Some slotEnd ->
  now <= slotStart ->
  selectExisting db (checkFault faults) slotStart slotEnd
  = Resolved {| data := Some None; error := None |} ->
  eventInsertFault faults = NoFault ->
  slotEnd <= slotStart \/ 24 * MS_PER_HOUR < slotEnd - slotStart ->
  exists msg,
    createBooking now db faults input
    = (ApiResponse.rejection (String.append "Error al crear el evento: " msg), db).
Proof.
  intros Hvalid Hs He Hfuture Hcheck Hevent Hbad.
  rewrite (createBooking_guards_passed _ _ _ _ _ _ _ _ _ Hvalid Hs He Hfuture Hcheck).
  unfold createRecords, insertEvent. rewrite Hevent.
  assert (eventConstraints
            (eventRow input slotStart slotEnd (freshId (map Event.id (events db)))) = false)
    as ->.
  { unfold eventConstraints. simpl. apply andb_false_iff.
    destruct Hbad; [left; apply Z.ltb_ge | right; apply Z.leb_gt]; lia. }
  simpl. eauto.
Qed.

(** X23. A rejected [createBooking] leaves the events as they were, and the
    whole store when every booking points to a stored event, provided that
    the insert into bookings does not throw and that the store carries out
    the rollback delete. *)
Theorem createBooking_rejection_keeps_store (now : Date) (db : Database) (faults : Faults)
    (input : CreateBookingInput.t) :
  ApiResponse.success (createBooking now db faults input).1 = false ->
  (forall msg, bookingInsertFault faults <> Throws msg) ->
  deleteFault faults = NoFault ->
  events (createBooking now db faults input).2 = events db
  /\ (referencesEvents db -> (createBooking now db faults input).2 = db).
Proof.
  intros Hrejected Hnothrow Hdelete.
  assert (Hsame : forall r : ApiResponse.t nat,
            events (r, db).2 = events db /\ (referencesEvents db -> (r, db).2 = db))
    by done.
  revert Hrejected. unfold Bookings.createBooking, Validations.safeParse.
  destruct (issues input); [| done].
  destruct (datetime (CreateBookingInput.slot_start input)) as [slotStart |]; [| done].
  destruct (datetime (CreateBookingInput.slot_end input)) as [slotEnd |]; [| done].
  destruct (_ <? now); [done |].
  destruct (selectExisting db (checkFault faults) slotStart slotEnd) as [check | msg];
    [| done].
  destruct (error check); [done |].
  destruct (data check) as [[existing |] |]; [done | |];
    unfold createRecords, insertEvent, insertBooking, deleteEvent; rewrite Hdelete;
    (destruct (eventInsertFault faults); simpl; [| done ..];
     destruct (eventConstraints _); simpl; [| done];
     destruct (bookingInsertFault faults) as [| e | msg]; simpl;
       [done | | by destruct (Hnothrow msg)];
     intros _;
     pose proof (delete_inserted_event (events db) (eventRow input slotStart slotEnd) eq_refl)
       as Hdel; simpl in Hdel;
     split; [exact Hdel |];
     intros Hrefs; destruct db as [evs bks rules settings]; simpl in *; f_equal;
       [exact Hdel |];
     apply filter_keeps_all; intros b Hb;
     destruct (Hrefs b Hb) as (ev & Hev & <-);
     assert (Event.id ev < freshId (map Event.id evs))%nat as Hfresh
       by (apply freshId_above, list_elem_of_fmap; eauto);
     apply negb_true_iff, Nat.eqb_neq; lia).
Qed.

(** X24. The rollback has two gaps.  When the insert into bookings throws,
    or when it fails and the rollback delete is not carried out, the call is
    rejected but the event it created stays in the store, public and of type
    booking, with no booking record: the slot is taken by nobody. *)
Theorem createBooking_orphan_event (now : Date) (db : Database) (faults : Faults)
    (input : CreateBookingInput.t) (slotStart slotEnd : Date) :
  issues input = [] ->
  datetime (CreateBookingInput.slot_start input) = Some slotStart ->
  datetime (CreateBookingInput.slot_end input) = Some slotEnd ->
  now <= slotStart ->
  selectExisting db (checkFault faults) slotStart slotEnd
  = Resolved {| data := Some None; error := None |} ->
  eventInsertFault faults = NoFault ->
  slotStart < slotEnd ->
  slotEnd - slotStart <= 24 * MS_PER_HOUR ->
  (exists msg, bookingInsertFault faults = Throws msg)
  \/ (exists e, bookingInsertFault faults = Fails e /\ deleteFault faults <> NoFault) ->
  referencesEvents db ->
  exists r db' ev,
    createBooking now db faults input = (r, db')
    /\ ApiResponse.success r = false
    /\ events db' = events db ++ [ev]
    /\ bookings db' = bookings db
    /\ Event.event_type ev = "booking"%string
    /\ Event.is_public ev = true
    /\ Event.start_time ev = slotStart /\ Event.end_time ev = slotEnd
    /\ ~ noOrphanBooking db'.
Proof.
  intros Hvalid Hs He Hfuture Hcheck Hevent Hlt Hday Hgap Hrefs.
  rewrite (createBooking_guards_passed _ _ _ _ _ _ _ _ _ Hvalid Hs He Hfuture Hcheck).
  unfold createRecords, insertEvent. rewrite Hevent.
  rewrite eventConstraints_eventRow by assumption. simpl.
  set (newId := freshId (map Event.id (events db))).
  assert (Horphan : forall db',
            events db' = events db ++ [eventRow input slotStart slotEnd newId] ->
            bookings db' = bookings db -> ~ noOrphanBooking db').
  { intros db' Hevs Hbks Hlinked.
    destruct (Hlinked (eventRow input slotStart slotEnd newId)) as (b & Hb & Hlink).
    - rewrite Hevs. apply elem_of_app. right. apply list_elem_of_here.
    - reflexivity.
    - rewrite Hbks in Hb. destruct (Hrefs b Hb) as (ev & Hev & Hid).
      assert (Event.id ev < newId)%nat
        by (apply freshId_above, list_elem_of_fmap; eauto).
      simpl in Hlink. lia. }
  unfold insertBooking, deleteEvent.
  destruct Hgap as [[msg ->] | (e & -> & Hnodelete)]; simpl.
  - do 3 eexists. split; [reflexivity |]. simpl. repeat (split; [reflexivity |]).
    by apply Horphan.
  - destruct (deleteFault faults) as [| e' | msg]; [done | |]; simpl;
      (do 3 eexists; split; [reflexivity |]; simpl; repeat (split; [reflexivity |]);
       by apply Horphan).
Qed.

End BookingEffects.

Lemma createBooking_success_effects_witness :
  exists ev bk,
    events (createBooking datetimeTable emailTable phoneTable monday_8am emptyDb noFaults
              anaBooking).2 = events emptyDb ++ [ev]
    /\ bookings (createBooking datetimeTable emailTable phoneTable monday_8am emptyDb noFaults
                   anaBooking).2 = bookings emptyDb ++ [bk]
    /\ Booking.event_id bk = Event.id ev.
Proof.
  destruct (createBooking_success_effects datetimeTable emailTable phoneTable
              monday_8am emptyDb
              (createBooking datetimeTable emailTable phoneTable monday_8am emptyDb noFaults
                 anaBooking).2
              noFaults anaBooking 1 eq_refl)
    as (slotStart & slotEnd & ev & bk & _ & _ & _ & Hevs & Hbks & _ & _ & _ & _ & _ & _
        & _ & Hlink & _).
  exists ev, bk. by repeat split.
Defined.

Lemma createBooking_exact_match_blocks_witness :
  ApiResponse.success
    (createBooking datetimeTable emailTable phoneTable monday_8am bookedDb noFaults
       anaBooking).1 = false
  /\ (createBooking datetimeTable emailTable phoneTable monday_8am bookedDb noFaults
        anaBooking).2 = bookedDb.
Proof.
  apply (createBooking_exact_match_blocks datetimeTable emailTable phoneTable
           monday_8am bookedDb noFaults anaBooking monday_9am (addMinutes monday_9am 30)
           booked_0900);
    try reflexivity. apply list_elem_of_here.
Defined.

Lemma createBooking_twice_witness :
  let db' := (createBooking datetimeTable emailTable phoneTable monday_8am emptyDb noFaults
                anaBooking).2 in
  createBooking datetimeTable emailTable phoneTable monday_8am db' noFaults anaBooking
  = (ApiResponse.rejection alreadyBookedError, db').
Proof.
  intros db'.
  apply (createBooking_twice datetimeTable emailTable phoneTable
           monday_8am monday_8am emptyDb db' noFaults noFaults anaBooking anaBooking 1);
    try reflexivity.
  intros slotStart [= <-]. by vm_compute.
Defined.

Lemma createBooking_invalid_interval_witness :
  exists msg,
    createBooking datetimeTable emailTable phoneTable monday_8am emptyDb noFaults emptyBooking
    = (ApiResponse.rejection (String.append "Error al crear el evento: " msg), emptyDb).
Proof.
  apply (createBooking_invalid_interval datetimeTable emailTable phoneTable
           monday_8am emptyDb noFaults emptyBooking monday_9am monday_9am);
    try reflexivity; [by vm_compute | left; lia].
Defined.

Lemma createBooking_rejection_keeps_store_witness :
  events (createBooking datetimeTable emailTable phoneTable monday_8am bookedDb
            bookingInsertFails anaBooking).2 = events bookedDb
  /\ (referencesEvents bookedDb ->
      (createBooking datetimeTable emailTable phoneTable monday_8am bookedDb
         bookingInsertFails anaBooking).2 = bookedDb).
Proof.
  apply (createBooking_rejection_keeps_store datetimeTable emailTable phoneTable
           monday_8am bookedDb bookingInsertFails anaBooking);
    [reflexivity | intros msg; discriminate | reflexivity].
Defined.

Lemma createBooking_orphan_event_witness :
  exists r db' ev,
    createBooking datetimeTable emailTable phoneTable monday_8am emptyDb bookingInsertThrows
      anaBooking = (r, db')
    /\ ApiResponse.success r = false
    /\ events db' = events emptyDb ++ [ev]
    /\ bookings db' = bookings emptyDb
    /\ Event.event_type ev = "booking"%string
    /\ Event.is_public ev = true
    /\ Event.start_time ev = monday_9am /\ Event.end_time ev = addMinutes monday_9am 30
    /\ ~ noOrphanBooking db'.
Proof.
  apply (createBooking_orphan_event datetimeTable emailTable phoneTable
           monday_8am emptyDb bookingInsertThrows anaBooking
           monday_9am (addMinutes monday_9am 30));
    try reflexivity; try (by vm_compute).
  - left. eexists. reflexivity.
  - intros b Hb. by apply elem_of_nil in Hb.
Defined.

(** ** [cancelBooking] *)

Section Cancelled.
Variable datetime : string -> option Date.
Variable isEmail : string -> bool.
Variable matchesPhone : string -> bool.

Local Abbreviation createBooking := (Bookings.createBooking datetime isEmail matchesPhone).

(** The response of [createBooking] depends on the store through its events
    and the keys of its bookings only. *)
Lemma createBooking_response_congr (now : Date) (db1 db2 : Database) (faults : Faults)
    (input : CreateBookingInput.t) :
  events db1 = events db2 ->
  map Booking.id (bookings db1) = map Booking.id (bookings db2) ->
  (createBooking now db1 faults input).1 = (createBooking now db2 faults input).1.
Proof.
  intros Hevents Hids.
  unfold Bookings.createBooking, Validations.safeParse.
  destruct (Validations.issues _ _ _ input); [| reflexivity].
  destruct (datetime (CreateBookingInput.slot_start input)); [| reflexivity].
  destruct (datetime (CreateBookingInput.slot_end input)); [| reflexivity].
  destruct (_ <? now); [reflexivity |].
  unfold selectExisting. rewrite Hevents.
  destruct (checkFault faults); simpl; try reflexivity.
  destruct (List.filter _ (events db2)) as [| x [| y more]]; simpl; try reflexivity.
  unfold createRecords, insertEvent. rewrite Hevents.
  destruct (eventInsertFault faults); cbn -[freshId]; try reflexivity.
  destruct (eventConstraints _); cbn -[freshId]; try reflexivity.
  unfold insertBooking. cbn [bookings]. rewrite Hids.
  destruct (bookingInsertFault faults); cbn -[freshId]; try reflexivity.
  unfold deleteEvent. destruct (deleteFault faults); reflexivity.
Qed.

(** X25. [cancelBooking] only writes the status column of bookings: the
    events stay, so the cancelled booking's slot stays occupied.  Whatever
    the outcome of the call, [getAvailableSlots] returns what it returned
    before and [createBooking] answers as it answered before (a new booking
    of the cancelled slot is still refused). *)
Theorem cancelBooking_keeps_slot_taken (db : Database) (fault : Fault)
    (mayUpdate : Booking.t -> bool) (id : nat) :
  let db' := (cancelBooking db fault mayUpdate id).2 in
  events db' = events db
  /\ map Booking.id (bookings db') = map Booking.id (bookings db)
  /\ map Booking.event_id (bookings db') = map Booking.event_id (bookings db)
  /\ (forall tz fuel eventsFault rulesFault params,
        getAvailableSlots tz fuel db' eventsFault rulesFault params
        = getAvailableSlots tz fuel db eventsFault rulesFault params)
  /\ (forall now faults input,
        (createBooking now db' faults input).1 = (createBooking now db faults input).1).
Proof.
  intros db'.
  assert (Hevents : events db' = events db)
    by (unfold db', cancelBooking, updateStatus; by destruct fault).
  assert (Hrules : availability_rules db' = availability_rules db)
    by (unfold db', cancelBooking, updateStatus; by destruct fault).
  assert (Hids : map Booking.id (bookings db') = map Booking.id (bookings db)).
  { unfold db', cancelBooking, updateStatus. destruct fault; try reflexivity. simpl.
    rewrite map_map. apply map_ext. intros b. by destruct (_ && _). }
  assert (Hlinks : map Booking.event_id (bookings db')
                   = map Booking.event_id (bookings db)).
  { unfold db', cancelBooking, updateStatus. destruct fault; try reflexivity. simpl.
    rewrite map_map. apply map_ext. intros b. by destruct (_ && _). }
  repeat split; try assumption.
  - intros tz fuel eventsFault rulesFault params.
    unfold getAvailableSlots, selectEvents, selectActiveRules. by rewrite Hevents, Hrules.
  - intros now faults input. by apply createBooking_response_congr.
Qed.

End Cancelled.

(** ** Calendar helpers *)

Lemma localTime_startOfDay (tz : Z) (d : Date) :
  localTime tz (startOfDay tz d) = MS_PER_DAY * (localTime tz d / MS_PER_DAY).
Proof.
  unfold startOfDay.
  assert (forall x, localTime tz x = x + tz) as Hlocal by reflexivity.
  rewrite (Hlocal (d - _)).
  pose proof (Z.div_mod (localTime tz d) MS_PER_DAY) as Hdm.
  rewrite Hlocal in *. unfold MS_PER_DAY in *. lia.
Qed.

Lemma startOfDay_midnight (tz : Z) (d : Date) :
  localTime tz (startOfDay tz d) mod MS_PER_DAY = 0.
Proof. rewrite localTime_startOfDay, Z.mul_comm. by apply Z.mod_mul. Qed.

Lemma dayNumber_startOfDay (tz : Z) (d : Date) :
  dayNumber tz (startOfDay tz d) = dayNumber tz d.
Proof.
  unfold dayNumber. rewrite localTime_startOfDay, Z.mul_comm. by apply Z.div_mul.
Qed.


Lemma startOfDay_addDays (tz : Z) (d : Date) (n : Z) :
  startOfDay tz (addDays d n) = addDays (startOfDay tz d) n.
Proof.
  unfold startOfDay, addDays, localTime.
  replace (d + n * MS_PER_DAY + tz) with (d + tz + n * MS_PER_DAY) by lia.
  rewrite Z.mod_add by done. lia.
Qed.


Lemma getDay_startOfDay (tz : Z) (d : Date) : getDay tz (startOfDay tz d) = getDay tz d.
Proof. unfold getDay. by rewrite dayNumber_startOfDay. Qed.





Lemma elem_of_getDateRange (startDate : Date) (days : Z) (date : Date) :
  date ∈ getDateRange startDate days
  <-> exists i, 0 <= i < days /\ date = addDays startDate i.
Proof.
  split; [apply getDateRange_elem |].
  intros (i & Hi & ->).
  apply list_elem_of_lookup. exists (Z.to_nat i).
  rewrite getDateRange_lookup by lia. by rewrite Z2Nat.id by lia.
Qed.

(** X27.  [getAvailableDates] compares by calendar day, not by instant: it
    returns exactly the local midnights of today and of the following days,
    [advanceDays] days in all, whose calendar day is not the day of any
    excluded date, whatever the time of day of the excluded dates and of the
    call. *)
Theorem getAvailableDates_by_calendar_day (tz : Z) (now : Date) (advanceDays : Z)
    (excludedDates : list Date) (date : Date) :
  date ∈ getAvailableDates tz now advanceDays excludedDates
  <-> exists i,
        0 <= i < advanceDays
        /\ date = addDays (startOfDay tz now) i
        /\ localTime tz date mod MS_PER_DAY = 0
        /\ dayNumber tz date = dayNumber tz now + i
        /\ forall excluded, excluded ∈ excludedDates ->
             dayNumber tz excluded <> dayNumber tz now + i.
Proof.
  unfold getAvailableDates.
  rewrite list_elem_of_In, filter_In, <- list_elem_of_In, elem_of_getDateRange.
  assert (forall i, dayNumber tz (addDays (startOfDay tz now) i) = dayNumber tz now + i)
    as Hnumber.
  { intros i. by rewrite dayNumber_addDays, dayNumber_startOfDay. }
  split.
  - intros [(i & Hi & ->) Hkept]. exists i.
    split; [assumption |]. split; [reflexivity |].
    split; [rewrite <- startOfDay_addDays; apply startOfDay_midnight |].
    split; [apply Hnumber |].
    intros excluded Hin Hsame.
    apply negb_true_iff in Hkept.
    assert (existsb (fun e => isSameDay tz (addDays (startOfDay tz now) i) e) excludedDates
            = true) as Hex; [| congruence].
    apply existsb_exists. exists excluded. split; [by apply list_elem_of_In |].
    unfold isSameDay. rewrite Hnumber. apply Z.eqb_eq. lia.
  - intros (i & Hi & -> & _ & _ & Hfree).
    split; [by exists i |].
    apply negb_true_iff. apply not_true_is_false. intros Hex.
    apply existsb_exists in Hex as (excluded & Hin & Hsame).
    unfold isSameDay in Hsame. rewrite Hnumber in Hsame. apply Z.eqb_eq in Hsame.
    apply list_elem_of_In in Hin. by apply (Hfree excluded Hin).
Qed.



(** ** The calendar's day cells and the picker's time list *)

Lemma insertByStart_perm (s : TimeSlot.t) (sorted : list TimeSlot.t) :
  DateTimePicker.insertByStart s sorted ≡ₚ s :: sorted.
Proof.
  induction sorted as [| s' rest IH]; simpl; [reflexivity |].
  destruct (TimeSlot.start s <=? TimeSlot.start s'); [reflexivity |].
  rewrite IH. apply Permutation_swap.
Qed.

Lemma sortByStart_perm (slots : list TimeSlot.t) :
  DateTimePicker.sortByStart slots ≡ₚ slots.
Proof.
  induction slots as [| s slots IH]; simpl; [reflexivity |].
  by rewrite insertByStart_perm, IH.
Qed.

Lemma insertByStart_sorted (s : TimeSlot.t) (sorted : list TimeSlot.t) :
  StronglySorted (fun a b => TimeSlot.start a <= TimeSlot.start b) sorted ->
  StronglySorted (fun a b => TimeSlot.start a <= TimeSlot.start b)
    (DateTimePicker.insertByStart s sorted).
Proof.
  induction 1 as [| s' rest Hrest IH Hall]; simpl.
  - repeat constructor.
  - destruct (Z.leb_spec (TimeSlot.start s) (TimeSlot.start s')) as [Hle | Hgt].
    + constructor; [by constructor |].
      constructor; [assumption |].
      eapply Forall_impl; [exact Hall |]. simpl. intros; lia.
    + constructor; [assumption |].
      rewrite insertByStart_perm. constructor; [lia | assumption].
Qed.

Lemma sortByStart_sorted (slots : list TimeSlot.t) :
  StronglySorted (fun a b => TimeSlot.start a <= TimeSlot.start b)
    (DateTimePicker.sortByStart slots).
Proof.
  induction slots as [| s slots IH]; simpl; [constructor |].
  by apply insertByStart_sorted.
Qed.

Lemma filter_filter_andb {A : Type} (f g : A -> bool) (l : list A) :
  List.filter f (List.filter g l) = List.filter (fun x => g x && f x) l.
Proof.
  induction l as [| x l IH]; [reflexivity |].
  simpl. destruct (g x); simpl; [destruct (f x) |]; by rewrite ?IH.
Qed.

(** The slots the picker keeps for the selected day are the slots the
    calendar counts for that day. *)
Lemma picker_filter_counted (tz : Z) (now selected : Date) (slots : list TimeSlot.t) :
  List.filter
    (fun s =>
       let slotTime := TimeSlot.start s in
       if (slotTime <? DateTimePicker.minDate now) || (DateTimePicker.maxDate now <? slotTime)
       then false
       else isSameDay tz (startOfDay tz slotTime) (startOfDay tz selected))
    (List.filter TimeSlot.available slots)
  = List.filter
      (fun s => Calendar.counted now s
                && (dayNumber tz (TimeSlot.start s) =? dayNumber tz selected))
      slots.
Proof.
  rewrite filter_filter_andb. apply filter_ext. intros s. cbn beta zeta.
  unfold Calendar.counted, isSameDay. rewrite !dayNumber_startOfDay.
  change (DateTimePicker.minDate now) with (Calendar.minDate now).
  change (DateTimePicker.maxDate now) with (Calendar.maxDate now).
  destruct (TimeSlot.available s); [| reflexivity].
  by destruct ((TimeSlot.start s <? Calendar.minDate now)
               || (Calendar.maxDate now <? TimeSlot.start s)).
Qed.

Lemma availableByDay_fold (tz : Z) (now : Date) (slots : list TimeSlot.t)
    (byDay : gmap Z Z) (key : Z) :
  fold_left
    (fun byDay s =>
       if negb (TimeSlot.available s) then byDay
       else
         let slotDate := TimeSlot.start s in
         if (slotDate <? Calendar.minDate now) || (Calendar.maxDate now <? slotDate)
         then byDay
         else
           let key := CalendarDays.dayKey tz (startOfDay tz slotDate) in
           <[key := orZero (byDay !! key) + 1]> byDay)
    slots byDay !! key
  = match List.filter
            (fun s => Calendar.counted now s && (dayNumber tz (TimeSlot.start s) =? key))
            slots with
    | [] => byDay !! key
    | counted => Some (orZero (byDay !! key) + Z.of_nat (length counted))
    end.
Proof.
  revert byDay. induction slots as [| s slots IH]; intros byDay; [reflexivity |].
  cbn [fold_left List.filter]. rewrite IH. unfold Calendar.counted at 2.
  destruct (TimeSlot.available s); cbn [negb andb]; [| reflexivity].
  destruct ((TimeSlot.start s <? Calendar.minDate now)
            || (Calendar.maxDate now <? TimeSlot.start s)); cbn [negb]; [reflexivity |].
  unfold CalendarDays.dayKey. rewrite dayNumber_startOfDay.
  destruct (Z.eqb_spec (dayNumber tz (TimeSlot.start s)) key) as [-> | Hother].
  - rewrite lookup_insert_eq. unfold orZero. cbn [default from_option id length].
    destruct (List.filter _ slots); cbn [andb length]; f_equal; lia.
  - cbn [andb]. by rewrite lookup_insert_ne.
Qed.

(** X29.  The times the picker lists for a selected day are exactly the
    received slots that are available, start between now plus 12 hours and
    now plus 7 days (both ends included) and start on the selected local
    calendar day; each is listed as often as it was received, in
    chronological order of the start.  Without a selected day the list is
    empty. *)
Theorem selectedDateSlots_listing (tz : Z) (now selected : Date) (slots : list TimeSlot.t) :
  let shown := DateTimePicker.selectedDateSlots tz now (Some selected) slots in
  shown ≡ₚ List.filter
             (fun s => TimeSlot.available s
                       && (DateTimePicker.minDate now <=? TimeSlot.start s)
                       && (TimeSlot.start s <=? DateTimePicker.maxDate now)
                       && isSameDay tz (TimeSlot.start s) selected)
             slots
  /\ StronglySorted (fun a b => TimeSlot.start a <= TimeSlot.start b) shown
  /\ DateTimePicker.selectedDateSlots tz now None slots = [].
Proof.
  cbn zeta. unfold DateTimePicker.selectedDateSlots.
  split; [| split; [apply sortByStart_sorted | reflexivity]].
  rewrite sortByStart_perm, picker_filter_counted.
  induction slots as [| s slots IH]; [reflexivity |].
  cbn [List.filter]. unfold Calendar.counted at 1, isSameDay at 1.
  change (DateTimePicker.minDate now) with (Calendar.minDate now) in *.
  change (DateTimePicker.maxDate now) with (Calendar.maxDate now) in *.
  replace (negb ((TimeSlot.start s <? Calendar.minDate now)
                 || (Calendar.maxDate now <? TimeSlot.start s)))
    with ((Calendar.minDate now <=? TimeSlot.start s)
          && (TimeSlot.start s <=? Calendar.maxDate now)).
  2: { rewrite negb_orb, !Z.ltb_antisym, !negb_involutive. reflexivity. }
  rewrite andb_assoc.
  destruct (_ && _ && _ && _); [by constructor | exact IH].
Qed.

(** X30.  Computed from the same instant, the calendar and the picker
    agree: the number [availableByDay] holds for a day is the number of
    times the picker lists for that day, and the day has no entry exactly
    when that list is empty.  So the cell of a day is enabled exactly when
    the day is in the shown month and selecting it lists at least one time,
    and it carries the dot exactly when, besides, it is not the selected
    day. *)
Theorem availableByDay_counts_listed (tz : Z) (now day : Date) (slots : list TimeSlot.t) :
  let shown := DateTimePicker.selectedDateSlots tz now (Some day) slots in
  let byDay := CalendarDays.availableByDay tz now slots in
  byDay !! CalendarDays.dayKey tz (startOfDay tz day)
  = (if decide (shown = []) then None else Some (Z.of_nat (length shown)))
  /\ (CalendarDays.hasAvailability tz byDay day = true <-> shown <> [])
  /\ (forall inMonth,
        CalendarDays.disabled inMonth (CalendarDays.hasAvailability tz byDay day) = false
        <-> inMonth = true /\ shown <> [])
  /\ (forall inMonth selectedDate,
        CalendarDays.dot inMonth (CalendarDays.hasAvailability tz byDay day)
          (CalendarDays.isSelected tz selectedDate day) = true
        <-> inMonth = true /\ shown <> []
            /\ CalendarDays.isSelected tz selectedDate day = false).
Proof.
  cbn zeta.
  assert (CalendarDays.availableByDay tz now slots
            !! CalendarDays.dayKey tz (startOfDay tz day)
          = if decide (DateTimePicker.selectedDateSlots tz now (Some day) slots = [])
            then None
            else Some (Z.of_nat
                         (length (DateTimePicker.selectedDateSlots tz now (Some day) slots))))
    as Hentry.
  { unfold CalendarDays.availableByDay. rewrite availableByDay_fold, lookup_empty.
    unfold CalendarDays.dayKey. rewrite dayNumber_startOfDay.
    pose proof (sortByStart_perm
                  (List.filter
                     (fun s => Calendar.counted now s
                               && (dayNumber tz (TimeSlot.start s) =? dayNumber tz day))
                     slots)) as Hperm.
    unfold DateTimePicker.selectedDateSlots. rewrite picker_filter_counted.
    destruct (List.filter _ slots) as [| s counted] eqn:Hcounted.
    - reflexivity.
    - destruct (decide _) as [Hnil | _].
      + rewrite Hnil in Hperm. by apply Permutation_nil_cons in Hperm.
      + rewrite (Permutation_length Hperm). reflexivity. }
  assert (CalendarDays.hasAvailability tz (CalendarDays.availableByDay tz now slots) day
          = true
          <-> DateTimePicker.selectedDateSlots tz now (Some day) slots <> []) as Hhas.
  { unfold CalendarDays.hasAvailability. rewrite Hentry.
    destruct (decide _) as [Hnil | Hsome].
    - split; [| done]. intros Hhas. apply bool_decide_eq_true in Hhas.
      by destruct Hhas.
    - split; [done |]. intros _. apply bool_decide_eq_true. by eexists. }
  split; [exact Hentry |]. split; [exact Hhas |]. split.
  - intros inMonth. rewrite <- Hhas. unfold CalendarDays.disabled.
    destruct inMonth, (CalendarDays.hasAvailability _ _ _); simpl; intuition congruence.
  - intros inMonth selectedDate. rewrite <- Hhas. unfold CalendarDays.dot.
    destruct inMonth, (CalendarDays.hasAvailability _ _ _),
      (CalendarDays.isSelected _ _ _); simpl; intuition congruence.
Qed.
